(** * sentry-api-cli: the command dispatcher, the API operations and the
    result formatter, embedded from [src/commands/runner.ts], the API wrapper
    module of [src/utils], [src/utils/sentry-utils.ts] and the command tables
    of [src/config/constants.ts].

    JavaScript values are an inductive type, objects are association lists in
    own-property order, and the effects of the program (the module-level
    [sentryUtil] variable, the client pool, the console, [process.exit],
    exceptions and the HTTP requests sent) are threaded through a small
    state-and-outcome monad. *)

From Stdlib Require Import String Ascii List Bool Arith PeanoNat ZArith Lia.
From Stdlib Require Import DecimalString DecimalNat DecimalZ.
Import ListNotations.
Open Scope string_scope.

(** ** Characters and strings *)

Module Str.

(** The double-quote character, code 34. *)
Definition dquote : ascii := ascii_of_nat 34.
(** The backslash character, code 92. *)
Definition backslash : ascii := ascii_of_nat 92.
(** Line feed, code 10. *)
Definition newline : ascii := ascii_of_nat 10.

Definition dq : string := String dquote "".
Definition nl : string := String newline "".

(** [quoted s] is [s] between double quotes, without any escaping. *)
Definition quoted (s : string) : string := dq ++ s ++ dq.

(** [Array.prototype.join] on strings. *)
Fixpoint join (sep : string) (l : list string) : string :=
  match l with
  | [] => ""
  | [x] => x
  | x :: r => x ++ sep ++ join sep r
  end.

(** [n] spaces. *)
Fixpoint spaces (n : nat) : string :=
  match n with
  | O => ""
  | S k => String " " (spaces k)
  end.

(** [sub] occurs in [s]. *)
Definition includes (s sub : string) : Prop :=
  exists pre post, s = pre ++ sub ++ post.

(** Decimal rendering of a natural number, as [String(i)] gives for an index. *)
Definition of_nat (n : nat) : string := NilZero.string_of_uint (Nat.to_uint n).

End Str.

(** ** JavaScript values *)

Module JS.

(** The finite numbers of the language. Their decimal conversions are the
    engine's ([Number::toString] and the JSON number grammar); the development
    only relies on the interface below. *)
Class JSNumber (num : Type) : Type := {
  num_eqb : num -> num -> bool;
  (** [Number::toString], which is also what [JSON.stringify] emits. *)
  num_to_string : num -> string;
  (** The value of a JSON number literal, [None] when it is not one. *)
  num_of_string : string -> option num;
  (** [+0] and [-0], the falsy numbers. *)
  num_is_zero : num -> bool;
  (** The number an integer literal of the program denotes. *)
  num_of_Z : Z -> num;
}.

Section Values.
Context {num : Type} `{JSNumber num}.

Unset Elimination Schemes.
Inductive JValue : Type :=
| JUndefined
| JNull
| JBool (b : bool)
| JNum (n : num)
| JStr (s : string)
| JArr (elements : list JValue)
| JObj (properties : list (string * JValue)).
Set Elimination Schemes.

(** Own property lookup in an object's association list. *)
Fixpoint lookup (k : string) (m : list (string * JValue)) : option JValue :=
  match m with
  | [] => None
  | (k', v) :: r => if String.eqb k k' then Some v else lookup k r
  end.

Definition has_key (k : string) (m : list (string * JValue)) : bool :=
  match lookup k m with Some _ => true | None => false end.

(** [ToBoolean]: the falsy values are [undefined], [null], [false], zero and
    the empty string. *)
Definition ToBoolean (v : JValue) : bool :=
  match v with
  | JUndefined | JNull => false
  | JBool b => b
  | JNum n => negb (num_is_zero n)
  | JStr s => negb (String.eqb s "")
  | JArr _ | JObj _ => true
  end.

(** [a || b] *)
Definition or_else (a b : JValue) : JValue := if ToBoolean a then a else b.

(** Sequencing of string conversions that may fail. *)
Fixpoint strings_of (l : list (option string)) : option (list string) :=
  match l with
  | [] => Some []
  | Some s :: r => option_map (cons s) (strings_of r)
  | None :: _ => None
  end.

(** [ToString], as a template literal or [String(v)] applies it. [None] is the
    [TypeError] of [OrdinaryToPrimitive]: a JSON object with an own [toString]
    property has no callable [toString], and [valueOf] returns the object.
    Arrays go through [Array.prototype.join], which renders [null] and
    [undefined] elements as empty. *)
Fixpoint ToString (v : JValue) : option string :=
  match v with
  | JUndefined => Some "undefined"
  | JNull => Some "null"
  | JBool true => Some "true"
  | JBool false => Some "false"
  | JNum n => Some (num_to_string n)
  | JStr s => Some s
  | JArr l =>
      option_map (Str.join ",")
        (strings_of (map (fun x => match x with
                                   | JUndefined | JNull => Some ""
                                   | _ => ToString x
                                   end) l))
  | JObj m => if has_key "toString" m then None else Some "[object Object]"
  end.

(** What a [throw] carries, as far as the handlers of this program look at it:
    an axios error ([axios.isAxiosError]) with its [message] and, when the
    server answered, [response.data]; any other [Error] with its [message]; or
    a value that is not an [Error], kept as its [String(...)] conversion. *)
Inductive Thrown : Type :=
| AxiosError (message : string) (response_data : option JValue)
| Error (message : string)
| NonError (str : string).

(** The message of the [TypeError] raised by a failed string conversion. *)
Definition TypeError_primitive : Thrown :=
  Error "Cannot convert object to primitive value".

(** The message of the [TypeError] raised by reading a property of [null] or
    [undefined]. *)
Definition TypeError_read (v k : string) : Thrown :=
  Error ("Cannot read properties of " ++ v ++ " (reading '" ++ k ++ "')").

(** [v.k] for a key [k] that no built-in prototype defines (the program reads
    [profile], [format], [projectSlug], [issueId], [eventId], [tagKey] and
    [detail]): an own property of an object, [undefined] on any other value
    that can be boxed, a [TypeError] on [null] and [undefined]. *)
Definition Get (v : JValue) (k : string) : Thrown + JValue :=
  match v with
  | JUndefined => inl (TypeError_read "undefined" k)
  | JNull => inl (TypeError_read "null" k)
  | JObj m => inr (match lookup k m with Some x => x | None => JUndefined end)
  | _ => inr JUndefined
  end.

(** [v?.k] *)
Definition GetOpt (v : JValue) (k : string) : JValue :=
  match Get v k with inr x => x | inl _ => JUndefined end.

(** The characters of a string as one-character strings. *)
Fixpoint chars (s : string) : list JValue :=
  match s with
  | EmptyString => []
  | String c r => JStr (String c "") :: chars r
  end.

(** Index keys ["i"], ["i+1"], ... for the elements of [l]. *)
Fixpoint indexed (i : nat) (l : list JValue) : list (string * JValue) :=
  match l with
  | [] => []
  | x :: r => (Str.of_nat i, x) :: indexed (S i) r
  end.

(** The own enumerable string-keyed properties of [ToObject(v)], in order:
    what an object rest pattern copies. A string has one index property per
    code unit; texts are sequences of bytes here, which is the same on ASCII
    text. *)
Definition own_properties (v : JValue) : list (string * JValue) :=
  match v with
  | JObj m => m
  | JArr l => indexed 0 l
  | JStr s => indexed 0 (chars s)
  | _ => []
  end.

(** Induction on values, through the elements of arrays and the properties
    of objects. *)
Definition JValue_ind (P : JValue -> Prop)
  (Hundefined : P JUndefined) (Hnull : P JNull)
  (Hbool : forall b, P (JBool b)) (Hnum : forall n, P (JNum n))
  (Hstr : forall s, P (JStr s))
  (Harr : forall l, Forall P l -> P (JArr l))
  (Hobj : forall m, Forall (fun kv => P (snd kv)) m -> P (JObj m))
  : forall v, P v :=
  fix go (v : JValue) : P v :=
    match v with
    | JUndefined => Hundefined
    | JNull => Hnull
    | JBool b => Hbool b
    | JNum n => Hnum n
    | JStr s => Hstr s
    | JArr l =>
        Harr l ((fix all (l : list JValue) : Forall P l :=
                   match l with
                   | [] => Forall_nil P
                   | x :: r => Forall_cons x (go x) (all r)
                   end) l)
    | JObj m =>
        Hobj m ((fix all (m : list (string * JValue)) : Forall (fun kv => P (snd kv)) m :=
                   match m with
                   | [] => Forall_nil _
                   | kv :: r => Forall_cons kv (go (snd kv)) (all r)
                   end) m)
    end.

End Values.

Arguments JValue num : clear implicits.
Arguments Thrown num : clear implicits.

End JS.

(** ** [JSON.stringify] *)

Module JSON.
Import Str JS.

Section Stringify.
Context {num : Type} `{JSNumber num}.

Definition hex_digit (n : nat) : ascii :=
  match n with
  | 0 => "0" | 1 => "1" | 2 => "2" | 3 => "3" | 4 => "4" | 5 => "5"
  | 6 => "6" | 7 => "7" | 8 => "8" | 9 => "9" | 10 => "a" | 11 => "b"
  | 12 => "c" | 13 => "d" | 14 => "e" | _ => "f"
  end%char.

(** One character of [QuoteJSONString]: the two-character escapes, [\u00xx]
    for the other control characters, and the character itself otherwise. *)
Definition escape_char (c : ascii) : string :=
  let n := nat_of_ascii c in
  if (n =? 8)%nat then "\b"
  else if (n =? 9)%nat then "\t"
  else if (n =? 10)%nat then "\n"
  else if (n =? 12)%nat then "\f"
  else if (n =? 13)%nat then "\r"
  else if (n =? 34)%nat then String backslash dq
  else if (n =? 92)%nat then "\\"
  else if (n <? 32)%nat then
    "\u00" ++ String (hex_digit (n / 16)) (String (hex_digit (n mod 16)) "")
  else String c "".

Fixpoint escape (s : string) : string :=
  match s with
  | EmptyString => ""
  | String c r => escape_char c ++ escape r
  end.

Definition QuoteJSONString (s : string) : string := dq ++ escape s ++ dq.

(** The layout shared by [SerializeJSONObject] and [SerializeJSONArray]: no
    line break for an empty container or an empty gap, else one item per line
    at the deeper indentation and the closing bracket at the outer one. *)
Definition wrap (gap indent opener closer : string) (partial : list string) : string :=
  match partial with
  | [] => opener ++ closer
  | _ =>
      if String.eqb gap "" then opener ++ join "," partial ++ closer
      else
        let indent' := indent ++ gap in
        opener ++ nl ++ indent' ++ join ("," ++ nl ++ indent') partial
               ++ nl ++ indent ++ closer
  end.

(** [SerializeJSONProperty] for a value without [toJSON]; [None] is
    [undefined]. An [undefined] array element is written [null], an
    [undefined] property is left out. The numbers are the finite ones, so
    the branch that writes a number that is not finite as [null] has no
    counterpart. *)
Fixpoint SerializeJSONProperty (gap indent : string) (v : JValue num) : option string :=
  match v with
  | JUndefined => None
  | JNull => Some "null"
  | JBool true => Some "true"
  | JBool false => Some "false"
  | JNum n => Some (num_to_string n)
  | JStr s => Some (QuoteJSONString s)
  | JArr l =>
      Some (wrap gap indent "[" "]"
              (map (fun x =>
                      match SerializeJSONProperty gap (indent ++ gap) x with
                      | Some s => s
                      | None => "null"
                      end) l))
  | JObj m =>
      Some (wrap gap indent "{" "}"
              (flat_map (fun kv =>
                           match kv with
                           | (k, x) =>
                               match SerializeJSONProperty gap (indent ++ gap) x with
                               | Some s =>
                                   [QuoteJSONString k ++ ":"
                                      ++ (if String.eqb gap "" then "" else " ") ++ s]
                               | None => []
                               end
                           end) m))
  end.

(** [JSON.stringify(value, null, space)] for a numeric [space]. *)
Definition stringify (value : JValue num) (space : nat) : option string :=
  SerializeJSONProperty (spaces (Nat.min space 10)) "" value.

End Stringify.

(** ** [JSON.parse] *)

Section Parse.
Context {num : Type} `{JSNumber num}.

(** JSON white space: tab, line feed, carriage return, space. *)
Definition is_ws (c : ascii) : bool :=
  let n := nat_of_ascii c in
  ((n =? 9) || (n =? 10) || (n =? 13) || (n =? 32))%nat.

Fixpoint skip_ws (s : string) : string :=
  match s with
  | String c r => if is_ws c then skip_ws r else s
  | EmptyString => s
  end.

Definition is_digit (c : ascii) : bool :=
  let n := nat_of_ascii c in ((48 <=? n) && (n <=? 57))%nat.

(** The characters a JSON number is written with. *)
Definition is_num_char (c : ascii) : bool :=
  is_digit c || Ascii.eqb c "-" || Ascii.eqb c "+" || Ascii.eqb c "."
  || Ascii.eqb c "e" || Ascii.eqb c "E".

Fixpoint all_num_chars (s : string) : bool :=
  match s with
  | EmptyString => true
  | String c r => is_num_char c && all_num_chars r
  end.

(** The longest prefix written with number characters, and what follows. *)
Fixpoint span_num (s : string) : string * string :=
  match s with
  | String c r =>
      if is_num_char c then let (t, rest) := span_num r in (String c t, rest)
      else ("", s)
  | EmptyString => ("", "")
  end.

Definition hex_value (c : ascii) : option N :=
  let n := N_of_ascii c in
  if ((48 <=? n) && (n <=? 57))%N then Some (n - 48)%N
  else if ((97 <=? n) && (n <=? 102))%N then Some (n - 87)%N
  else if ((65 <=? n) && (n <=? 70))%N then Some (n - 55)%N
  else None.

(** The code unit of the four hexadecimal digits of a [\u] escape. *)
Definition hex4 (a b c d : ascii) : option N :=
  match hex_value a, hex_value b, hex_value c, hex_value d with
  | Some x, Some y, Some z, Some t => Some (((x * 16 + y) * 16 + z) * 16 + t)%N
  | _, _, _, _ => None
  end.

(** A code point as the bytes of its UTF-8 encoding (a lone surrogate gets the
    three-byte form). *)
Definition utf8 (cp : N) : string :=
  (if cp <? 128 then String (ascii_of_N cp) ""
   else if cp <? 2048 then
     String (ascii_of_N (192 + cp / 64)) (String (ascii_of_N (128 + cp mod 64)) "")
   else if cp <? 65536 then
     String (ascii_of_N (224 + cp / 4096))
       (String (ascii_of_N (128 + (cp / 64) mod 64))
          (String (ascii_of_N (128 + cp mod 64)) ""))
   else
     String (ascii_of_N (240 + cp / 262144))
       (String (ascii_of_N (128 + (cp / 4096) mod 64))
          (String (ascii_of_N (128 + (cp / 64) mod 64))
             (String (ascii_of_N (128 + cp mod 64)) ""))))%N.

Definition is_high_surrogate (u : N) : bool := ((55296 <=? u) && (u <=? 56319))%N.
Definition is_low_surrogate (u : N) : bool := ((56320 <=? u) && (u <=? 57343))%N.

(** The character a two-character escape stands for. *)
Definition simple_escape (e : ascii) : option ascii :=
  if Ascii.eqb e dquote then Some dquote
  else if Ascii.eqb e backslash then Some backslash
  else if Ascii.eqb e "/" then Some "/"%char
  else if Ascii.eqb e "b" then Some (ascii_of_nat 8)
  else if Ascii.eqb e "f" then Some (ascii_of_nat 12)
  else if Ascii.eqb e "n" then Some (ascii_of_nat 10)
  else if Ascii.eqb e "r" then Some (ascii_of_nat 13)
  else if Ascii.eqb e "t" then Some (ascii_of_nat 9)
  else None.

Definition prepend (p : string) (r : option (string * string)) : option (string * string) :=
  match r with
  | Some (t, rest) => Some (p ++ t, rest)
  | None => None
  end.

(** A [\u] escape that continues a high surrogate [hi]: the low surrogate it
    names, and what follows it. *)
Definition low_escape (s : string) : option (N * string) :=
  match s with
  | String b (String u (String h1 (String h2 (String h3 (String h4 r))))) =>
      if Ascii.eqb b backslash && Ascii.eqb u "u" then
        match hex4 h1 h2 h3 h4 with
        | Some lo => if is_low_surrogate lo then Some (lo, r) else None
        | None => None
        end
      else None
  | _ => None
  end.

(** The characters of a string literal after its opening quote, up to the
    closing quote, and what follows it. *)
Fixpoint parse_chars (s : string) : option (string * string) :=
  match s with
  | EmptyString => None
  | String c r =>
      if Ascii.eqb c dquote then Some ("", r)
      else if Ascii.eqb c backslash then
        match r with
        | EmptyString => None
        | String e r1 =>
            match simple_escape e with
            | Some x => prepend (String x "") (parse_chars r1)
            | None =>
                if Ascii.eqb e "u" then
                  match r1 with
                  | String h1 (String h2 (String h3 (String h4 r2))) =>
                      match hex4 h1 h2 h3 h4 with
                      | Some cu =>
                          if is_high_surrogate cu then
                            match r2 with
                            | String b (String u (String l1 (String l2 (String l3 (String l4 r3))))) =>
                                match low_escape r2 with
                                | Some (lo, _) =>
                                    prepend
                                      (utf8 (65536 + (cu - 55296) * 1024 + (lo - 56320))%N)
                                      (parse_chars r3)
                                | None => prepend (utf8 cu) (parse_chars r2)
                                end
                            | _ => prepend (utf8 cu) (parse_chars r2)
                            end
                          else prepend (utf8 cu) (parse_chars r2)
                      | None => None
                      end
                  | _ => None
                  end
                else None
            end
        end
      else if (nat_of_ascii c <? 32)%nat then None
      else prepend (String c "") (parse_chars r)
  end.

(** [s] starts with [p]: what follows [p]. *)
Fixpoint after_prefix (p s : string) : option string :=
  match p with
  | EmptyString => Some s
  | String a p' =>
      match s with
      | String b s' => if Ascii.eqb a b then after_prefix p' s' else None
      | EmptyString => None
      end
  end.

(** [CreateDataProperty] on an object under construction: a repeated key
    takes the later value and keeps its place. *)
Fixpoint define_property (m : list (string * JValue num)) (k : string) (v : JValue num)
  : list (string * JValue num) :=
  match m with
  | [] => [(k, v)]
  | (k', v') :: r =>
      if String.eqb k' k then (k', v) :: r else (k', v') :: define_property r k v
  end.

(** The object of the members of a text, in the order of the text. An engine
    lists the keys that are array indices first, in ascending order; the two
    orders are the same for an object without such keys. *)
Definition make_object (members : list (string * JValue num)) : list (string * JValue num) :=
  fold_left (fun m kv => define_property m (fst kv) (snd kv)) members [].

(** A value, the elements of an array after its opening bracket, and the
    members of an object after its opening brace. [fuel] bounds the nesting
    and the number of items; the length of the text is always enough. *)
Fixpoint parse_value (fuel : nat) (s : string) : option (JValue num * string) :=
  match fuel with
  | O => None
  | S fuel' =>
      match skip_ws s with
      | EmptyString => None
      | String c r =>
          if Ascii.eqb c dquote then
            match parse_chars r with
            | Some (str, rest) => Some (JStr str, rest)
            | None => None
            end
          else if Ascii.eqb c "[" then
            match after_prefix "]" (skip_ws r) with
            | Some rest => Some (JArr [], rest)
            | None =>
                match parse_elements fuel' r with
                | Some (l, rest) => Some (JArr l, rest)
                | None => None
                end
            end
          else if Ascii.eqb c "{" then
            match after_prefix "}" (skip_ws r) with
            | Some rest => Some (JObj [], rest)
            | None =>
                match parse_members fuel' r with
                | Some (m, rest) => Some (JObj (make_object m), rest)
                | None => None
                end
            end
          else if Ascii.eqb c "n" then
            option_map (pair JNull) (after_prefix "ull" r)
          else if Ascii.eqb c "t" then
            option_map (pair (JBool true)) (after_prefix "rue" r)
          else if Ascii.eqb c "f" then
            option_map (pair (JBool false)) (after_prefix "alse" r)
          else if is_num_char c then
            let (tok, rest) := span_num (String c r) in
            match num_of_string tok with
            | Some n => Some (JNum n, rest)
            | None => None
            end
          else None
      end
  end
with parse_elements (fuel : nat) (s : string) : option (list (JValue num) * string) :=
  match fuel with
  | O => None
  | S fuel' =>
      match parse_value fuel' s with
      | Some (v, rest) =>
          match skip_ws rest with
          | String c rest' =>
              if Ascii.eqb c "," then
                match parse_elements fuel' rest' with
                | Some (l, rest'') => Some (v :: l, rest'')
                | None => None
                end
              else if Ascii.eqb c "]" then Some ([v], rest')
              else None
          | EmptyString => None
          end
      | None => None
      end
  end
with parse_members (fuel : nat) (s : string) : option (list (string * JValue num) * string) :=
  match fuel with
  | O => None
  | S fuel' =>
      match skip_ws s with
      | String q r =>
          if Ascii.eqb q dquote then
            match parse_chars r with
            | Some (k, rest) =>
                match skip_ws rest with
                | String c rest1 =>
                    if Ascii.eqb c ":" then
                      match parse_value fuel' rest1 with
                      | Some (v, rest2) =>
                          match skip_ws rest2 with
                          | String d rest3 =>
                              if Ascii.eqb d "," then
                                match parse_members fuel' rest3 with
                                | Some (m, rest4) => Some ((k, v) :: m, rest4)
                                | None => None
                                end
                              else if Ascii.eqb d "}" then Some ([(k, v)], rest3)
                              else None
                          | EmptyString => None
                          end
                      | None => None
                      end
                    else None
                | EmptyString => None
                end
            | None => None
            end
          else None
      | EmptyString => None
      end
  end.

(** [JSON.parse(text)]; [None] is its [SyntaxError]. *)
Definition parse (text : string) : option (JValue num) :=
  match parse_value (S (String.length text)) text with
  | Some (v, rest) =>
      match skip_ws rest with
      | EmptyString => Some v
      | String _ _ => None
      end
  | None => None
  end.

(** The payloads [JSON.stringify] writes in full: no [undefined] inside, and
    no key twice in an object. *)
Fixpoint serializable (v : JValue num) : Prop :=
  match v with
  | JUndefined => False
  | JArr l => (fix all (l : list (JValue num)) : Prop :=
                 match l with
                 | [] => True
                 | x :: r => serializable x /\ all r
                 end) l
  | JObj m => NoDup (map fst m)
              /\ (fix all (m : list (string * JValue num)) : Prop :=
                    match m with
                    | [] => True
                    | (_, x) :: r => serializable x /\ all r
                    end) m
  | _ => True
  end.

End Parse.

(** What the round trip needs of the number conversions: a number is written
    with number characters, at least one, and reads back as itself. *)
Class JSNumberLaws (num : Type) `{JSNumber num} : Prop := {
  num_of_to_string : forall n : num, num_of_string (num_to_string n) = Some n;
  num_to_string_chars : forall n : num, all_num_chars (num_to_string n) = true;
  num_to_string_nonempty : forall n : num, num_to_string n <> "";
}.

End JSON.

(** ** Configuration *)

Module Config.

(** Modelled from the spec: the connection options of a profile, declared in
    [utils/config-loader.ts], which this development does not embed: a base
    URL, an auth token and an organization slug. *)
Record SentryClientOptions : Type := {
  baseUrl : string;
  authToken : string;
  organization : string;
}.

(** Modelled from the spec: the loaded configuration, declared in
    [utils/config-loader.ts]: the named profiles, the default profile and the
    default output format. *)
Record Config : Type := {
  profiles : list (string * SentryClientOptions);
  defaultProfile : string;
  defaultFormat : string;
}.

End Config.

(** ** Effects *)

Module Effects.
Import Str JS Config.

Section World.
Context {num : Type} `{JSNumber num}.

(** [SameValueZero], the key equality of a [Map]. Profile names are strings;
    arrays and objects, which the language compares by reference, are compared
    by structure here. *)
Fixpoint SameValueZero (a b : JValue num) : bool :=
  match a, b with
  | JUndefined, JUndefined => true
  | JNull, JNull => true
  | JBool x, JBool y => Bool.eqb x y
  | JNum x, JNum y => num_eqb x y
  | JStr x, JStr y => String.eqb x y
  | JArr x, JArr y =>
      (fix all2 (x y : list (JValue num)) : bool :=
         match x, y with
         | [], [] => true
         | a :: x', b :: y' => SameValueZero a b && all2 x' y'
         | _, _ => false
         end) x y
  | JObj x, JObj y =>
      (fix all2 (x y : list (string * JValue num)) : bool :=
         match x, y with
         | [], [] => true
         | (k, a) :: x', (k', b) :: y' =>
             String.eqb k k' && SameValueZero a b && all2 x' y'
         | _, _ => false
         end) x y
  | _, _ => false
  end.

(** An axios instance; [instance_id] is its identity as an object. *)
Record AxiosInstance : Type := {
  instance_id : nat;
  baseURL : string;
  headers : list (string * string);
}.

Inductive Method : Type := GET | PUT.

(** One HTTP request as handed to axios: [params] is the [params] entry of the
    request config and [body] the data argument, [undefined] when not given. *)
Record Request : Type := {
  via : AxiosInstance;
  method : Method;
  url : string;
  params : JValue num;
  body : JValue num;
}.

Record SentryUtil : Type := {
  config : Config;
  clientPool : list (JValue num * AxiosInstance);
}.

Inductive Output : Type :=
| Stdout (line : string)
| Stderr (line : string).

(** The state of the process: the module-level [sentryUtil] variable of the
    API wrapper with the instance it refers to, the number of axios instances
    created so far, the requests sent and the console lines, oldest first. *)
Record World : Type := {
  sentryUtil : option SentryUtil;
  instances : nat;
  sent : list Request;
  console : list Output;
}.

(** How a computation ends: with a value, with an exception, or with the
    process terminated by [process.exit], which no handler intercepts. *)
Inductive Outcome (A : Type) : Type :=
| Return (a : A)
| Throw (e : Thrown num)
| Exit (code : Z).
Arguments Return {A} a.
Arguments Throw {A} e.
Arguments Exit {A} code.

Definition M (A : Type) : Type := World -> Outcome A * World.

Definition ret {A} (a : A) : M A := fun w => (Return a, w).

Definition bind {A B} (m : M A) (k : A -> M B) : M B :=
  fun w =>
    match m w with
    | (Return a, w') => k a w'
    | (Throw e, w') => (Throw e, w')
    | (Exit c, w') => (Exit c, w')
    end.

Definition throw {A} (e : Thrown num) : M A := fun w => (Throw e, w).

(** [process.exit(code)] *)
Definition process_exit {A} (code : Z) : M A := fun w => (Exit code, w).

(** [try { m } catch (error) { handler error }] *)
Definition try_catch {A} (m : M A) (handler : Thrown num -> M A) : M A :=
  fun w =>
    match m w with
    | (Throw e, w') => handler e w'
    | r => r
    end.

Definition lift {A} (r : Thrown num + A) : M A :=
  match r with
  | inl e => throw e
  | inr a => ret a
  end.

Definition get_world : M World := fun w => (Return w, w).

Definition put_sentryUtil (u : option SentryUtil) : M unit :=
  fun w => (Return tt, {| sentryUtil := u; instances := instances w;
                          sent := sent w; console := console w |}).

Definition print (o : Output) : M unit :=
  fun w => (Return tt, {| sentryUtil := sentryUtil w; instances := instances w;
                          sent := sent w; console := console w ++ [o] |}).

(** A [string | undefined] argument as the console prints it. *)
Definition shown (s : option string) : string :=
  match s with Some x => x | None => "undefined" end.

Definition console_log (s : option string) : M unit := print (Stdout (shown s)).
Definition console_error (s : option string) : M unit := print (Stderr (shown s)).

(** A template-literal substitution. *)
Definition ToStringM (v : JValue num) : M string :=
  match ToString v with
  | Some s => ret s
  | None => throw TypeError_primitive
  end.

(** [error instanceof Error ? error.message : String(error)] *)
Definition message_of (error : Thrown num) : string :=
  match error with
  | AxiosError message _ => message
  | Error message => message
  | NonError str => str
  end.

(** The collaborators of the embedded code, left open: the configuration
    loader ([loadConfig] and [getSentryClientOptions] of
    [utils/config-loader.ts], on the project root the process was started
    with), the built-ins [JSON.parse] and [String.prototype.trim] as
    [runCommand] calls them, the toon encoder, and the upstream service as
    seen through axios, which answers a request (given the requests sent
    before it) with [response.data] or makes the call throw. *)
Class Externals : Type := {
  projectRoot : string;
  loadConfig : string -> Thrown num + Config;
  getSentryClientOptions : Config -> JValue num -> Thrown num + SentryClientOptions;
  JSON_parse : string -> Thrown num + JValue num;
  trim : string -> string;
  encode : JValue num -> Thrown num + string;
  upstream : list Request -> Request -> Thrown num + JValue num;
}.

End World.

Arguments AxiosInstance : clear implicits.
Arguments Request num : clear implicits.
Arguments SentryUtil num : clear implicits.
Arguments World num : clear implicits.
Arguments Outcome num A : clear implicits.
Arguments M num A : clear implicits.
Arguments Return {num A} a.
Arguments Throw {num A} e.
Arguments Exit {num A} code.
Arguments Externals num : clear implicits.

Declare Scope effect_scope.
Delimit Scope effect_scope with effect.
Notation "x <- m ;; k" := (bind m (fun x => k))
  (at level 61, m at next level, right associativity) : effect_scope.
Notation "m ;; k" := (bind m (fun _ => k))
  (at level 61, right associativity) : effect_scope.

End Effects.

(** ** The [SentryUtil] class ([sentry-utils.ts]) *)

Module SentryUtils.
Import Str JS Config Effects.
Local Open Scope effect_scope.

(** Generic API result; an absent optional field is [None] (or [undefined]
    for [data]). *)
Record ApiResult {num : Type} : Type := {
  success : bool;
  result : option string;
  data : JValue num;
  error : option string;
}.
Arguments ApiResult num : clear implicits.

Section Class.
Context {num : Type} `{JSNumber num} `{!Externals num}.

(** [Map.prototype.get] *)
Fixpoint Map_get (pool : list (JValue num * AxiosInstance)) (key : JValue num) : option AxiosInstance :=
  match pool with
  | [] => None
  | (k, c) :: r => if SameValueZero k key then Some c else Map_get r key
  end.

(** [Map.prototype.set]: the value of an existing key is replaced in place, a
    new key is appended. *)
Fixpoint Map_set (pool : list (JValue num * AxiosInstance)) (key : JValue num) (c : AxiosInstance)
  : list (JValue num * AxiosInstance) :=
  match pool with
  | [] => [(key, c)]
  | (k, c') :: r =>
      if SameValueZero k key then (k, c) :: r else (k, c') :: Map_set r key c
  end.

(** The instance a method runs on: the one the module-level variable of the
    API wrapper refers to. *)
Definition this : M num (SentryUtil num) :=
  fun w =>
    match sentryUtil w with
    | Some u => (Return u, w)
    | None => (Throw (TypeError_read "null" "clientPool"), w)
    end.

Definition set_clientPool (pool : list (JValue num * AxiosInstance)) : M num unit :=
  u <- this ;;
  put_sentryUtil (Some {| config := config u; clientPool := pool |}).

(** [axios.create({ baseURL, headers })]: a new instance each time. *)
Definition axios_create (base : string) (hdrs : list (string * string)) : M num AxiosInstance :=
  fun w =>
    (Return {| instance_id := instances w; baseURL := base; headers := hdrs |},
     {| sentryUtil := sentryUtil w; instances := S (instances w);
        sent := sent w; console := console w |}).

(** One request through an axios instance: it is recorded, and the upstream
    decides between a 2xx answer (its [response.data]) and a thrown error. *)
Definition axios_request (r : Request num) : M num (JValue num) :=
  fun w =>
    let w' := {| sentryUtil := sentryUtil w; instances := instances w;
                 sent := sent w ++ [r]; console := console w |} in
    match upstream (sent w) r with
    | inl e => (Throw e, w')
    | inr d => (Return d, w')
    end.

(** [client.get(url, { params })]; [client.get(url)] is the case
    [params = undefined]. *)
Definition axios_get (client : AxiosInstance) (u : string) (ps : JValue num) : M num (JValue num) :=
  axios_request {| via := client; method := GET; url := u; params := ps; body := JUndefined |}.

(** [client.put(url, data)] *)
Definition axios_put (client : AxiosInstance) (u : string) (d : JValue num) : M num (JValue num) :=
  axios_request {| via := client; method := PUT; url := u; params := JUndefined; body := d |}.

(** Get or create Sentry HTTP client for a profile. The pool is asked with
    [has] and then [get]: the client stored under the name, when there is
    one. *)
Definition getClient (profileName : JValue num) : M num AxiosInstance :=
  u <- this ;;
  match Map_get (clientPool u) profileName with
  | Some client => ret client
  | None =>
      options <- lift (getSentryClientOptions (config u) profileName) ;;
      client <- axios_create (baseUrl options)
                  [("Authorization", "Bearer " ++ authToken options);
                   ("Content-Type", "application/json")] ;;
      set_clientPool (Map_set (clientPool u) profileName client) ;;
      ret client
  end.

(** Get client options for a profile *)
Definition getClientOptions (profileName : JValue num) : M num SentryClientOptions :=
  u <- this ;;
  lift (getSentryClientOptions (config u) profileName).

(** Format data as JSON *)
Definition formatAsJson (d : JValue num) : option string := JSON.stringify d 2.

(** Format data as TOON *)
Definition formatAsToon (d : JValue num) : M num string :=
  if negb (ToBoolean d) then ret "" else lift (encode d).

(** A parameter with the default ['json']. *)
Definition or_json (format : JValue num) : JValue num :=
  match format with
  | JUndefined => JStr "json"
  | _ => format
  end.

(** [format === 'toon'] *)
Definition is_toon (format : JValue num) : bool :=
  match format with
  | JStr s => String.eqb s "toon"
  | _ => false
  end.

(** Format result with specified format *)
Definition formatResult (d : JValue num) (format : JValue num) : M num (option string) :=
  if is_toon (or_json format) then
    s <- formatAsToon d ;; ret (Some s)
  else ret (formatAsJson d).

(** [axios.isAxiosError(error) ? error.response?.data?.detail || error.message
     : error instanceof Error ? error.message : String(error)] *)
Definition errorMessage (e : Thrown num) : JValue num :=
  match e with
  | AxiosError message response =>
      or_else (match response with
               | Some d => GetOpt d "detail"
               | None => JUndefined
               end) (JStr message)
  | Error message => JStr message
  | NonError str => JStr str
  end.

(** The [catch] block every operation ends with. *)
Definition on_error (e : Thrown num) : M num (ApiResult num) :=
  s <- ToStringM (errorMessage e) ;;
  ret {| success := false; result := None; data := JUndefined;
         error := Some ("ERROR: " ++ s) |}.

(** The success result of the operations that render the response body. *)
Definition rendered (response format : JValue num) : M num (ApiResult num) :=
  r <- formatResult response format ;;
  ret {| success := true; data := response; result := r; error := None |}.

(** List a project's error events *)
Definition listProjectEvents (profileName projectSlug ps format : JValue num) : M num (ApiResult num) :=
  try_catch
    (client <- getClient profileName ;;
     options <- getClientOptions profileName ;;
     slug <- ToStringM projectSlug ;;
     response <- axios_get client
       ("/projects/" ++ organization options ++ "/" ++ slug ++ "/events/") ps ;;
     rendered response format)
    on_error.

(** List a project's issues *)
Definition listProjectIssues (profileName projectSlug ps format : JValue num) : M num (ApiResult num) :=
  try_catch
    (client <- getClient profileName ;;
     options <- getClientOptions profileName ;;
     slug <- ToStringM projectSlug ;;
     response <- axios_get client
       ("/projects/" ++ organization options ++ "/" ++ slug ++ "/issues/") ps ;;
     rendered response format)
    on_error.

(** List an organization's issues *)
Definition listOrgIssues (profileName ps format : JValue num) : M num (ApiResult num) :=
  try_catch
    (client <- getClient profileName ;;
     options <- getClientOptions profileName ;;
     response <- axios_get client
       ("/organizations/" ++ organization options ++ "/issues/") ps ;;
     rendered response format)
    on_error.

(** Retrieve an issue *)
Definition getIssue (profileName issueId format : JValue num) : M num (ApiResult num) :=
  try_catch
    (client <- getClient profileName ;;
     options <- getClientOptions profileName ;;
     id <- ToStringM issueId ;;
     response <- axios_get client
       ("/organizations/" ++ organization options ++ "/issues/" ++ id ++ "/") JUndefined ;;
     rendered response format)
    on_error.

(** Update an issue *)
Definition updateIssue (profileName issueId d : JValue num) : M num (ApiResult num) :=
  try_catch
    (client <- getClient profileName ;;
     options <- getClientOptions profileName ;;
     id <- ToStringM issueId ;;
     response <- axios_put client
       ("/organizations/" ++ organization options ++ "/issues/" ++ id ++ "/") d ;;
     id' <- ToStringM issueId ;;
     ret {| success := true; data := response;
            result := Some ("✅ Issue " ++ id' ++ " updated successfully!");
            error := None |})
    on_error.

(** List an issue's events *)
Definition listIssueEvents (profileName issueId ps format : JValue num) : M num (ApiResult num) :=
  try_catch
    (client <- getClient profileName ;;
     options <- getClientOptions profileName ;;
     id <- ToStringM issueId ;;
     response <- axios_get client
       ("/organizations/" ++ organization options ++ "/issues/" ++ id ++ "/events/") ps ;;
     rendered response format)
    on_error.

(** Retrieve an event for a project *)
Definition getEvent (profileName projectSlug eventId format : JValue num) : M num (ApiResult num) :=
  try_catch
    (client <- getClient profileName ;;
     options <- getClientOptions profileName ;;
     slug <- ToStringM projectSlug ;;
     ev <- ToStringM eventId ;;
     response <- axios_get client
       ("/projects/" ++ organization options ++ "/" ++ slug ++ "/events/" ++ ev ++ "/")
       JUndefined ;;
     rendered response format)
    on_error.

(** Retrieve an issue event (specific event from an issue) *)
Definition getIssueEvent (profileName issueId eventId format : JValue num) : M num (ApiResult num) :=
  try_catch
    (client <- getClient profileName ;;
     options <- getClientOptions profileName ;;
     id <- ToStringM issueId ;;
     ev <- ToStringM eventId ;;
     response <- axios_get client
       ("/organizations/" ++ organization options ++ "/issues/" ++ id ++ "/events/" ++ ev ++ "/")
       JUndefined ;;
     rendered response format)
    on_error.

(** Retrieve tag details for an issue *)
Definition getTagDetails (profileName issueId tagKey ps format : JValue num) : M num (ApiResult num) :=
  try_catch
    (client <- getClient profileName ;;
     options <- getClientOptions profileName ;;
     id <- ToStringM issueId ;;
     tag <- ToStringM tagKey ;;
     response <- axios_get client
       ("/organizations/" ++ organization options ++ "/issues/" ++ id ++ "/tags/" ++ tag ++ "/")
       ps ;;
     rendered response format)
    on_error.

(** List a tag's values for an issue *)
Definition listTagValues (profileName issueId tagKey ps format : JValue num) : M num (ApiResult num) :=
  try_catch
    (client <- getClient profileName ;;
     options <- getClientOptions profileName ;;
     id <- ToStringM issueId ;;
     tag <- ToStringM tagKey ;;
     response <- axios_get client
       ("/organizations/" ++ organization options ++ "/issues/" ++ id ++ "/tags/" ++ tag
          ++ "/values/") ps ;;
     rendered response format)
    on_error.

(** List an issue's hashes *)
Definition listIssueHashes (profileName issueId format : JValue num) : M num (ApiResult num) :=
  try_catch
    (client <- getClient profileName ;;
     options <- getClientOptions profileName ;;
     id <- ToStringM issueId ;;
     response <- axios_get client
       ("/organizations/" ++ organization options ++ "/issues/" ++ id ++ "/hashes/")
       JUndefined ;;
     rendered response format)
    on_error.

(** Debug issues related to source maps for a given event *)
Definition debugSourceMaps (profileName projectSlug eventId ps format : JValue num) : M num (ApiResult num) :=
  try_catch
    (client <- getClient profileName ;;
     options <- getClientOptions profileName ;;
     slug <- ToStringM projectSlug ;;
     ev <- ToStringM eventId ;;
     response <- axios_get client
       ("/projects/" ++ organization options ++ "/" ++ slug ++ "/events/" ++ ev
          ++ "/source-map-debug/") ps ;;
     rendered response format)
    on_error.

(** Test Sentry API connection *)
Definition testConnection (profileName : JValue num) : M num (ApiResult num) :=
  try_catch
    (client <- getClient profileName ;;
     options <- getClientOptions profileName ;;
     _ <- axios_get client
       ("/organizations/" ++ organization options ++ "/issues/")
       (JObj [("limit", JNum (num_of_Z 1))]) ;;
     name <- ToStringM profileName ;;
     ret {| success := true;
            data := JObj [("organization", JStr (organization options));
                          ("baseUrl", JStr (baseUrl options))];
            result := Some ("✅ Connection successful!" ++ nl ++ nl
                            ++ "Profile: " ++ name ++ nl
                            ++ "Organization: " ++ organization options ++ nl
                            ++ "Base URL: " ++ baseUrl options ++ nl
                            ++ "Status: Connected");
            error := None |})
    on_error.

(** Clear client pool (for cleanup) *)
Definition clearClients : M num unit := set_clientPool [].

End Class.
End SentryUtils.

(** ** The API wrapper functions (the client wrapper module of [utils]) *)

Module SentryClient.
Import Str JS Config Effects SentryUtils.
Local Open Scope effect_scope.

Section Wrappers.
Context {num : Type} `{JSNumber num} `{!Externals num}.

(** Initialize Sentry utility: the instance is created on first use from the
    loaded configuration and kept in the module-level variable. *)
Definition initSentry : M num unit :=
  w <- get_world ;;
  match sentryUtil w with
  | Some _ => ret tt
  | None =>
      try_catch
        (cfg <- lift (loadConfig projectRoot) ;;
         put_sentryUtil (Some {| config := cfg; clientPool := [] |}))
        (fun e => throw (Error ("Failed to initialize Sentry client: " ++ message_of e)))
  end.

Definition listProjectEvents (profile projectSlug ps format : JValue num) : M num (ApiResult num) :=
  initSentry ;; SentryUtils.listProjectEvents profile projectSlug ps (or_json format).

Definition listProjectIssues (profile projectSlug ps format : JValue num) : M num (ApiResult num) :=
  initSentry ;; SentryUtils.listProjectIssues profile projectSlug ps (or_json format).

Definition listOrgIssues (profile ps format : JValue num) : M num (ApiResult num) :=
  initSentry ;; SentryUtils.listOrgIssues profile ps (or_json format).

Definition getIssue (profile issueId format : JValue num) : M num (ApiResult num) :=
  initSentry ;; SentryUtils.getIssue profile issueId (or_json format).

Definition updateIssue (profile issueId d : JValue num) : M num (ApiResult num) :=
  initSentry ;; SentryUtils.updateIssue profile issueId d.

Definition listIssueEvents (profile issueId ps format : JValue num) : M num (ApiResult num) :=
  initSentry ;; SentryUtils.listIssueEvents profile issueId ps (or_json format).

Definition getEvent (profile projectSlug eventId format : JValue num) : M num (ApiResult num) :=
  initSentry ;; SentryUtils.getEvent profile projectSlug eventId (or_json format).

Definition getIssueEvent (profile issueId eventId format : JValue num) : M num (ApiResult num) :=
  initSentry ;; SentryUtils.getIssueEvent profile issueId eventId (or_json format).

Definition getTagDetails (profile issueId tagKey ps format : JValue num) : M num (ApiResult num) :=
  initSentry ;; SentryUtils.getTagDetails profile issueId tagKey ps (or_json format).

Definition listTagValues (profile issueId tagKey ps format : JValue num) : M num (ApiResult num) :=
  initSentry ;; SentryUtils.listTagValues profile issueId tagKey ps (or_json format).

Definition listIssueHashes (profile issueId format : JValue num) : M num (ApiResult num) :=
  initSentry ;; SentryUtils.listIssueHashes profile issueId (or_json format).

Definition debugSourceMaps (profile projectSlug eventId ps format : JValue num) : M num (ApiResult num) :=
  initSentry ;; SentryUtils.debugSourceMaps profile projectSlug eventId ps (or_json format).

Definition testConnection (profile : JValue num) : M num (ApiResult num) :=
  initSentry ;; SentryUtils.testConnection profile.

(** Clear Sentry client pool (for cleanup) *)
Definition clearClients : M num unit :=
  w <- get_world ;;
  match sentryUtil w with
  | Some _ => SentryUtils.clearClients ;; put_sentryUtil None
  | None => ret tt
  end.

End Wrappers.
End SentryClient.

(** ** The command dispatcher ([commands/runner.ts]) *)

Module Runner.
Import Str JS Config Effects SentryUtils SentryClient.
Local Open Scope effect_scope.

Section Dispatch.
Context {num : Type} `{JSNumber num} `{!Externals num}.

(** The keys the rest pattern of [filterCliParams] names. *)
Definition cli_keys : list string :=
  ["profile"; "format"; "projectSlug"; "issueId"; "eventId"; "tagKey"].

Definition is_cli_key (k : string) : bool :=
  existsb (String.eqb k) cli_keys.

(** Filter out CLI-specific parameters that shouldn't be sent to Sentry API:
    the rest object of the destructuring, which copies the own enumerable
    properties that the pattern does not name. *)
Definition filterCliParams (ps : JValue num) : Thrown num + JValue num :=
  match ps with
  | JUndefined => inl (Error "Cannot destructure 'params' as it is undefined.")
  | JNull => inl (Error "Cannot destructure 'params' as it is null.")
  | _ => inr (JObj (filter (fun kv => negb (is_cli_key (fst kv))) (own_properties ps)))
  end.

(** [console.error(msg); process.exit(1)] *)
Definition fail {A} (msg : string) : M num A :=
  console_error (Some msg) ;; process_exit 1.

Definition required1 (f : string) : string :=
  "ERROR: " ++ quoted f ++ " parameter is required".

Definition required2 (f g : string) : string :=
  "ERROR: " ++ quoted f ++ " and " ++ quoted g ++ " parameters are required".

(** The [switch] of [runCommand]. *)
Definition dispatch (command : string) (args profile format : JValue num) : M num (ApiResult num) :=
  if command =? "list-project-events" then
    projectSlug <- lift (Get args "projectSlug") ;;
    (if negb (ToBoolean projectSlug) then fail (required1 "projectSlug") else ret tt) ;;
    ps <- lift (filterCliParams args) ;;
    listProjectEvents profile projectSlug ps format
  else if command =? "list-project-issues" then
    projectSlug <- lift (Get args "projectSlug") ;;
    (if negb (ToBoolean projectSlug) then fail (required1 "projectSlug") else ret tt) ;;
    ps <- lift (filterCliParams args) ;;
    listProjectIssues profile projectSlug ps format
  else if command =? "list-org-issues" then
    ps <- lift (filterCliParams args) ;;
    listOrgIssues profile ps format
  else if command =? "get-issue" then
    issueId <- lift (Get args "issueId") ;;
    (if negb (ToBoolean issueId) then fail (required1 "issueId") else ret tt) ;;
    getIssue profile issueId format
  else if command =? "update-issue" then
    issueId <- lift (Get args "issueId") ;;
    (if negb (ToBoolean issueId) then fail (required1 "issueId") else ret tt) ;;
    ps <- lift (filterCliParams args) ;;
    updateIssue profile issueId ps
  else if command =? "list-issue-events" then
    issueId <- lift (Get args "issueId") ;;
    (if negb (ToBoolean issueId) then fail (required1 "issueId") else ret tt) ;;
    ps <- lift (filterCliParams args) ;;
    listIssueEvents profile issueId ps format
  else if command =? "get-event" then
    projectSlug <- lift (Get args "projectSlug") ;;
    eventId <- lift (Get args "eventId") ;;
    (if negb (ToBoolean projectSlug) || negb (ToBoolean eventId)
     then fail (required2 "projectSlug" "eventId") else ret tt) ;;
    getEvent profile projectSlug eventId format
  else if command =? "get-issue-event" then
    issueId <- lift (Get args "issueId") ;;
    eventId <- lift (Get args "eventId") ;;
    (if negb (ToBoolean issueId) || negb (ToBoolean eventId)
     then fail (required2 "issueId" "eventId") else ret tt) ;;
    getIssueEvent profile issueId eventId format
  else if command =? "get-tag-details" then
    issueId <- lift (Get args "issueId") ;;
    tagKey <- lift (Get args "tagKey") ;;
    (if negb (ToBoolean issueId) || negb (ToBoolean tagKey)
     then fail (required2 "issueId" "tagKey") else ret tt) ;;
    ps <- lift (filterCliParams args) ;;
    getTagDetails profile issueId tagKey ps format
  else if command =? "list-tag-values" then
    issueId <- lift (Get args "issueId") ;;
    tagKey <- lift (Get args "tagKey") ;;
    (if negb (ToBoolean issueId) || negb (ToBoolean tagKey)
     then fail (required2 "issueId" "tagKey") else ret tt) ;;
    ps <- lift (filterCliParams args) ;;
    listTagValues profile issueId tagKey ps format
  else if command =? "list-issue-hashes" then
    issueId <- lift (Get args "issueId") ;;
    (if negb (ToBoolean issueId) then fail (required1 "issueId") else ret tt) ;;
    listIssueHashes profile issueId format
  else if command =? "debug-source-maps" then
    projectSlug <- lift (Get args "projectSlug") ;;
    eventId <- lift (Get args "eventId") ;;
    (if negb (ToBoolean projectSlug) || negb (ToBoolean eventId)
     then fail (required2 "projectSlug" "eventId") else ret tt) ;;
    ps <- lift (filterCliParams args) ;;
    debugSourceMaps profile projectSlug eventId ps format
  else if command =? "test-connection" then
    testConnection profile
  else
    fail ("Unknown command: " ++ command).

(** [arg && arg.trim() !== '' ? JSON.parse(arg) : {}] *)
Definition parse_args (arg : option string) : Thrown num + JValue num :=
  match arg with
  | Some a =>
      if negb (a =? "") && negb (trim a =? "") then JSON_parse a
      else inr (JObj [])
  | None => inr (JObj [])
  end.

(** The body of the [try] block of [runCommand]. *)
Definition execute (command : string) (arg : option string) : M num unit :=
  cfg <- lift (loadConfig projectRoot) ;;
  args <- lift (parse_args arg) ;;
  args_profile <- lift (Get args "profile") ;;
  let profile := or_else args_profile (JStr (defaultProfile cfg)) in
  args_format <- lift (Get args "format") ;;
  let format := or_else args_format (JStr (defaultFormat cfg)) in
  r <- dispatch command args profile format ;;
  (if success r then console_log (result r)
   else console_error (error r) ;; process_exit 1) ;;
  clearClients.

(** Execute a Sentry API command in headless mode *)
Definition runCommand (command : string) (arg : option string) (_flag : option string)
  : M num unit :=
  try_catch (execute command arg)
    (fun e =>
       console_error (Some ("Error executing command: " ++ message_of e)) ;;
       clearClients ;;
       process_exit 1).

End Dispatch.
End Runner.

(** ** The command tables ([config/constants.ts]) *)

Module Constants.
Import Str.

(** Available Sentry API commands *)
Definition COMMANDS : list string :=
  ["list-project-events";
   "list-project-issues";
   "list-org-issues";
   "get-issue";
   "update-issue";
   "list-issue-events";
   "get-event";
   "get-issue-event";
   "get-tag-details";
   "list-tag-values";
   "list-issue-hashes";
   "debug-source-maps";
   "test-connection"].

(** Brief descriptions for each command *)
Definition COMMANDS_INFO : list string :=
  ["List a project's error events";
   "List a project's issues";
   "List an organization's issues";
   "Retrieve an issue";
   "Update an issue";
   "List an issue's events";
   "Retrieve an event for a project";
   "Retrieve an issue event";
   "Retrieve tag details for an issue";
   "List a tag's values for an issue";
   "List an issue's hashes";
   "Debug issues related to source maps";
   "Test Sentry API connection"].

(** The lines of a template literal. *)
Definition lines (l : list string) : string := join nl l.

(** Detailed parameter information for each command *)
Definition COMMANDS_DETAIL : list string :=
  [lines
     ["";
      "Parameters:";
      "- projectSlug (required): string - Project slug or ID";
      "- statsPeriod (optional): string - Time period (e.g., " ++ quoted "24h" ++ ", "
          ++ quoted "7d" ++ ")";
      "- start (optional): string - ISO-8601 timestamp";
      "- end (optional): string - ISO-8601 timestamp";
      "- cursor (optional): string - Pagination cursor";
      "- full (optional): boolean - Include full event body";
      "- profile (optional): string - Sentry profile name (default: configured default profile)";
      "- format (optional): string - Output format: json or toon (default: json)";
      "";
      "Example:";
      "list-project-events '{" ++ quoted "projectSlug" ++ ":" ++ quoted "my-project"
          ++ "," ++ quoted "statsPeriod" ++ ":" ++ quoted "24h" ++ "," ++ quoted "profile"
          ++ ":" ++ quoted "production" ++ "," ++ quoted "format" ++ ":" ++ quoted "json"
          ++ "}'"];
   lines
     ["";
      "Parameters:";
      "- projectSlug (required): string - Project slug or ID";
      "- statsPeriod (optional): string - Time period (default: " ++ quoted "24h" ++ ")";
      "- shortIdLookup (optional): boolean - Enable short ID lookups";
      "- query (optional): string - Search query (default: " ++ quoted "is:unresolved"
          ++ ")";
      "- cursor (optional): string - Pagination cursor";
      "- profile (optional): string - Sentry profile name (default: configured default profile)";
      "- format (optional): string - Output format: json or toon (default: json)";
      "";
      "Example:";
      "list-project-issues '{" ++ quoted "projectSlug" ++ ":" ++ quoted "my-project"
          ++ "," ++ quoted "query" ++ ":" ++ quoted "is:unresolved" ++ ","
          ++ quoted "profile" ++ ":" ++ quoted "production" ++ "," ++ quoted "format" ++ ":"
          ++ quoted "json" ++ "}'"];
   lines
     ["";
      "Parameters:";
      "- statsPeriod (optional): string - Time period (e.g., " ++ quoted "24h" ++ ", "
          ++ quoted "14d" ++ ")";
      "- start (optional): string - ISO-8601 timestamp";
      "- end (optional): string - ISO-8601 timestamp";
      "- project (optional): number[] - Filter by project IDs";
      "- environment (optional): string[] - Filter by environments";
      "- query (optional): string - Search query (default: " ++ quoted "is:unresolved"
          ++ ")";
      "- sort (optional): string - Sort order (date, new, trends, freq, user, inbox)";
      "- limit (optional): number - Maximum results (max 100)";
      "- cursor (optional): string - Pagination cursor";
      "- profile (optional): string - Sentry profile name (default: configured default profile)";
      "- format (optional): string - Output format: json or toon (default: json)";
      "";
      "Example:";
      "list-org-issues '{" ++ quoted "query" ++ ":" ++ quoted "is:unresolved" ++ ","
          ++ quoted "limit" ++ ":50," ++ quoted "sort" ++ ":" ++ quoted "date" ++ ","
          ++ quoted "profile" ++ ":" ++ quoted "production" ++ "," ++ quoted "format" ++ ":"
          ++ quoted "json" ++ "}'"];
   lines
     ["";
      "Parameters:";
      "- issueId (required): string - Issue ID";
      "- profile (optional): string - Sentry profile name (default: configured default profile)";
      "- format (optional): string - Output format: json or toon (default: json)";
      "";
      "Example:";
      "get-issue '{" ++ quoted "issueId" ++ ":" ++ quoted "123456789" ++ ","
          ++ quoted "profile" ++ ":" ++ quoted "production" ++ "," ++ quoted "format" ++ ":"
          ++ quoted "json" ++ "}'"];
   lines
     ["";
      "Parameters:";
      "- issueId (required): string - Issue ID";
      "- status (optional): string - Issue status (resolved, resolvedInNextRelease, unresolved, ignored)";
      "- statusDetails (optional): object - Additional status details";
      "- assignedTo (optional): string - Actor ID or username";
      "- hasSeen (optional): boolean - Mark as seen";
      "- isBookmarked (optional): boolean - Bookmark status";
      "- isSubscribed (optional): boolean - Subscription status";
      "- isPublic (optional): boolean - Public visibility";
      "- profile (optional): string - Sentry profile name (default: configured default profile)";
      "";
      "Example:";
      "update-issue '{" ++ quoted "issueId" ++ ":" ++ quoted "123456789" ++ ","
          ++ quoted "status" ++ ":" ++ quoted "resolved" ++ "," ++ quoted "profile" ++ ":"
          ++ quoted "production" ++ "}'"];
   lines
     ["";
      "Parameters:";
      "- issueId (required): string - Issue ID";
      "- start (optional): string - ISO-8601 timestamp";
      "- end (optional): string - ISO-8601 timestamp";
      "- statsPeriod (optional): string - Time period";
      "- environment (optional): string[] - Filter by environments";
      "- full (optional): boolean - Include full event body";
      "- cursor (optional): string - Pagination cursor";
      "- profile (optional): string - Sentry profile name (default: configured default profile)";
      "- format (optional): string - Output format: json or toon (default: json)";
      "";
      "Example:";
      "list-issue-events '{" ++ quoted "issueId" ++ ":" ++ quoted "123456789" ++ ","
          ++ quoted "statsPeriod" ++ ":" ++ quoted "24h" ++ "," ++ quoted "profile" ++ ":"
          ++ quoted "production" ++ "," ++ quoted "format" ++ ":" ++ quoted "json" ++ "}'"];
   lines
     ["";
      "Parameters:";
      "- projectSlug (required): string - Project slug or ID";
      "- eventId (required): string - Event ID (hexadecimal)";
      "- profile (optional): string - Sentry profile name (default: configured default profile)";
      "- format (optional): string - Output format: json or toon (default: json)";
      "";
      "Example:";
      "get-event '{" ++ quoted "projectSlug" ++ ":" ++ quoted "my-project" ++ ","
          ++ quoted "eventId" ++ ":" ++ quoted "abc123def456" ++ "," ++ quoted "profile"
          ++ ":" ++ quoted "production" ++ "," ++ quoted "format" ++ ":" ++ quoted "json"
          ++ "}'"];
   lines
     ["";
      "Parameters:";
      "- issueId (required): string - Issue ID";
      "- eventId (required): string - Event ID";
      "- profile (optional): string - Sentry profile name (default: configured default profile)";
      "- format (optional): string - Output format: json or toon (default: json)";
      "";
      "Example:";
      "get-issue-event '{" ++ quoted "issueId" ++ ":" ++ quoted "123456789" ++ ","
          ++ quoted "eventId" ++ ":" ++ quoted "abc123def456" ++ "," ++ quoted "profile"
          ++ ":" ++ quoted "production" ++ "," ++ quoted "format" ++ ":" ++ quoted "json"
          ++ "}'"];
   lines
     ["";
      "Parameters:";
      "- issueId (required): string - Issue ID";
      "- tagKey (required): string - Tag key to look up";
      "- environment (optional): string[] - Filter by environments";
      "- profile (optional): string - Sentry profile name (default: configured default profile)";
      "- format (optional): string - Output format: json or toon (default: json)";
      "";
      "Example:";
      "get-tag-details '{" ++ quoted "issueId" ++ ":" ++ quoted "123456789" ++ ","
          ++ quoted "tagKey" ++ ":" ++ quoted "browser" ++ "," ++ quoted "profile" ++ ":"
          ++ quoted "production" ++ "," ++ quoted "format" ++ ":" ++ quoted "json" ++ "}'"];
   lines
     ["";
      "Parameters:";
      "- issueId (required): string - Issue ID";
      "- tagKey (required): string - Tag key to look up";
      "- environment (optional): string[] - Filter by environments";
      "- profile (optional): string - Sentry profile name (default: configured default profile)";
      "- format (optional): string - Output format: json or toon (default: json)";
      "";
      "Example:";
      "list-tag-values '{" ++ quoted "issueId" ++ ":" ++ quoted "123456789" ++ ","
          ++ quoted "tagKey" ++ ":" ++ quoted "environment" ++ "," ++ quoted "profile"
          ++ ":" ++ quoted "production" ++ "," ++ quoted "format" ++ ":" ++ quoted "json"
          ++ "}'"];
   lines
     ["";
      "Parameters:";
      "- issueId (required): string - Issue ID";
      "- profile (optional): string - Sentry profile name (default: configured default profile)";
      "- format (optional): string - Output format: json or toon (default: json)";
      "";
      "Example:";
      "list-issue-hashes '{" ++ quoted "issueId" ++ ":" ++ quoted "123456789" ++ ","
          ++ quoted "profile" ++ ":" ++ quoted "production" ++ "," ++ quoted "format" ++ ":"
          ++ quoted "json" ++ "}'"];
   lines
     ["";
      "Parameters:";
      "- projectSlug (required): string - Project slug or ID";
      "- eventId (required): string - Event ID";
      "- frame_idx (optional): string - Frame index";
      "- exception_idx (optional): string - Exception index";
      "- profile (optional): string - Sentry profile name (default: configured default profile)";
      "- format (optional): string - Output format: json or toon (default: json)";
      "";
      "Example:";
      "debug-source-maps '{" ++ quoted "projectSlug" ++ ":" ++ quoted "my-project" ++ ","
          ++ quoted "eventId" ++ ":" ++ quoted "abc123def456" ++ "," ++ quoted "profile"
          ++ ":" ++ quoted "production" ++ "," ++ quoted "format" ++ ":" ++ quoted "json"
          ++ "}'"];
   lines
     ["";
      "Parameters:";
      "- profile (optional): string - Sentry profile name (default: configured default profile)";
      "";
      "Example:";
      "test-connection '{" ++ quoted "profile" ++ ":" ++ quoted "production" ++ "}'"]].

End Constants.

(** ** A concrete environment

    Integers as the numbers, one configured profile, and an upstream chosen
    per scenario; the general statements below are applied to it. *)

Module Sample.
Import Str JS Config Effects.

(** The integers, written in decimal without leading zeros. Fractions,
    exponents and [-0] are outside this instance, and an integer is exact at
    any size, where the double of the engine rounds beyond 2^53. *)
Definition Z_number : JSNumber Z := {|
  num_eqb := Z.eqb;
  num_to_string := fun z => NilZero.string_of_int (Z.to_int z);
  num_of_string := fun s =>
    match NilZero.int_of_string s with
    | Some d =>
        if NilZero.string_of_int (Z.to_int (Z.of_int d)) =? s
        then Some (Z.of_int d) else None
    | None => None
    end;
  num_is_zero := fun z => Z.eqb z 0;
  num_of_Z := fun z => z;
|}.

Definition production : SentryClientOptions := {|
  baseUrl := "https://sentry.io/api/0";
  authToken := "secret";
  organization := "acme";
|}.

Definition sample_config : Config := {|
  profiles := [("production", production)];
  defaultProfile := "production";
  defaultFormat := "json";
|}.

Fixpoint find_profile (name : string) (l : list (string * SentryClientOptions))
  : option SentryClientOptions :=
  match l with
  | [] => None
  | (n, o) :: r => if n =? name then Some o else find_profile name r
  end.

(** Modelled from the spec: [getSentryClientOptions] of [config-loader]
    resolves a profile name to its connection options and fails when the
    named profile is absent from the configuration. *)
Definition resolveProfile (cfg : Config) (name : JValue Z) : Thrown Z + SentryClientOptions :=
  match name with
  | JStr n =>
      match find_profile n (profiles cfg) with
      | Some o => inr o
      | None => inl (Error ("Profile not found: " ++ n))
      end
  | _ => inl (Error "Profile not found")
  end.

(** The text with the bytes [l]. *)
Definition of_bytes (l : list nat) : string :=
  string_of_list_ascii (map ascii_of_nat l).

(** The white space and the line terminators of the language, which
    [String.prototype.trim] strips, in UTF-8: the ASCII controls and the
    space, U+00A0, U+1680, U+2000 to U+200A, U+2028, U+2029, U+202F, U+205F,
    U+3000 and U+FEFF. *)
Definition white_space : list string :=
  map of_bytes
    [[9]; [10]; [11]; [12]; [13]; [32];
     [194; 160];
     [225; 154; 128];
     [226; 128; 128]; [226; 128; 129]; [226; 128; 130]; [226; 128; 131];
     [226; 128; 132]; [226; 128; 133]; [226; 128; 134]; [226; 128; 135];
     [226; 128; 136]; [226; 128; 137]; [226; 128; 138];
     [226; 128; 168]; [226; 128; 169];
     [226; 128; 175];
     [226; 129; 159];
     [227; 128; 128];
     [239; 187; 191]].

Definition reversed (s : string) : string :=
  string_of_list_ascii (rev (list_ascii_of_string s)).

(** What follows the first of the texts [l] that [s] starts with. *)
Fixpoint after_any (l : list string) (s : string) : option string :=
  match l with
  | [] => None
  | p :: r =>
      match JSON.after_prefix p s with
      | Some t => Some t
      | None => after_any r s
      end
  end.

(** [s] without the texts of [l] that it starts with; [fuel] bounds their
    number, and the length of [s] is enough. *)
Fixpoint drop_leading (l : list string) (fuel : nat) (s : string) : string :=
  match fuel with
  | O => s
  | S fuel' =>
      match after_any l s with
      | Some t => drop_leading l fuel' t
      | None => s
      end
  end.

Definition trim_start (s : string) : string :=
  drop_leading white_space (String.length s) s.

(** [trim_end s] drops the white space that ends [s]. *)
Definition trim_end (s : string) : string :=
  reversed (drop_leading (map reversed white_space) (String.length s) (reversed s)).

(** [String.prototype.trim] *)
Definition js_trim (s : string) : string := trim_end (trim_start s).

(** An upstream that answers every request with the body [d]. *)
Definition answers (d : JValue Z) : list (Request Z) -> Request Z -> Thrown Z + JValue Z :=
  fun _ _ => inr d.

(** An upstream that fails every request with the error [e]. *)
Definition fails (e : Thrown Z) : list (Request Z) -> Request Z -> Thrown Z + JValue Z :=
  fun _ _ => inl e.

(** The environment of the scenarios: the sample configuration, the parser of
    [JSON], and a toon encoder that would throw if it were ever called. The
    message of a [SyntaxError] is the engine's own; a fixed text stands for
    it. *)
Definition environment (up : list (Request Z) -> Request Z -> Thrown Z + JValue Z)
  : @Externals Z := {|
  projectRoot := "/srv/app";
  loadConfig := fun _ => inr sample_config;
  getSentryClientOptions := resolveProfile;
  JSON_parse := fun s =>
    match @JSON.parse Z Z_number s with
    | Some v => inr v
    | None => inl (Error "Unexpected token in JSON")
    end;
  trim := js_trim;
  encode := fun _ => inl (Error "encode was called");
  upstream := up;
|}.

(** A process that has just started. *)
Definition start : World Z := {|
  sentryUtil := None;
  instances := 0;
  sent := [];
  console := [];
|}.

(** JSON text of an object with string values. *)
Definition pair_text (k v : string) : string := quoted k ++ ":" ++ quoted v.

Definition object_text (members : list string) : string :=
  "{" ++ join "," members ++ "}".

End Sample.

(** * The vocabulary of the properties *)

Module Spec.
Import Str JS JSON Config Effects SentryUtils Runner.
Local Open Scope effect_scope.

(** A call of one of the thirteen operations of the class, with its
    arguments. *)
Inductive Call {num : Type} : Type :=
| ListProjectEvents (profileName projectSlug ps format : JValue num)
| ListProjectIssues (profileName projectSlug ps format : JValue num)
| ListOrgIssues (profileName ps format : JValue num)
| GetIssue (profileName issueId format : JValue num)
| UpdateIssue (profileName issueId d : JValue num)
| ListIssueEvents (profileName issueId ps format : JValue num)
| GetEvent (profileName projectSlug eventId format : JValue num)
| GetIssueEvent (profileName issueId eventId format : JValue num)
| GetTagDetails (profileName issueId tagKey ps format : JValue num)
| ListTagValues (profileName issueId tagKey ps format : JValue num)
| ListIssueHashes (profileName issueId format : JValue num)
| DebugSourceMaps (profileName projectSlug eventId ps format : JValue num)
| TestConnection (profileName : JValue num).
Arguments Call num : clear implicits.

Section Vocabulary.
Context {num : Type} `{JSNumber num} `{!Externals num}.

(** ** Requests *)

(** [sends P m]: whatever the state and the outcome, [m] only adds requests
    to the ones already sent, and each request it adds satisfies [P]. *)
Definition sends {A} (P : Request num -> Prop) (m : M num A) : Prop :=
  forall w, exists new, sent (snd (m w)) = (sent w ++ new)%list /\ Forall P new.

(** [carries Q r]: the query parameters and the body of [r] satisfy [Q]. *)
Definition carries (Q : JValue num -> Prop) (r : Request num) : Prop :=
  Q (params r) /\ Q (body r).

(** [quiet m]: [m] sends nothing and does not end the process. *)
Definition quiet {A} (m : M num A) : Prop :=
  forall w, sent (snd (m w)) = sent w /\ forall c, fst (m w) <> Exit c.

(** [at_most_once m]: [m] does not end the process, and it sends no request
    or exactly one; a request that the upstream fails with [e] makes [m]
    throw [e]. *)
Definition at_most_once {A} (m : M num A) : Prop :=
  forall w,
    (forall c, fst (m w) <> Exit c)
    /\ (sent (snd (m w)) = sent w
        \/ exists req,
            sent (snd (m w)) = (sent w ++ [req])%list
            /\ forall e, upstream (sent w) req = inl e -> fst (m w) = Throw e).

(** ** The denylist *)

(** The denylist of client-only keys, as the specification lists it. *)
Definition denylist : list string :=
  ["profile"; "format"; "projectSlug"; "issueId"; "eventId"; "tagKey"].

(** [stripped v]: reading any of the six keys of the denylist from [v] gives
    [undefined]. *)
Definition stripped (v : JValue num) : Prop :=
  forall k, In k denylist -> GetOpt v k = JUndefined.

(** What a request may carry as query parameters or body in a run on the
    argument text [arg]: nothing, the fixed [{ limit: 1 }] of
    [test-connection], or the bag parsed from [arg] as [filterCliParams]
    leaves it. *)
Definition forwarded (arg : option string) (v : JValue num) : Prop :=
  v = JUndefined
  \/ v = JObj [("limit", JNum (num_of_Z 1))]
  \/ exists args, parse_args arg = inr args /\ filterCliParams args = inr v.

(** ** The client cache *)

(** The number of handles the pool holds for the profile name [name]. *)
Definition handles (name : string) (pool : list (JValue num * AxiosInstance)) : nat :=
  length (filter (fun kc => SameValueZero (fst kc) (JStr name)) pool).

(** The state of the cache in the worlds the class can reach: at most one
    handle per profile name, every handle created before now, under a name
    that the configuration resolves. *)
Definition cache_ok (w : World num) : Prop :=
  match sentryUtil w with
  | None => True
  | Some u =>
      (forall name, handles name (clientPool u) <= 1)
      /\ Forall (fun kc =>
                   instance_id (snd kc) < instances w
                   /\ exists o, getSentryClientOptions (config u) (fst kc) = inr o)
           (clientPool u)
  end.

(** A world in which [new SentryUtil(cfg)] has just run. *)
Definition constructed (cfg : Config) (w : World num) : World num :=
  {| sentryUtil := Some {| config := cfg; clientPool := [] |};
     instances := instances w; sent := sent w; console := console w |}.

(** ** The operations *)

(** The method of the class a call stands for. *)
Definition perform (c : Call num) : M num (ApiResult num) :=
  match c with
  | ListProjectEvents p s ps f => listProjectEvents p s ps f
  | ListProjectIssues p s ps f => listProjectIssues p s ps f
  | ListOrgIssues p ps f => listOrgIssues p ps f
  | GetIssue p i f => getIssue p i f
  | UpdateIssue p i d => updateIssue p i d
  | ListIssueEvents p i ps f => listIssueEvents p i ps f
  | GetEvent p s e f => getEvent p s e f
  | GetIssueEvent p i e f => getIssueEvent p i e f
  | GetTagDetails p i t ps f => getTagDetails p i t ps f
  | ListTagValues p i t ps f => listTagValues p i t ps f
  | ListIssueHashes p i f => listIssueHashes p i f
  | DebugSourceMaps p s e ps f => debugSourceMaps p s e ps f
  | TestConnection p => testConnection p
  end.

(** The [detail] field of the body the server answered a failed request
    with; [undefined] when there is no response, no body or no such field. *)
Definition detail_of (e : Thrown num) : JValue num :=
  match e with
  | AxiosError _ (Some d) => GetOpt d "detail"
  | _ => JUndefined
  end.

(** The result of the [catch] block for an error message [s]. *)
Definition failure (s : string) : ApiResult num :=
  {| success := false; result := None; data := JUndefined;
     error := Some ("ERROR: " ++ s) |}.

(** ** Validation *)

(** The commands with the fields their parameter descriptions mark
    [(required)] ([COMMANDS_DETAIL] of [config/constants.ts]). *)
Definition required : list (string * list string) :=
  [("list-project-events", ["projectSlug"]);
   ("list-project-issues", ["projectSlug"]);
   ("list-org-issues", []);
   ("get-issue", ["issueId"]);
   ("update-issue", ["issueId"]);
   ("list-issue-events", ["issueId"]);
   ("get-event", ["projectSlug"; "eventId"]);
   ("get-issue-event", ["issueId"; "eventId"]);
   ("get-tag-details", ["issueId"; "tagKey"]);
   ("list-tag-values", ["issueId"; "tagKey"]);
   ("list-issue-hashes", ["issueId"]);
   ("debug-source-maps", ["projectSlug"; "eventId"]);
   ("test-connection", [])].

(** The message printed for a command whose required fields are [fields]. *)
Definition required_message (fields : list string) : string :=
  match fields with
  | [f] => "ERROR: " ++ dq ++ f ++ dq ++ " parameter is required"
  | [f; g] =>
      "ERROR: " ++ dq ++ f ++ dq ++ " and " ++ dq ++ g ++ dq
                ++ " parameters are required"
  | _ => ""
  end.

(** The bag [m] without the key [f]. *)
Definition without (f : string) (m : list (string * JValue num))
  : list (string * JValue num) :=
  filter (fun kv => negb (fst kv =? f)) m.

(** [w] with one more line on standard error. *)
Definition with_stderr (w : World num) (line : string) : World num :=
  {| sentryUtil := sentryUtil w; instances := instances w; sent := sent w;
     console := console w ++ [Stderr line] |}.

(** ** The JSON text *)

(** The first character of a rendered value. *)
Definition value_start (c : ascii) : bool :=
  is_num_char c || Ascii.eqb c dquote || Ascii.eqb c "[" || Ascii.eqb c "{"
  || Ascii.eqb c "n" || Ascii.eqb c "t" || Ascii.eqb c "f".

(** What may follow a number: not a number character. *)
Definition ends_number (rest : string) : Prop :=
  match rest with
  | String c _ => is_num_char c = false
  | EmptyString => True
  end.

(** [s] is white space only. *)
Fixpoint all_ws (s : string) : bool :=
  match s with
  | EmptyString => true
  | String c r => is_ws c && all_ws r
  end.

(** The text of a value; [undefined] is written [null], as in an array. *)
Definition text (gap ind : string) (v : JValue num) : string :=
  match SerializeJSONProperty gap ind v with
  | Some s => s
  | None => "null"
  end.

(** The indentation at nesting depth [depth]: two spaces per level. *)
Definition indentation (depth : nat) : string := spaces (2 * depth).

(** Following the spec's words, pretty-printed JSON with 2-space indentation
    and the key order of the payload: one element or member per line, each
    indented two spaces more than its container, the members in the
    payload's order, and an empty container on one line. *)
Fixpoint pretty (depth : nat) (v : JValue num) : string :=
  match v with
  | JUndefined => "null"
  | JNull => "null"
  | JBool true => "true"
  | JBool false => "false"
  | JNum n => num_to_string n
  | JStr s => QuoteJSONString s
  | JArr l =>
      match l with
      | [] => "[]"
      | _ =>
          "[" ++ nl
              ++ join ("," ++ nl)
                   (map (fun x => indentation (S depth) ++ pretty (S depth) x) l)
              ++ nl ++ indentation depth ++ "]"
      end
  | JObj m =>
      match m with
      | [] => "{}"
      | _ =>
          "{" ++ nl
              ++ join ("," ++ nl)
                   (map (fun kv =>
                           indentation (S depth) ++ QuoteJSONString (fst kv) ++ ": "
                             ++ pretty (S depth) (snd kv)) m)
              ++ nl ++ indentation depth ++ "}"
      end
  end.

End Vocabulary.

Arguments handles {num H} name pool : simpl never.

End Spec.

(** ** The values of the scenarios *)

Module Cases.
Import Str JS Config Effects Sample Spec.

(** The upstream answers 404 with a [detail]. *)
Definition not_found : Thrown Z :=
  AxiosError "Request failed with status code 404"
    (Some (JObj [("detail", JStr "Issue not found")])).

(** The upstream answers 404 with an empty [detail]. *)
Definition not_found_empty_detail : Thrown Z :=
  AxiosError "Request failed with status code 404"
    (Some (JObj [("detail", JStr "")])).

(** The upstream answers 200 with an issue. *)
Definition issue_123 : JValue Z :=
  JObj [("id", JStr "123"); ("status", JStr "unresolved")].

(** A process in which the [SentryUtil] instance exists and holds no client. *)
Definition ready : World Z := constructed sample_config start.

(** A payload with nesting, an escape, a number and empty containers. *)
Definition payload : JValue Z :=
  JObj [("id", JStr "123");
        ("count", JNum 42%Z);
        ("delta", JNum (-7)%Z);
        ("title", JStr ("line one" ++ nl ++ "line " ++ quoted "two"));
        ("tags", JArr [JStr "a"; JNull; JBool true; JArr []; JObj []]);
        ("owner", JObj [("name", JStr "ops"); ("teams", JArr [JNum 1%Z; JNum 2%Z])])].

End Cases.

(** ** The operations as a table *)

Module Table.
Import Str JS Config Effects SentryUtils Spec.
Local Open Scope effect_scope.

Section Table.
Context {num : Type} `{JSNumber num} `{!Externals num}.

(** The command name under which [runCommand] makes a call. *)
Definition name_of (c : Call num) : string :=
  match c with
  | ListProjectEvents _ _ _ _ => "list-project-events"
  | ListProjectIssues _ _ _ _ => "list-project-issues"
  | ListOrgIssues _ _ _ => "list-org-issues"
  | GetIssue _ _ _ => "get-issue"
  | UpdateIssue _ _ _ => "update-issue"
  | ListIssueEvents _ _ _ _ => "list-issue-events"
  | GetEvent _ _ _ _ => "get-event"
  | GetIssueEvent _ _ _ _ => "get-issue-event"
  | GetTagDetails _ _ _ _ _ => "get-tag-details"
  | ListTagValues _ _ _ _ _ => "list-tag-values"
  | ListIssueHashes _ _ _ => "list-issue-hashes"
  | DebugSourceMaps _ _ _ _ _ => "debug-source-maps"
  | TestConnection _ => "test-connection"
  end.

(** The profile name a call is made with. *)
Definition profile_of (c : Call num) : JValue num :=
  match c with
  | ListProjectEvents p _ _ _ | ListProjectIssues p _ _ _ | ListOrgIssues p _ _
  | GetIssue p _ _ | UpdateIssue p _ _ | ListIssueEvents p _ _ _ | GetEvent p _ _ _
  | GetIssueEvent p _ _ _ | GetTagDetails p _ _ _ _ | ListTagValues p _ _ _ _
  | ListIssueHashes p _ _ | DebugSourceMaps p _ _ _ _ | TestConnection p => p
  end.

(** The identifiers a call puts in the path, in the order of the path. *)
Definition identifiers (c : Call num) : list (JValue num) :=
  match c with
  | ListProjectEvents _ s _ _ | ListProjectIssues _ s _ _ => [s]
  | ListOrgIssues _ _ _ | TestConnection _ => []
  | GetIssue _ i _ | UpdateIssue _ i _ | ListIssueEvents _ i _ _
  | ListIssueHashes _ i _ => [i]
  | GetEvent _ s e _ | DebugSourceMaps _ s e _ _ => [s; e]
  | GetIssueEvent _ i e _ => [i; e]
  | GetTagDetails _ i t _ _ | ListTagValues _ i t _ _ => [i; t]
  end.

Definition method_of (c : Call num) : Method :=
  match c with
  | UpdateIssue _ _ _ => PUT
  | _ => GET
  end.

(** The path of a call for the organization [org] and the identifiers [ids]
    as strings. *)
Definition path_of (c : Call num) (org : string) (ids : list string) : string :=
  match c, ids with
  | ListProjectEvents _ _ _ _, [s] => "/projects/" ++ org ++ "/" ++ s ++ "/events/"
  | ListProjectIssues _ _ _ _, [s] => "/projects/" ++ org ++ "/" ++ s ++ "/issues/"
  | ListOrgIssues _ _ _, [] => "/organizations/" ++ org ++ "/issues/"
  | GetIssue _ _ _, [i] => "/organizations/" ++ org ++ "/issues/" ++ i ++ "/"
  | UpdateIssue _ _ _, [i] => "/organizations/" ++ org ++ "/issues/" ++ i ++ "/"
  | ListIssueEvents _ _ _ _, [i] => "/organizations/" ++ org ++ "/issues/" ++ i ++ "/events/"
  | GetEvent _ _ _ _, [s; e] => "/projects/" ++ org ++ "/" ++ s ++ "/events/" ++ e ++ "/"
  | GetIssueEvent _ _ _ _, [i; e] =>
      "/organizations/" ++ org ++ "/issues/" ++ i ++ "/events/" ++ e ++ "/"
  | GetTagDetails _ _ _ _ _, [i; t] =>
      "/organizations/" ++ org ++ "/issues/" ++ i ++ "/tags/" ++ t ++ "/"
  | ListTagValues _ _ _ _ _, [i; t] =>
      "/organizations/" ++ org ++ "/issues/" ++ i ++ "/tags/" ++ t ++ "/values/"
  | ListIssueHashes _ _ _, [i] => "/organizations/" ++ org ++ "/issues/" ++ i ++ "/hashes/"
  | DebugSourceMaps _ _ _ _ _, [s; e] =>
      "/projects/" ++ org ++ "/" ++ s ++ "/events/" ++ e ++ "/source-map-debug/"
  | TestConnection _, [] => "/organizations/" ++ org ++ "/issues/"
  | _, _ => ""
  end.

(** The query parameters a call passes to axios. *)
Definition query_of (c : Call num) : JValue num :=
  match c with
  | ListProjectEvents _ _ ps _ | ListProjectIssues _ _ ps _ | ListOrgIssues _ ps _
  | ListIssueEvents _ _ ps _ | GetTagDetails _ _ _ ps _ | ListTagValues _ _ _ ps _
  | DebugSourceMaps _ _ _ ps _ => ps
  | TestConnection _ => JObj [("limit", JNum (num_of_Z 1))]
  | GetIssue _ _ _ | UpdateIssue _ _ _ | GetEvent _ _ _ _ | GetIssueEvent _ _ _ _
  | ListIssueHashes _ _ _ => JUndefined
  end.

(** The request body of a call. *)
Definition body_of (c : Call num) : JValue num :=
  match c with
  | UpdateIssue _ _ d => d
  | _ => JUndefined
  end.

(** The format a call renders the response body with; [None] for the two
    operations whose result is a fixed message. *)
Definition format_of (c : Call num) : option (JValue num) :=
  match c with
  | ListProjectEvents _ _ _ f | ListProjectIssues _ _ _ f | ListOrgIssues _ _ f
  | GetIssue _ _ f | ListIssueEvents _ _ _ f | GetEvent _ _ _ f | GetIssueEvent _ _ _ f
  | GetTagDetails _ _ _ _ f | ListTagValues _ _ _ _ f | ListIssueHashes _ _ f
  | DebugSourceMaps _ _ _ _ f => Some f
  | UpdateIssue _ _ _ | TestConnection _ => None
  end.

(** The request of a call through [client], for the connection options [o]
    of its profile. *)
Definition request_of (c : Call num) (client : AxiosInstance) (o : SentryClientOptions)
  (ids : list string) : Request num :=
  {| via := client; method := method_of c; url := path_of c (organization o) ids;
     params := query_of c; body := body_of c |}.

(** The string conversions of the identifiers, in order. *)
Definition to_strings (l : list (JValue num)) : M num (list string) :=
  match strings_of (map ToString l) with
  | Some ids => ret ids
  | None => throw TypeError_primitive
  end.

(** What a call does with the response body [response]. *)
Definition finish (c : Call num) (o : SentryClientOptions) (response : JValue num)
  : M num (ApiResult num) :=
  match c with
  | UpdateIssue _ i _ =>
      id <- ToStringM i ;;
      ret {| success := true; data := response;
             result := Some ("✅ Issue " ++ id ++ " updated successfully!");
             error := None |}
  | TestConnection p =>
      name <- ToStringM p ;;
      ret {| success := true;
             data := JObj [("organization", JStr (organization o));
                           ("baseUrl", JStr (baseUrl o))];
             result := Some ("✅ Connection successful!" ++ nl ++ nl
                             ++ "Profile: " ++ name ++ nl
                             ++ "Organization: " ++ organization o ++ nl
                             ++ "Base URL: " ++ baseUrl o ++ nl
                             ++ "Status: Connected");
             error := None |}
  | ListProjectEvents _ _ _ f | ListProjectIssues _ _ _ f | ListOrgIssues _ _ f
  | GetIssue _ _ f | ListIssueEvents _ _ _ f | GetEvent _ _ _ f | GetIssueEvent _ _ _ f
  | GetTagDetails _ _ _ _ f | ListTagValues _ _ _ _ f | ListIssueHashes _ _ f
  | DebugSourceMaps _ _ _ _ f => rendered response f
  end.

(** The world after one more request. *)
Definition with_request (w : World num) (r : Request num) : World num :=
  {| sentryUtil := sentryUtil w; instances := instances w; sent := sent w ++ [r];
     console := console w |}.

(** The common shape of the thirteen operations. *)
Definition operation (c : Call num) : M num (ApiResult num) :=
  try_catch
    (client <- getClient (profile_of c) ;;
     o <- getClientOptions (profile_of c) ;;
     ids <- to_strings (identifiers c) ;;
     response <- axios_request (request_of c client o ids) ;;
     finish c o response)
    on_error.


(** ** The dispatcher as a table *)

(** The call the [switch] of [runCommand] makes for a command, on the
    argument bag [args] and the bag [ps] that [filterCliParams] leaves of it;
    [None] for a name that has no case. *)
Definition selected (command : string) (args ps profile format : JValue num)
  : option (Call num) :=
  let f := or_json format in
  let arg := GetOpt args in
  if command =? "list-project-events" then
    Some (ListProjectEvents profile (arg "projectSlug") ps f)
  else if command =? "list-project-issues" then
    Some (ListProjectIssues profile (arg "projectSlug") ps f)
  else if command =? "list-org-issues" then Some (ListOrgIssues profile ps f)
  else if command =? "get-issue" then Some (GetIssue profile (arg "issueId") f)
  else if command =? "update-issue" then Some (UpdateIssue profile (arg "issueId") ps)
  else if command =? "list-issue-events" then
    Some (ListIssueEvents profile (arg "issueId") ps f)
  else if command =? "get-event" then
    Some (GetEvent profile (arg "projectSlug") (arg "eventId") f)
  else if command =? "get-issue-event" then
    Some (GetIssueEvent profile (arg "issueId") (arg "eventId") f)
  else if command =? "get-tag-details" then
    Some (GetTagDetails profile (arg "issueId") (arg "tagKey") ps f)
  else if command =? "list-tag-values" then
    Some (ListTagValues profile (arg "issueId") (arg "tagKey") ps f)
  else if command =? "list-issue-hashes" then Some (ListIssueHashes profile (arg "issueId") f)
  else if command =? "debug-source-maps" then
    Some (DebugSourceMaps profile (arg "projectSlug") (arg "eventId") ps f)
  else if command =? "test-connection" then Some (TestConnection profile)
  else None.

(** The message of the validation of a call. *)
Definition validation_message (c : Call num) : string :=
  match c with
  | ListProjectEvents _ _ _ _ | ListProjectIssues _ _ _ _ => Runner.required1 "projectSlug"
  | GetIssue _ _ _ | UpdateIssue _ _ _ | ListIssueEvents _ _ _ _
  | ListIssueHashes _ _ _ => Runner.required1 "issueId"
  | GetEvent _ _ _ _ | DebugSourceMaps _ _ _ _ _ => Runner.required2 "projectSlug" "eventId"
  | GetIssueEvent _ _ _ _ => Runner.required2 "issueId" "eventId"
  | GetTagDetails _ _ _ _ _ | ListTagValues _ _ _ _ _ => Runner.required2 "issueId" "tagKey"
  | ListOrgIssues _ _ _ | TestConnection _ => ""
  end.

(** The world in which the [catch] block of [runCommand] ends the process. *)
Definition caught (e : Thrown num) (w : World num) : Outcome num unit * World num :=
  (Exit 1,
   {| sentryUtil := None; instances := instances w; sent := sent w;
      console := console w ++ [Stderr ("Error executing command: " ++ message_of e)] |}).

(** What [runCommand] does with the outcome of the operation. *)
Definition report (r : Outcome num (ApiResult num) * World num) : Outcome num unit * World num :=
  match r with
  | (Return a, w) =>
      if success a then
        (Return tt,
         {| sentryUtil := None; instances := instances w; sent := sent w;
            console := console w ++ [Stdout (shown (result a))] |})
      else (Exit 1, with_stderr w (shown (error a)))
  | (Throw e, w) => caught e w
  | (Exit k, w) => (Exit k, w)
  end.

(** The world after [initSentry] when the configuration [cfg] loads. *)
Definition initialized (cfg : Config) (w : World num) : World num :=
  match sentryUtil w with
  | Some _ => w
  | None => constructed cfg w
  end.


(** The bag [filterCliParams] leaves of an argument that is neither [null]
    nor [undefined]. *)
Definition filtered (args : JValue num) : JValue num :=
  JObj (filter (fun kv => negb (Runner.is_cli_key (fst kv))) (own_properties args)).

(** [args.profile || config.defaultProfile] *)
Definition profile_for (cfg : Config) (args : JValue num) : JValue num :=
  or_else (GetOpt args "profile") (JStr (defaultProfile cfg)).

(** [args.format || config.defaultFormat] *)
Definition format_for (cfg : Config) (args : JValue num) : JValue num :=
  or_else (GetOpt args "format") (JStr (defaultFormat cfg)).


(** ** The outcome of an operation *)

(** The outcome of the [catch] block of an operation on the error [e]. *)
Definition settled (e : Thrown num) : Outcome num (ApiResult num) :=
  match ToString (errorMessage e) with
  | Some s => Return (failure s)
  | None => Throw TypeError_primitive
  end.

(** An outcome of the [try] block of an operation, as the operation ends. *)
Definition caught_by (r : Outcome num (ApiResult num)) : Outcome num (ApiResult num) :=
  match r with
  | Throw e => settled e
  | _ => r
  end.

(** The outcome of [formatResult]. *)
Definition formatted (d format : JValue num) : Outcome num (option string) :=
  if is_toon (or_json format) then
    if negb (ToBoolean d) then Return (Some "")
    else match encode d with
         | inr s => Return (Some s)
         | inl e => Throw e
         end
  else Return (formatAsJson d).

(** The outcome of [finish]. *)
Definition finished (c : Call num) (o : SentryClientOptions) (response : JValue num)
  : Outcome num (ApiResult num) :=
  match c with
  | UpdateIssue _ i _ =>
      match ToString i with
      | Some id =>
          Return {| success := true; data := response;
                    result := Some ("✅ Issue " ++ id ++ " updated successfully!");
                    error := None |}
      | None => Throw TypeError_primitive
      end
  | TestConnection p =>
      match ToString p with
      | Some name =>
          Return {| success := true;
                    data := JObj [("organization", JStr (organization o));
                                  ("baseUrl", JStr (baseUrl o))];
                    result := Some ("✅ Connection successful!" ++ nl ++ nl
                                    ++ "Profile: " ++ name ++ nl
                                    ++ "Organization: " ++ organization o ++ nl
                                    ++ "Base URL: " ++ baseUrl o ++ nl
                                    ++ "Status: Connected");
                    error := None |}
      | None => Throw TypeError_primitive
      end
  | ListProjectEvents _ _ _ f | ListProjectIssues _ _ _ f | ListOrgIssues _ _ f
  | GetIssue _ _ f | ListIssueEvents _ _ _ f | GetEvent _ _ _ f | GetIssueEvent _ _ _ f
  | GetTagDetails _ _ _ _ f | ListTagValues _ _ _ _ f | ListIssueHashes _ _ f
  | DebugSourceMaps _ _ _ _ f =>
      match formatted response f with
      | Return r => Return {| success := true; data := response; result := r; error := None |}
      | Throw e => Throw e
      | Exit k => Exit k
      end
  end.

(** The client [axios.create] returns in the world [w] for the options [o]. *)
Definition new_client (o : SentryClientOptions) (w : World num) : AxiosInstance :=
  {| instance_id := instances w; baseURL := baseUrl o;
     headers := [("Authorization", "Bearer " ++ authToken o);
                 ("Content-Type", "application/json")] |}.

(** The client [getClient] returns for the name [p] whose options are [o],
    and the world it leaves: the client of the pool when there is one, and
    otherwise a new one, added to the pool. *)
Definition client_for (u : SentryUtil num) (p : JValue num) (o : SentryClientOptions)
  (w : World num) : AxiosInstance * World num :=
  match Map_get (clientPool u) p with
  | Some client => (client, w)
  | None =>
      (new_client o w,
       {| sentryUtil := Some {| config := config u;
                                clientPool := Map_set (clientPool u) p (new_client o w) |};
          instances := S (instances w); sent := sent w; console := console w |})
  end.


(** A result in which exactly one of the two branches is filled: a success
    without an error string, or a failure that only holds its error string,
    which starts with [ERROR: ]. *)
Definition populated (r : ApiResult num) : Prop :=
  (success r = true /\ error r = None)
  \/ (success r = false /\ result r = None /\ data r = JUndefined
      /\ exists s, error r = Some ("ERROR: " ++ s)).

(** The outcomes of an operation: a result as above, or the [TypeError] of an
    error message that has no string conversion. *)
Definition settles (out : Outcome num (ApiResult num)) : Prop :=
  (exists r, out = Return r /\ populated r) \/ out = Throw TypeError_primitive.


(** The commands that forward the filtered bag as query parameters. *)
Definition forwards_query : list string :=
  ["list-project-events"; "list-project-issues"; "list-org-issues"; "list-issue-events";
   "get-tag-details"; "list-tag-values"; "debug-source-maps"].


(** ** The help text *)

(** The lines of a text. *)
Fixpoint text_lines (s : string) : list string :=
  match s with
  | EmptyString => [""]
  | String c r =>
      if Ascii.eqb c newline then "" :: text_lines r
      else match text_lines r with
           | l :: ls => String c l :: ls
           | [] => [String c ""]
           end
  end.

(** The word a text starts with, up to its first space, and the rest of the
    text from that space on. *)
Fixpoint first_word (s : string) : string * string :=
  match s with
  | EmptyString => ("", "")
  | String c r =>
      if Ascii.eqb c " " then ("", s)
      else let (w, t) := first_word r in (String c w, t)
  end.

(** The parameter that a line of the help describes as required: the name in
    a line [- name (required): ...]. *)
Definition required_parameter (line : string) : option string :=
  if String.prefix "- " line then
    let (name, tail) := first_word (String.substring 2 (String.length line - 2) line) in
    if String.prefix " (required)" tail then Some name else None
  else None.

(** The parameters that the help text [detail] of a command marks
    [(required)], in the order of its lines. *)
Definition marked_required (detail : string) : list string :=
  flat_map (fun line => match required_parameter line with
                        | Some name => [name]
                        | None => []
                        end) (text_lines detail).


(** ** The wrapper functions as a table *)

(** The function of the API wrapper module a call goes through. *)
Definition wrapper (c : Call num) : M num (ApiResult num) :=
  match c with
  | ListProjectEvents p s ps f => SentryClient.listProjectEvents p s ps f
  | ListProjectIssues p s ps f => SentryClient.listProjectIssues p s ps f
  | ListOrgIssues p ps f => SentryClient.listOrgIssues p ps f
  | GetIssue p i f => SentryClient.getIssue p i f
  | UpdateIssue p i d => SentryClient.updateIssue p i d
  | ListIssueEvents p i ps f => SentryClient.listIssueEvents p i ps f
  | GetEvent p s e f => SentryClient.getEvent p s e f
  | GetIssueEvent p i e f => SentryClient.getIssueEvent p i e f
  | GetTagDetails p i t ps f => SentryClient.getTagDetails p i t ps f
  | ListTagValues p i t ps f => SentryClient.listTagValues p i t ps f
  | ListIssueHashes p i f => SentryClient.listIssueHashes p i f
  | DebugSourceMaps p s e ps f => SentryClient.debugSourceMaps p s e ps f
  | TestConnection p => SentryClient.testConnection p
  end.

(** A call with the default ['json'] of its format parameter applied. *)
Definition defaulted (c : Call num) : Call num :=
  match c with
  | ListProjectEvents p s ps f => ListProjectEvents p s ps (or_json f)
  | ListProjectIssues p s ps f => ListProjectIssues p s ps (or_json f)
  | ListOrgIssues p ps f => ListOrgIssues p ps (or_json f)
  | GetIssue p i f => GetIssue p i (or_json f)
  | UpdateIssue p i d => UpdateIssue p i d
  | ListIssueEvents p i ps f => ListIssueEvents p i ps (or_json f)
  | GetEvent p s e f => GetEvent p s e (or_json f)
  | GetIssueEvent p i e f => GetIssueEvent p i e (or_json f)
  | GetTagDetails p i t ps f => GetTagDetails p i t ps (or_json f)
  | ListTagValues p i t ps f => ListTagValues p i t ps (or_json f)
  | ListIssueHashes p i f => ListIssueHashes p i (or_json f)
  | DebugSourceMaps p s e ps f => DebugSourceMaps p s e ps (or_json f)
  | TestConnection p => TestConnection p
  end.

End Table.
End Table.

(** ** More values of the scenarios *)

Module Fixtures.
Import Str JS Config Effects SentryUtils Sample Spec Cases.

(** The environment whose upstream answers every request with [d]. *)
Definition answering (d : JValue Z) : Externals Z := environment (answers d).

(** The first client a process creates for the profile [production]. *)
Definition client0 : AxiosInstance :=
  {| instance_id := 0; baseURL := "https://sentry.io/api/0";
     headers := [("Authorization", "Bearer secret");
                 ("Content-Type", "application/json")] |}.

(** [ready] once the client of [production] is in the pool. *)
Definition connected : World Z :=
  {| sentryUtil := Some {| config := sample_config;
                           clientPool := [(JStr "production", client0)] |};
     instances := 1; sent := []; console := [] |}.

(** A GET through [client0] without query parameters. *)
Definition get0 (path : string) : Request Z :=
  {| via := client0; method := GET; url := path; params := JUndefined;
     body := JUndefined |}.

(** The rendering of [issue_123]. *)
Definition issue_123_text : string :=
  "{" ++ nl ++ "  " ++ quoted "id" ++ ": " ++ quoted "123" ++ "," ++ nl
      ++ "  " ++ quoted "status" ++ ": " ++ quoted "unresolved" ++ nl ++ "}".

(** The argument text [{"issueId":"123"}]. *)
Definition issue_arg : option string := Some (object_text [pair_text "issueId" "123"]).

End Fixtures.

(** * Properties *)

(** ** Strings *)

Module StrFacts.

Lemma append_assoc (a b c : string) : (a ++ b) ++ c = a ++ (b ++ c).
Proof. induction a as [|x a IH]; cbn; [reflexivity|now rewrite IH]. Qed.

Lemma append_nil_r (a : string) : a ++ "" = a.
Proof. induction a as [|x a IH]; cbn; [reflexivity|now rewrite IH]. Qed.

Lemma length_append (a b : string) :
  String.length (a ++ b) = String.length a + String.length b.
Proof. induction a as [|x a IH]; cbn; [reflexivity|now rewrite IH]. Qed.

End StrFacts.

(** ** The result formatter *)

Module FormatSpec.
Import Str JS Config Effects SentryUtils.

Section Formatter.
Context {num : Type} `{JSNumber num} `{!Externals num}.

Lemma formatAsToon_falsy (d : JValue num) (w : World num) :
  ToBoolean d = false -> formatAsToon d w = (Return "", w).
Proof.
  intros Hd. unfold formatAsToon. rewrite Hd. reflexivity.
Qed.

Lemma formatResult_toon (d : JValue num) (w : World num) :
  formatResult d (JStr "toon") w
  = match formatAsToon d w with
    | (Return s, w') => (Return (Some s), w')
    | (Throw e, w') => (Throw e, w')
    | (Exit c, w') => (Exit c, w')
    end.
Proof. reflexivity. Qed.

Lemma formatResult_json (d : JValue num) (w : World num) :
  formatResult d (JStr "json") w = (Return (formatAsJson d), w).
Proof. reflexivity. Qed.

(** C8. With format "toon", [null] and absent ([undefined]) data render as the
    empty string, whatever the encoder is and even if it would throw: it is
    not called. With format "json", [null] renders as the text [null]. *)
Theorem render_null_or_absent (w : World num) :
  formatResult JNull (JStr "toon") w = (Return (Some ""), w)
  /\ formatResult JUndefined (JStr "toon") w = (Return (Some ""), w)
  /\ formatAsToon JNull w = (Return "", w)
  /\ formatAsToon JUndefined w = (Return "", w)
  /\ formatResult JNull (JStr "json") w = (Return (Some "null"), w).
Proof.
  repeat split; reflexivity.
Qed.

(** C9. With format "toon", every falsy payload renders as the empty string
    and the encoder is not called: in particular [false], the empty string
    and the number zero. *)
Theorem render_toon_falsy (d : JValue num) (w : World num) :
  ToBoolean d = false ->
  formatAsToon d w = (Return "", w)
  /\ formatResult d (JStr "toon") w = (Return (Some ""), w)
  /\ (d = JBool false \/ d = JStr "" \/ d = JNull \/ d = JUndefined
      \/ exists n, d = JNum n /\ num_is_zero n = true).
Proof.
  intros Hd. split; [|split].
  - now apply formatAsToon_falsy.
  - rewrite formatResult_toon, formatAsToon_falsy by assumption. reflexivity.
  - destruct d as [| |b|n|s| |]; cbn in Hd; try discriminate; auto.
    + destruct b; [discriminate|auto].
    + right; right; right; right. exists n. split; [reflexivity|].
      now destruct (num_is_zero n).
    + destruct s; [auto|discriminate].
Qed.

End Formatter.

(** The number 0, [false] and [""] in the sample environment, whose encoder
    would throw. *)
Lemma render_toon_falsy_witness :
  let env := Sample.environment (Sample.answers JNull) in
  @formatAsToon Z Sample.Z_number env (JNum 0%Z) Sample.start = (Return "", Sample.start)
  /\ @formatAsToon Z Sample.Z_number env (JBool false) Sample.start = (Return "", Sample.start)
  /\ @formatAsToon Z Sample.Z_number env (JStr "") Sample.start = (Return "", Sample.start).
Proof.
  intro env. split; [|split].
  - apply (proj1 (@render_toon_falsy Z Sample.Z_number env (JNum 0%Z) Sample.start eq_refl)).
  - apply (proj1 (@render_toon_falsy Z Sample.Z_number env (JBool false) Sample.start eq_refl)).
  - apply (proj1 (@render_toon_falsy Z Sample.Z_number env (JStr "") Sample.start eq_refl)).
Defined.

End FormatSpec.

(** ** Requests sent by a computation *)

Module Trace.
Import Str JS Config Effects SentryUtils Spec.
Local Open Scope effect_scope.

Section Sends.
Context {num : Type} `{JSNumber num} `{!Externals num}.

Lemma sends_same {A} (P : Request num -> Prop) (m : M num A) :
  (forall w, sent (snd (m w)) = sent w) -> sends P m.
Proof.
  intros Hm w. exists []. rewrite app_nil_r. auto.
Qed.

Lemma sends_ret {A} (P : Request num -> Prop) (a : A) : sends P (ret a).
Proof. now apply sends_same. Qed.

Lemma sends_throw {A} (P : Request num -> Prop) e : sends P (@throw num A e).
Proof. now apply sends_same. Qed.

Lemma sends_exit {A} (P : Request num -> Prop) c : sends P (@process_exit num A c).
Proof. now apply sends_same. Qed.

Lemma sends_lift {A} (P : Request num -> Prop) (r : Thrown num + A) : sends P (lift r).
Proof. destruct r; [apply sends_throw | apply sends_ret]. Qed.

Lemma sends_get_world (P : Request num -> Prop) : sends P (@get_world num).
Proof. now apply sends_same. Qed.

Lemma sends_put (P : Request num -> Prop) u : sends P (@put_sentryUtil num u).
Proof. now apply sends_same. Qed.

Lemma sends_print (P : Request num -> Prop) o : sends P (@print num o).
Proof. now apply sends_same. Qed.

Lemma sends_bind {A B} (P : Request num -> Prop) (m : M num A) (k : A -> M num B) :
  sends P m -> (forall a, sends P (k a)) -> sends P (bind m k).
Proof.
  intros Hm Hk w. unfold bind.
  destruct (Hm w) as (n1 & E1 & F1).
  destruct (m w) as [[a|e|c] w1]; cbn in E1.
  - destruct (Hk a w1) as (n2 & E2 & F2).
    exists (n1 ++ n2)%list. rewrite E2, E1, app_assoc. split; [reflexivity|].
    apply Forall_app; auto.
  - exists n1. auto.
  - exists n1. auto.
Qed.

(** A continuation only has to behave on the values that are really passed
    to it. *)
Lemma sends_bind_lift {A B} (P : Request num -> Prop) (r : Thrown num + A) (k : A -> M num B) :
  (forall a, r = inr a -> sends P (k a)) -> sends P (bind (lift r) k).
Proof.
  intros Hk. destruct r as [e|a].
  - apply sends_same. reflexivity.
  - intros w. apply (Hk a eq_refl w).
Qed.

Lemma sends_try_catch {A} (P : Request num -> Prop) (m : M num A) (h : Thrown num -> M num A) :
  sends P m -> (forall e, sends P (h e)) -> sends P (try_catch m h).
Proof.
  intros Hm Hh w. unfold try_catch.
  destruct (Hm w) as (n1 & E1 & F1).
  destruct (m w) as [[a|e|c] w1]; cbn in E1.
  - exists n1. auto.
  - destruct (Hh e w1) as (n2 & E2 & F2).
    exists (n1 ++ n2)%list. rewrite E2, E1, app_assoc. split; [reflexivity|].
    apply Forall_app; auto.
  - exists n1. auto.
Qed.

Lemma sends_request (P : Request num -> Prop) (r : Request num) : P r -> sends P (axios_request r).
Proof.
  intros Hr w. exists [r]. unfold axios_request.
  destruct (upstream (sent w) r); cbn; auto.
Qed.

Lemma sends_ToStringM (P : Request num -> Prop) (v : JValue num) : sends P (ToStringM v).
Proof. unfold ToStringM. destruct (ToString v); [apply sends_ret|apply sends_throw]. Qed.

Lemma sends_this (P : Request num -> Prop) : sends P (@this num).
Proof.
  apply sends_same. intros w. unfold this. now destruct (sentryUtil w).
Qed.

End Sends.

Create HintDb sends.
#[export] Hint Resolve sends_ret sends_throw sends_exit sends_lift sends_get_world
  sends_put sends_print sends_ToStringM sends_this : sends.

(** Decomposes a goal [sends P m] along the structure of [m]. *)
Ltac sends_step :=
  match goal with
  | |- sends _ (bind (lift _) _) => apply sends_bind_lift; intros ? ?
  | |- sends _ (bind _ _) => apply sends_bind; [|intros ?]
  | |- sends _ (try_catch _ _) => apply sends_try_catch; [|intros ?]
  | |- sends _ (if ?c then _ else _) => destruct c eqn:?
  | |- sends _ (match ?x with _ => _ end) => destruct x eqn:?
  | |- sends _ _ => solve [auto with sends]
  end.

Section Operations.
Context {num : Type} `{JSNumber num} `{!Externals num}.
Variable P : Request num -> Prop.

Lemma sends_set_clientPool pool : sends P (set_clientPool pool).
Proof. unfold set_clientPool. repeat sends_step. Qed.

Lemma sends_axios_create b h : sends P (@axios_create num b h).
Proof. now apply sends_same. Qed.

Hint Resolve sends_set_clientPool sends_axios_create : sends.

Lemma sends_getClient p : sends P (getClient p).
Proof. unfold getClient. repeat sends_step. Qed.

Lemma sends_getClientOptions p : sends P (getClientOptions p).
Proof. unfold getClientOptions. repeat sends_step. Qed.

Lemma sends_formatResult d f : sends P (formatResult d f).
Proof. unfold formatResult, formatAsToon. repeat sends_step. Qed.

Hint Resolve sends_getClient sends_getClientOptions sends_formatResult : sends.

Lemma sends_rendered d f : sends P (rendered d f).
Proof. unfold rendered. repeat sends_step. Qed.

Lemma sends_on_error e : sends P (on_error e).
Proof. unfold on_error. repeat sends_step. Qed.

Lemma sends_clearClients : sends P (@SentryUtils.clearClients num).
Proof. unfold SentryUtils.clearClients. auto with sends. Qed.

End Operations.

#[export] Hint Resolve sends_set_clientPool sends_axios_create sends_getClient
  sends_getClientOptions sends_formatResult sends_rendered sends_on_error
  sends_clearClients : sends.

(** One operation of the class: everything but the request is silent. *)
Ltac sends_operation :=
  repeat first
    [ sends_step
    | apply sends_request; split; cbn; assumption ].

Section Carried.
Context {num : Type} `{JSNumber num} `{!Externals num}.
Variable Q : JValue num -> Prop.
Hypothesis Q_undefined : Q JUndefined.
Hypothesis Q_limit : Q (JObj [("limit", JNum (num_of_Z 1))]).

Lemma sends_listProjectEvents p s ps f :
  Q ps -> sends (carries Q) (SentryUtils.listProjectEvents p s ps f).
Proof. intros. unfold SentryUtils.listProjectEvents, axios_get. sends_operation. Qed.

Lemma sends_listProjectIssues p s ps f :
  Q ps -> sends (carries Q) (SentryUtils.listProjectIssues p s ps f).
Proof. intros. unfold SentryUtils.listProjectIssues, axios_get. sends_operation. Qed.

Lemma sends_listOrgIssues p ps f :
  Q ps -> sends (carries Q) (SentryUtils.listOrgIssues p ps f).
Proof. intros. unfold SentryUtils.listOrgIssues, axios_get. sends_operation. Qed.

Lemma sends_getIssue p i f : sends (carries Q) (SentryUtils.getIssue p i f).
Proof. unfold SentryUtils.getIssue, axios_get. sends_operation. Qed.

Lemma sends_updateIssue p i d :
  Q d -> sends (carries Q) (SentryUtils.updateIssue p i d).
Proof. intros. unfold SentryUtils.updateIssue, axios_put. sends_operation. Qed.

Lemma sends_listIssueEvents p i ps f :
  Q ps -> sends (carries Q) (SentryUtils.listIssueEvents p i ps f).
Proof. intros. unfold SentryUtils.listIssueEvents, axios_get. sends_operation. Qed.

Lemma sends_getEvent p s e f : sends (carries Q) (SentryUtils.getEvent p s e f).
Proof. unfold SentryUtils.getEvent, axios_get. sends_operation. Qed.

Lemma sends_getIssueEvent p i e f : sends (carries Q) (SentryUtils.getIssueEvent p i e f).
Proof. unfold SentryUtils.getIssueEvent, axios_get. sends_operation. Qed.

Lemma sends_getTagDetails p i t ps f :
  Q ps -> sends (carries Q) (SentryUtils.getTagDetails p i t ps f).
Proof. intros. unfold SentryUtils.getTagDetails, axios_get. sends_operation. Qed.

Lemma sends_listTagValues p i t ps f :
  Q ps -> sends (carries Q) (SentryUtils.listTagValues p i t ps f).
Proof. intros. unfold SentryUtils.listTagValues, axios_get. sends_operation. Qed.

Lemma sends_listIssueHashes p i f : sends (carries Q) (SentryUtils.listIssueHashes p i f).
Proof. unfold SentryUtils.listIssueHashes, axios_get. sends_operation. Qed.

Lemma sends_debugSourceMaps p s e ps f :
  Q ps -> sends (carries Q) (SentryUtils.debugSourceMaps p s e ps f).
Proof. intros. unfold SentryUtils.debugSourceMaps, axios_get. sends_operation. Qed.

Lemma sends_testConnection p : sends (carries Q) (SentryUtils.testConnection p).
Proof. unfold SentryUtils.testConnection, axios_get. sends_operation. Qed.

Lemma sends_initSentry (P : Request num -> Prop) : sends P SentryClient.initSentry.
Proof. unfold SentryClient.initSentry. repeat sends_step. Qed.

Lemma sends_wrapper_clearClients (P : Request num -> Prop) :
  sends P SentryClient.clearClients.
Proof. unfold SentryClient.clearClients. repeat sends_step. Qed.

End Carried.

End Trace.

(** ** The denylist of client-only keys *)

Module FilterSpec.
Import Str JS Config Effects SentryUtils Runner Spec Trace.
Local Open Scope effect_scope.

Section Filter.
Context {num : Type} `{JSNumber num} `{!Externals num}.

(** The keys the rest pattern names are the six of the denylist, no more and
    no fewer. *)
Lemma is_cli_key_In (k : string) : is_cli_key k = true <-> In k denylist.
Proof.
  unfold is_cli_key. rewrite existsb_exists. split.
  - intros (x & Hx & E). apply String.eqb_eq in E. subst x.
    cbn [cli_keys In] in Hx. cbn [denylist In]. tauto.
  - intros Hk. exists k. split; [|apply String.eqb_refl].
    cbn [denylist In] in Hk. cbn [cli_keys In]. tauto.
Qed.

Lemma lookup_filter_out (keep : string -> bool) (k : string) (m : list (string * JValue num)) :
  keep k = false -> lookup k (filter (fun kv => keep (fst kv)) m) = None.
Proof.
  intros Hk. induction m as [|[k' v] m IH]; cbn; [reflexivity|].
  destruct (keep k') eqn:Hk'; cbn; [|assumption].
  destruct (String.eqb_spec k k') as [->|_]; [congruence|assumption].
Qed.

Lemma lookup_filter_in (keep : string -> bool) (k : string) (m : list (string * JValue num)) :
  keep k = true -> lookup k (filter (fun kv => keep (fst kv)) m) = lookup k m.
Proof.
  intros Hk. induction m as [|[k' v] m IH]; cbn; [reflexivity|].
  destruct (keep k') eqn:Hk'; cbn.
  - now rewrite IH.
  - destruct (String.eqb_spec k k') as [->|_]; [congruence|assumption].
Qed.

Lemma filterCliParams_stripped (args ps : JValue num) :
  filterCliParams args = inr ps -> stripped ps.
Proof.
  intros E k Hk. apply is_cli_key_In in Hk.
  assert (ps = JObj (filter (fun kv => negb (is_cli_key (fst kv))) (own_properties args)))
    as -> by (destruct args; cbn in E; inversion E; reflexivity).
  unfold GetOpt, Get.
  rewrite (lookup_filter_out (fun x => negb (is_cli_key x))); [reflexivity|].
  now rewrite Hk.
Qed.

Lemma stripped_undefined : stripped (@JUndefined num).
Proof. intros k _. reflexivity. Qed.

Lemma stripped_limit : stripped (JObj [("limit", JNum (num_of_Z 1))]).
Proof.
  intros k Hk. cbn in Hk. unfold GetOpt, Get. cbn.
  destruct (String.eqb_spec k "limit") as [->|_]; [|reflexivity].
  repeat (destruct Hk as [Hk|Hk]; [discriminate|]). destruct Hk.
Qed.

Ltac sends_call :=
  intros w;
  match goal with
  | |- context [SentryClient.listProjectEvents] => unfold SentryClient.listProjectEvents
  | |- context [SentryClient.listProjectIssues] => unfold SentryClient.listProjectIssues
  | |- context [SentryClient.listOrgIssues] => unfold SentryClient.listOrgIssues
  | |- context [SentryClient.getIssue] => unfold SentryClient.getIssue
  | |- context [SentryClient.updateIssue] => unfold SentryClient.updateIssue
  | |- context [SentryClient.listIssueEvents] => unfold SentryClient.listIssueEvents
  | |- context [SentryClient.getEvent] => unfold SentryClient.getEvent
  | |- context [SentryClient.getIssueEvent] => unfold SentryClient.getIssueEvent
  | |- context [SentryClient.getTagDetails] => unfold SentryClient.getTagDetails
  | |- context [SentryClient.listTagValues] => unfold SentryClient.listTagValues
  | |- context [SentryClient.listIssueHashes] => unfold SentryClient.listIssueHashes
  | |- context [SentryClient.debugSourceMaps] => unfold SentryClient.debugSourceMaps
  | |- context [SentryClient.testConnection] => unfold SentryClient.testConnection
  end;
  revert w; apply sends_bind; [apply sends_initSentry|intros _].

Lemma forwarded_stripped (arg : option string) (v : JValue num) :
  forwarded arg v -> stripped v.
Proof.
  intros [->|[->|(args & _ & E)]].
  - apply stripped_undefined.
  - apply stripped_limit.
  - exact (filterCliParams_stripped args v E).
Qed.

Lemma sends_dispatch (Q : JValue num -> Prop) (command : string)
  (args profile format : JValue num) :
  Q JUndefined -> Q (JObj [("limit", JNum (num_of_Z 1))]) ->
  (forall ps, filterCliParams args = inr ps -> Q ps) ->
  sends (carries Q) (dispatch command args profile format).
Proof.
  intros U L F.
  unfold dispatch, fail, console_error.
  repeat match goal with
         | |- sends _ (if (_ =? _) then _ else _) => destruct (_ =? _)
         end.
  all: repeat first
         [ sends_step
         | match goal with
           | E : filterCliParams _ = inr _ |- _ => apply F in E
           end ].
  all: sends_call.
  all: lazymatch goal with
       | |- sends _ (SentryUtils.listProjectEvents _ _ _ _) => apply sends_listProjectEvents
       | |- sends _ (SentryUtils.listProjectIssues _ _ _ _) => apply sends_listProjectIssues
       | |- sends _ (SentryUtils.listOrgIssues _ _ _) => apply sends_listOrgIssues
       | |- sends _ (SentryUtils.getIssue _ _ _) => apply sends_getIssue
       | |- sends _ (SentryUtils.updateIssue _ _ _) => apply sends_updateIssue
       | |- sends _ (SentryUtils.listIssueEvents _ _ _ _) => apply sends_listIssueEvents
       | |- sends _ (SentryUtils.getEvent _ _ _ _) => apply sends_getEvent
       | |- sends _ (SentryUtils.getIssueEvent _ _ _ _) => apply sends_getIssueEvent
       | |- sends _ (SentryUtils.getTagDetails _ _ _ _ _) => apply sends_getTagDetails
       | |- sends _ (SentryUtils.listTagValues _ _ _ _ _) => apply sends_listTagValues
       | |- sends _ (SentryUtils.listIssueHashes _ _ _) => apply sends_listIssueHashes
       | |- sends _ (SentryUtils.debugSourceMaps _ _ _ _ _) => apply sends_debugSourceMaps
       | |- sends _ (SentryUtils.testConnection _) => apply sends_testConnection
       end; assumption.
Qed.

Lemma sends_runCommand (command : string) (arg flag : option string) :
  sends (carries (forwarded arg)) (runCommand command arg flag).
Proof.
  unfold runCommand, execute, console_log, console_error.
  repeat first
    [ apply sends_dispatch;
      [ now left | now (right; left) | intros; right; right; eauto ]
    | apply sends_wrapper_clearClients
    | sends_step ].
Qed.

(** C3. The object [filterCliParams] forwards for an argument bag [m] holds
    none of [profile], [format], [projectSlug], [issueId], [eventId],
    [tagKey], and holds every other key of the bag with its value, in the
    bag's order. In a run of [runCommand], what a request sent upstream
    carries as query parameters, and as body, is nothing, the fixed
    [{ limit: 1 }], or the argument bag so filtered; in every case it holds
    none of the six keys. *)
Theorem denylist_never_forwarded (m : list (string * JValue num)) :
  (exists m',
      filterCliParams (JObj m) = inr (JObj m')
      /\ m' = filter (fun kv => negb (existsb (String.eqb (fst kv)) denylist)) m
      /\ (forall k, In k denylist -> lookup k m' = None)
      /\ (forall k, ~ In k denylist -> lookup k m' = lookup k m))
  /\ (forall command arg flag w,
        exists new,
          sent (snd (runCommand command arg flag w)) = (sent w ++ new)%list
          /\ Forall (carries (forwarded arg)) new
          /\ Forall (carries stripped) new).
Proof.
  split.
  - eexists. split; [reflexivity|]. split; [reflexivity|]. split.
    + intros k Hk. apply is_cli_key_In in Hk.
      apply (lookup_filter_out (fun x => negb (is_cli_key x))). now rewrite Hk.
    + intros k Hk. apply (lookup_filter_in (fun x => negb (is_cli_key x))).
      destruct (is_cli_key k) eqn:E; [|reflexivity].
      apply is_cli_key_In in E. contradiction.
  - intros. destruct (sends_runCommand command arg flag w) as (new & E & F).
    exists new. split; [exact E|]. split; [exact F|].
    eapply Forall_impl; [|exact F].
    intros r [Hp Hb]. split; eapply forwarded_stripped; eassumption.
Qed.

End Filter.
End FilterSpec.

(** ** The client cache *)

Module CacheSpec.
Import Str JS Config Effects SentryUtils Spec.
Local Open Scope effect_scope.

Section Cache.
Context {num : Type} `{JSNumber num} `{!Externals num}.

Lemma SameValueZero_JStr_r (k : JValue num) (n : string) :
  SameValueZero k (JStr n) = true <-> k = JStr n.
Proof.
  destruct k; cbn; try (split; [discriminate|intros [=]]).
  rewrite String.eqb_eq. split; [now intros ->|now intros [= ->]].
Qed.

Lemma Map_get_handles (pool : list (JValue num * AxiosInstance)) (name : string) :
  Map_get pool (JStr name) = None -> handles name pool = 0.
Proof.
  unfold handles. induction pool as [|[k c] pool IH]; cbn; [reflexivity|].
  destruct (SameValueZero k (JStr name)); [discriminate|exact IH].
Qed.

Lemma Map_set_new (pool : list (JValue num * AxiosInstance)) key c :
  Map_get pool key = None -> Map_set pool key c = (pool ++ [(key, c)])%list.
Proof.
  induction pool as [|[k c'] pool IH]; cbn; [reflexivity|].
  destruct (SameValueZero k key); [discriminate|]. intros E. now rewrite IH.
Qed.

Lemma Map_get_app_new (pool : list (JValue num * AxiosInstance)) (name : string) c :
  Map_get pool (JStr name) = None ->
  Map_get (pool ++ [(JStr name, c)]) (JStr name) = Some c.
Proof.
  induction pool as [|[k c'] pool IH]; cbn.
  - now rewrite String.eqb_refl.
  - destruct (SameValueZero k (JStr name)); [discriminate|exact IH].
Qed.

Lemma handles_app (name : string) (p q : list (JValue num * AxiosInstance)) :
  handles name (p ++ q) = handles name p + handles name q.
Proof. unfold handles. now rewrite filter_app, length_app. Qed.

Lemma Map_get_In (pool : list (JValue num * AxiosInstance)) key c :
  Map_get pool key = Some c -> exists k, In (k, c) pool.
Proof.
  induction pool as [|[k c'] pool IH]; cbn; [discriminate|].
  destruct (SameValueZero k key).
  - intros [= ->]. eauto.
  - intros E. destruct (IH E) as (k' & Hk'). eauto.
Qed.

(** What [getClient] does, case by case. *)
Lemma getClient_eq (p : JValue num) (w : World num) :
  getClient p w =
  match sentryUtil w with
  | None => (Throw (TypeError_read "null" "clientPool"), w)
  | Some u =>
      match Map_get (clientPool u) p with
      | Some client => (Return client, w)
      | None =>
          match getSentryClientOptions (config u) p with
          | inl e => (Throw e, w)
          | inr o =>
              let client := {| instance_id := instances w; baseURL := baseUrl o;
                               headers := [("Authorization", "Bearer " ++ authToken o);
                                           ("Content-Type", "application/json")] |} in
              (Return client,
               {| sentryUtil := Some {| config := config u;
                                        clientPool := Map_set (clientPool u) p client |};
                  instances := S (instances w); sent := sent w; console := console w |})
          end
      end
  end.
Proof.
  unfold getClient, this, bind. destruct (sentryUtil w) as [u|] eqn:Eu; [|reflexivity].
  destruct (Map_get (clientPool u) p); [reflexivity|].
  destruct (getSentryClientOptions (config u) p); [reflexivity|].
  cbn. rewrite Eu. reflexivity.
Qed.

Lemma clearClients_eq (w : World num) :
  SentryUtils.clearClients w =
  match sentryUtil w with
  | None => (Throw (TypeError_read "null" "clientPool"), w)
  | Some u =>
      (Return tt,
       {| sentryUtil := Some {| config := config u; clientPool := [] |};
          instances := instances w; sent := sent w; console := console w |})
  end.
Proof.
  unfold SentryUtils.clearClients, set_clientPool, this, bind.
  now destruct (sentryUtil w).
Qed.

Lemma cache_ok_constructed (cfg : Config) (w : World num) : cache_ok (constructed cfg w).
Proof. split; [intros; apply Nat.le_0_l|constructor]. Qed.

Lemma cache_ok_getClient (p : JValue num) (w : World num) :
  cache_ok w -> cache_ok (snd (getClient p w)).
Proof.
  intros Hw. rewrite getClient_eq. unfold cache_ok in Hw.
  destruct (sentryUtil w) as [u|] eqn:Eu; cbn; unfold cache_ok; [|now rewrite Eu].
  destruct (Map_get (clientPool u) p) eqn:Eg; cbn; [now rewrite Eu|].
  destruct (getSentryClientOptions (config u) p) as [e|o] eqn:Eo; cbn; [now rewrite Eu|].
  destruct Hw as [Hone Hall]. rewrite (Map_set_new _ _ _ Eg). split.
  - intros name. rewrite handles_app. unfold handles at 2. cbn.
    destruct (SameValueZero p (JStr name)) eqn:Ep; cbn.
    + apply SameValueZero_JStr_r in Ep. subst p.
      rewrite (Map_get_handles _ _ Eg). auto.
    + rewrite Nat.add_0_r. apply Hone.
  - apply Forall_app. split.
    + eapply Forall_impl; [|exact Hall]. cbn. intros kc [Hlt Hres]. auto.
    + constructor; [|constructor]. cbn. eauto.
Qed.

Lemma cache_ok_clearClients (w : World num) :
  cache_ok w -> cache_ok (snd (SentryUtils.clearClients w)).
Proof.
  intros Hw. rewrite clearClients_eq. unfold cache_ok in *.
  destruct (sentryUtil w) as [u|] eqn:Eu; cbn; [|now rewrite Eu].
  split; [intros; apply Nat.le_0_l|constructor].
Qed.

(** C7. In every state the class reaches (a fresh instance, then any
    sequence of lookups and clears) the pool holds at most one handle per
    profile name. A lookup that returned a handle returns the same instance,
    and creates nothing, when repeated; after [clearClients] the next lookup
    for that name succeeds with an instance created then, different from the
    one returned before. *)
Theorem client_cache_contract (w : World num) :
  cache_ok w ->
  (forall name,
      match sentryUtil w with
      | Some u => handles name (clientPool u) <= 1
      | None => True
      end)
  /\ (forall p, cache_ok (snd (getClient p w)))
  /\ cache_ok (snd (SentryUtils.clearClients w))
  /\ (forall name c1 w1,
        getClient (JStr name) w = (Return c1, w1) ->
        getClient (JStr name) w1 = (Return c1, w1)
        /\ exists w2 c2 w3,
            SentryUtils.clearClients w1 = (Return tt, w2)
            /\ getClient (JStr name) w2 = (Return c2, w3)
            /\ instance_id c2 = instances w1
            /\ instance_id c1 < instance_id c2
            /\ c2 <> c1).
Proof.
  intros Hw. split; [|split; [|split]].
  - intros name. unfold cache_ok in Hw. destruct (sentryUtil w); [apply Hw|exact I].
  - intros p. now apply cache_ok_getClient.
  - now apply cache_ok_clearClients.
  - intros name c1 w1 E.
    pose proof (cache_ok_getClient (JStr name) w Hw) as Hw1. rewrite E in Hw1. cbn in Hw1.
    rewrite getClient_eq in E.
    destruct (sentryUtil w) as [u|] eqn:Eu; [|discriminate].
    assert (exists u1, sentryUtil w1 = Some u1 /\ config u1 = config u
                       /\ Map_get (clientPool u1) (JStr name) = Some c1) as (u1 & Eu1 & Ec & Eg1).
    { destruct (Map_get (clientPool u) (JStr name)) as [c|] eqn:Eg.
      - injection E as -> ->. eauto.
      - destruct (getSentryClientOptions (config u) (JStr name)) as [e|o]; [discriminate|].
        injection E as <- <-. eexists. split; [reflexivity|]. split; [reflexivity|].
        cbn. rewrite (Map_set_new _ _ _ Eg). now apply Map_get_app_new. }
    split.
    + rewrite getClient_eq, Eu1, Eg1. reflexivity.
    + unfold cache_ok in Hw1. rewrite Eu1 in Hw1. destruct Hw1 as [_ Hall].
      destruct (Map_get_In _ _ _ Eg1) as (k & Hin).
      rewrite Forall_forall in Hall.
      assert (Hk : exists k', In (k', c1) (clientPool u1)
                              /\ SameValueZero k' (JStr name) = true).
      { clear - Eg1. induction (clientPool u1) as [|[k' c'] pool IH]; cbn in *; [discriminate|].
        destruct (SameValueZero k' (JStr name)) eqn:Ek.
        - injection Eg1 as ->. eauto.
        - destruct (IH Eg1) as (k'' & Hin'' & Ek''). eauto. }
      destruct Hk as (k' & Hin' & Ek'). apply SameValueZero_JStr_r in Ek'. subst k'.
      destruct (Hall _ Hin') as [Hlt (o & Ho)]. cbn in Hlt, Ho.
      rewrite clearClients_eq, Eu1.
      eexists. eexists. eexists. split; [reflexivity|].
      rewrite getClient_eq. cbn. rewrite Ho. split; [reflexivity|]. cbn.
      split; [reflexivity|]. split; [exact Hlt|].
      intros <-. cbn in Hlt. now apply Nat.lt_irrefl in Hlt.
Qed.

End Cache.
End CacheSpec.

(** ** The API operations *)

Module OperationSpec.
Import Str JS Config Effects SentryUtils Spec.
Local Open Scope effect_scope.

Section Operations.
Context {num : Type} `{JSNumber num} `{!Externals num}.

Lemma quiet_ret {A} (a : A) : quiet (@ret num A a).
Proof. intros w. split; [reflexivity|discriminate]. Qed.

Lemma quiet_throw {A} e : quiet (@throw num A e).
Proof. intros w. split; [reflexivity|discriminate]. Qed.

Lemma quiet_lift {A} (r : Thrown num + A) : quiet (@lift num A r).
Proof. destruct r; [apply quiet_throw|apply quiet_ret]. Qed.

Lemma quiet_bind {A B} (m : M num A) (k : A -> M num B) :
  quiet m -> (forall a, quiet (k a)) -> quiet (bind m k).
Proof.
  intros Hm Hk w. unfold bind. destruct (Hm w) as [E N].
  destruct (m w) as [[a|e|c] w1]; cbn in *.
  - destruct (Hk a w1) as [E' N']. rewrite E', E. auto.
  - split; [assumption|discriminate].
  - now destruct (N c).
Qed.

Lemma quiet_this : quiet (@this num).
Proof.
  intros w. unfold this. destruct (sentryUtil w); split; (reflexivity || discriminate).
Qed.

Lemma quiet_put u : quiet (@put_sentryUtil num u).
Proof. intros w. split; [reflexivity|discriminate]. Qed.

Lemma quiet_axios_create b h : quiet (@axios_create num b h).
Proof. intros w. split; [reflexivity|discriminate]. Qed.

Lemma quiet_ToStringM v : quiet (ToStringM v).
Proof. unfold ToStringM. destruct (ToString v); [apply quiet_ret|apply quiet_throw]. Qed.

Create HintDb quiet.
Hint Resolve quiet_ret quiet_throw quiet_lift quiet_this quiet_put quiet_axios_create
  quiet_ToStringM : quiet.

Ltac quiet_step :=
  match goal with
  | |- quiet (bind _ _) => apply quiet_bind; [|intros ?]
  | |- quiet (if ?c then _ else _) => destruct c
  | |- quiet (match ?x with _ => _ end) => destruct x
  | |- quiet _ => solve [auto with quiet]
  end.

Lemma quiet_getClient p : quiet (getClient p).
Proof. unfold getClient, set_clientPool. repeat quiet_step. Qed.

Lemma quiet_getClientOptions p : quiet (getClientOptions p).
Proof. unfold getClientOptions. repeat quiet_step. Qed.

Lemma quiet_rendered d f : quiet (rendered d f).
Proof. unfold rendered, formatResult, formatAsToon. repeat quiet_step. Qed.

Lemma quiet_on_error e : quiet (on_error e).
Proof. unfold on_error. repeat quiet_step. Qed.

Hint Resolve quiet_getClient quiet_getClientOptions quiet_rendered quiet_on_error : quiet.

Lemma once_bind_quiet {A B} (m : M num A) (k : A -> M num B) :
  quiet m -> (forall a, at_most_once (k a)) -> at_most_once (bind m k).
Proof.
  intros Hm Hk w. unfold bind. destruct (Hm w) as [E N].
  destruct (m w) as [[a|e|c] w1]; cbn in *.
  - destruct (Hk a w1) as [N' S']. rewrite E in S'. auto.
  - split; [discriminate|auto].
  - now destruct (N c).
Qed.

Lemma once_request {B} (r : Request num) (k : JValue num -> M num B) :
  (forall a, quiet (k a)) -> at_most_once (bind (axios_request r) k).
Proof.
  intros Hk w. unfold bind, axios_request.
  destruct (upstream (sent w) r) as [e|d] eqn:Eu; cbn.
  - split; [discriminate|]. right. exists r. split; [reflexivity|].
    intros e' E'. congruence.
  - destruct (Hk d {| sentryUtil := sentryUtil w; instances := instances w;
                      sent := sent w ++ [r]; console := console w |}) as [E N].
    split; [exact N|]. right. exists r. split; [exact E|].
    intros e' E'. congruence.
Qed.

(** The [catch] block leaves the world as it is; its outcome is a failure
    result, or the [TypeError] of a message that has no string conversion. *)
Lemma on_error_eq (e : Thrown num) (w : World num) :
  on_error e w =
  (match ToString (errorMessage e) with
   | Some s => Return (failure s)
   | None => Throw TypeError_primitive
   end, w).
Proof.
  unfold on_error, bind, ToStringM. now destruct (ToString (errorMessage e)).
Qed.

Lemma errorMessage_eq (e : Thrown num) :
  errorMessage e
  = if ToBoolean (detail_of e) then detail_of e else JStr (message_of e).
Proof. destruct e as [m [d|]|m|s]; reflexivity. Qed.

Lemma try_on_error (body : M num (ApiResult num)) :
  at_most_once body ->
  forall w,
  exists new,
    sent (snd (try_catch body on_error w)) = (sent w ++ new)%list
    /\ length new <= 1
    /\ (forall c, fst (try_catch body on_error w) <> Exit c)
    /\ forall req e,
        new = [req] -> upstream (sent w) req = inl e ->
        fst (try_catch body on_error w)
        = match ToString (errorMessage e) with
          | Some s => Return (failure s)
          | None => Throw TypeError_primitive
          end.
Proof.
  intros Hb w. destruct (Hb w) as [N S]. unfold try_catch.
  destruct (body w) as [[a|e|c] w1] eqn:Eb; cbn in *.
  - destruct S as [S|(req & S & F)].
    + exists []. rewrite app_nil_r. repeat split; auto. discriminate.
    + exists [req]. repeat split; auto. intros req' e' [= <-] Eu.
      specialize (F _ Eu). discriminate.
  - rewrite on_error_eq. cbn. destruct S as [S|(req & S & F)].
    + exists []. rewrite app_nil_r. repeat split; auto.
      * destruct (ToString (errorMessage e)); discriminate.
      * discriminate.
    + exists [req]. repeat split; auto.
      * destruct (ToString (errorMessage e)); discriminate.
      * intros req' e' [= <-] Eu. specialize (F _ Eu). now injection F as ->.
  - now destruct (N c).
Qed.

Ltac once_operation :=
  repeat first
    [ apply once_request; intros ?; solve [repeat quiet_step]
    | apply once_bind_quiet; [solve [auto with quiet]|intros ?] ].

Lemma perform_at_most_once (c : Call num) :
  exists body, (forall w, perform c w = try_catch body on_error w) /\ at_most_once body.
Proof.
  destruct c; cbn [perform];
    [ unfold listProjectEvents | unfold listProjectIssues | unfold listOrgIssues
    | unfold getIssue | unfold updateIssue | unfold listIssueEvents | unfold getEvent
    | unfold getIssueEvent | unfold getTagDetails | unfold listTagValues
    | unfold listIssueHashes | unfold debugSourceMaps | unfold testConnection ];
    (eexists; split; [reflexivity|]); unfold axios_get, axios_put; once_operation.
Qed.

(** C4, as the code has it. Every operation sends at most one request (none
    is repeated) and never ends the process. When the request it sent fails
    with [e], a transport error or a non-2xx answer, the operation reports
    [success = false] with the error string [ERROR: ] followed by the string
    conversion of: the [detail] field of the response body when that field is
    truthy, and otherwise the message of the error (for a thrown value that
    is not an [Error], its string conversion). *)
Theorem operation_failure (c : Call num) (w : World num) :
  exists new,
    sent (snd (perform c w)) = (sent w ++ new)%list
    /\ length new <= 1
    /\ (forall code, fst (perform c w) <> Exit code)
    /\ forall req e s,
        new = [req] ->
        upstream (sent w) req = inl e ->
        ToString (if ToBoolean (detail_of e) then detail_of e
                  else JStr (message_of e)) = Some s ->
        fst (perform c w) = Return (failure s)
        /\ success (@failure num s) = false
        /\ error (@failure num s) = Some ("ERROR: " ++ s).
Proof.
  destruct (perform_at_most_once c) as (body & Eb & Hb).
  destruct (try_on_error body Hb w) as (new & S & L & N & F).
  rewrite <- Eb in *. exists new. repeat split; auto.
  rewrite (F _ _ H0 H1), errorMessage_eq, H2. reflexivity.
Qed.

(** C6. When the PUT of [updateIssue] is answered (a 2xx response with any
    body [b]), the result is successful and its message is the fixed
    confirmation around the issue id; the body only appears as [data]. *)
Theorem updateIssue_confirmation
  (profileName issueId d b : JValue num) (w w1 : World num)
  (client : AxiosInstance) (options : SentryClientOptions) (id : string) :
  let req := {| via := client; method := PUT;
                url := "/organizations/" ++ organization options ++ "/issues/" ++ id ++ "/";
                params := JUndefined; body := d |} in
  let message := "✅ Issue " ++ id ++ " updated successfully!" in
  getClient profileName w = (Return client, w1) ->
  getClientOptions profileName w1 = (Return options, w1) ->
  ToString issueId = Some id ->
  upstream (sent w1) req = inr b ->
  updateIssue profileName issueId d w
  = (Return {| success := true; result := Some message; data := b; error := None |},
     {| sentryUtil := sentryUtil w1; instances := instances w1;
        sent := sent w1 ++ [req]; console := console w1 |})
  /\ includes message id
  /\ includes message "updated successfully".
Proof.
  intros req message Ec Eo Ei Eu. split; [|split].
  - unfold updateIssue, try_catch, bind. rewrite Ec, Eo.
    unfold ToStringM. rewrite Ei. cbv beta iota delta [ret].
    unfold axios_put, axios_request. fold req. rewrite Eu. reflexivity.
  - exists "✅ Issue ", " updated successfully!". reflexivity.
  - exists ("✅ Issue " ++ id ++ " "), "!". unfold message.
    rewrite !StrFacts.append_assoc. reflexivity.
Qed.

End Operations.
End OperationSpec.

(** ** The command dispatcher *)

Module DispatchSpec.
Import Str JS Config Effects SentryUtils Runner Spec.
Local Open Scope effect_scope.

Section Dispatcher.
Context {num : Type} `{JSNumber num} `{!Externals num}.

Lemma Get_total (args : JValue num) (f k : string) (v : JValue num) :
  Get args f = inr v -> exists x, Get args k = inr x.
Proof. destruct args; cbn; intros E; try discriminate; eauto. Qed.

Lemma lookup_without (f : string) (m : list (string * JValue num)) :
  lookup f (without f m) = None.
Proof.
  induction m as [|[k v] m IH]; cbn; [reflexivity|].
  destruct (String.eqb_spec k f) as [->|N]; cbn; [assumption|].
  destruct (String.eqb_spec f k) as [->|_]; [contradiction|assumption].
Qed.

(** The validation of [dispatch]: a required field that reads as a falsy
    value ends the process with the message of the command, before any
    operation is called. *)
Lemma dispatch_rejects (command : string) (fields : list string) (f : string)
  (args profile format v : JValue num) (w : World num) :
  In (command, fields) required -> In f fields ->
  Get args f = inr v -> ToBoolean v = false ->
  dispatch command args profile format w
  = (Exit 1, with_stderr w (required_message fields)).
Proof.
  intros Hc Hf Hg Hv. unfold required in Hc.
  repeat (destruct Hc as [Hc|Hc];
          [injection Hc as <- <-;
           repeat (destruct Hf as [<-|Hf]); try (now destruct Hf)|]);
    try (now destruct Hc).
  all: unfold dispatch; cbn [String.eqb Ascii.eqb Bool.eqb]; unfold bind, lift.
  all: repeat match goal with
         | E : Get ?a ?k = inr _ |- context [Get ?a ?k] => rewrite E; cbn [ret throw]
         | E : Get ?a ?f0 = inr ?v0 |- context [Get ?a ?k] =>
             let x := fresh "x" in
             let E' := fresh "E" in
             destruct (Get_total a f0 k v0 E) as (x & E')
         end.
  all: match goal with E : ToBoolean _ = false |- _ => rewrite E end.
  all: cbn [negb orb]; rewrite ?orb_true_r; reflexivity.
Qed.

Lemma runCommand_rejects (command : string) (fields : list string) (f : string)
  (arg flag : option string) (cfg : Config) (args v : JValue num) (w : World num) :
  In (command, fields) required -> In f fields ->
  loadConfig projectRoot = inr cfg ->
  parse_args arg = inr args ->
  Get args f = inr v -> ToBoolean v = false ->
  runCommand command arg flag w
  = (Exit 1, with_stderr w (required_message fields)).
Proof.
  intros Hc Hf Hcfg Hargs Hg Hv.
  destruct (Get_total args f "profile" v Hg) as (ap & Ep).
  destruct (Get_total args f "format" v Hg) as (af & Ef).
  unfold runCommand, execute, try_catch, bind.
  rewrite Hcfg, Hargs. cbn [lift ret]. rewrite Ep, Ef. cbn [lift ret].
  rewrite (dispatch_rejects command fields f args _ _ v w Hc Hf Hg Hv).
  reflexivity.
Qed.

Lemma required_message_names (command : string) (fields : list string) (f : string) :
  In (command, fields) required -> In f fields ->
  includes (required_message fields) (quoted f).
Proof.
  intros Hc Hf.
  assert (Hl : (exists a, fields = [a]) \/ (exists a b, fields = [a; b])).
  { unfold required in Hc.
    repeat (destruct Hc as [Hc|Hc]; [injection Hc as <- <-; eauto; now destruct Hf|]).
    destruct Hc. }
  destruct Hl as [(a & ->)|(a & b & ->)].
  - destruct Hf as [<-|[]]. exists "ERROR: ", " parameter is required".
    unfold quoted. cbn. now rewrite !StrFacts.append_assoc.
  - destruct Hf as [<-|[<-|[]]].
    + exists "ERROR: ", (" and " ++ dq ++ b ++ dq ++ " parameters are required").
      unfold quoted. cbn. now rewrite !StrFacts.append_assoc.
    + exists ("ERROR: " ++ dq ++ a ++ dq ++ " and "), " parameters are required".
      unfold quoted. cbn. now rewrite !StrFacts.append_assoc.
Qed.

(** C2, as the code has it. For a command with required fields, an argument
    bag that lacks one of them makes [runCommand] print the fixed message
    of the command on standard error and end the process with status 1,
    leaving everything else as it was: no request is sent, no client is
    created and the [sentryUtil] instance is not touched. The message names
    the missing field; for a command with one required field it is
    [ERROR: "<field>" parameter is required], for a command with two it is
    [ERROR: "<field1>" and "<field2>" parameters are required]. *)
Theorem required_field_missing (command : string) (fields : list string) (f : string)
  (arg flag : option string) (cfg : Config) (m : list (string * JValue num))
  (w : World num) :
  In (command, fields) required -> In f fields ->
  loadConfig projectRoot = inr cfg ->
  parse_args arg = inr (JObj m) ->
  lookup f m = None ->
  runCommand command arg flag w
  = (Exit 1,
     {| sentryUtil := sentryUtil w; instances := instances w; sent := sent w;
        console := console w ++ [Stderr (required_message fields)] |})
  /\ includes (required_message fields) (quoted f)
  /\ ((exists a, fields = [a]
                 /\ required_message fields
                    = "ERROR: " ++ quoted a ++ " parameter is required")
      \/ (exists a b, fields = [a; b]
                      /\ required_message fields
                         = "ERROR: " ++ quoted a ++ " and " ++ quoted b
                                     ++ " parameters are required")).
Proof.
  intros Hc Hf Hcfg Hargs Hm. split; [|split].
  - apply (runCommand_rejects command fields f arg flag cfg (JObj m) JUndefined);
      auto. cbn. now rewrite Hm.
  - eapply required_message_names; eauto.
  - unfold required in Hc.
    repeat (destruct Hc as [Hc|Hc];
            [injection Hc as <- <-;
             first [ now destruct Hf
                   | left; eexists; split; reflexivity
                   | right; eexists; eexists; split; reflexivity ]|]).
    destruct Hc.
Qed.

(** C10. A required field that is present with a falsy value (the empty
    string, [0], [false], [null]) is treated as a missing one: the run ends
    exactly as the run on the bag without the field does, and when the
    configuration loads that end is the required-parameter message on
    standard error and exit status 1, with no request sent and nothing else
    changed. *)
Theorem falsy_field_as_missing (command : string) (fields : list string) (f : string)
  (arg1 arg2 flag : option string) (m : list (string * JValue num)) (v : JValue num)
  (w : World num) :
  In (command, fields) required -> In f fields ->
  parse_args arg1 = inr (JObj m) ->
  lookup f m = Some v -> ToBoolean v = false ->
  parse_args arg2 = inr (JObj (without f m)) ->
  runCommand command arg1 flag w = runCommand command arg2 flag w
  /\ forall cfg,
      loadConfig projectRoot = inr cfg ->
      runCommand command arg1 flag w
      = (Exit 1,
         {| sentryUtil := sentryUtil w; instances := instances w; sent := sent w;
            console := console w ++ [Stderr (required_message fields)] |}).
Proof.
  intros Hc Hf H1 Hm Hv H2.
  assert (R1 : forall cfg, loadConfig projectRoot = inr cfg ->
                           runCommand command arg1 flag w
                           = (Exit 1, with_stderr w (required_message fields))).
  { intros cfg Hcfg.
    apply (runCommand_rejects command fields f arg1 flag cfg (JObj m) v); auto.
    cbn. now rewrite Hm. }
  split; [|exact R1].
  destruct (loadConfig projectRoot) as [e|cfg] eqn:Hcfg.
  - unfold runCommand, execute, try_catch, bind. rewrite Hcfg. reflexivity.
  - rewrite (R1 cfg eq_refl). symmetry.
    apply (runCommand_rejects command fields f arg2 flag cfg (JObj (without f m)) JUndefined);
      auto. cbn. now rewrite lookup_without.
Qed.

(** [clearClients] of the wrapper always returns, with the module-level
    variable reset. *)
Lemma clearClients_clears (w : World num) :
  SentryClient.clearClients w
  = (Return tt, {| sentryUtil := None; instances := instances w;
                   sent := sent w; console := console w |}).
Proof.
  unfold SentryClient.clearClients, SentryUtils.clearClients, set_clientPool, this,
    bind, get_world.
  destruct w as [[u|] n s c]; reflexivity.
Qed.

Lemma bind_Return {A B} (m : M num A) (k : A -> M num B) (w w' : World num) (b : B) :
  bind m k w = (Return b, w') ->
  exists a w1, m w = (Return a, w1) /\ k a w1 = (Return b, w').
Proof.
  unfold bind. destruct (m w) as [[a|e|c] w1]; intros E; try discriminate. eauto.
Qed.

(** The success path: when [runCommand] returns, the cache has been
    cleared. *)
Lemma runCommand_returns_cleared (command : string) (arg flag : option string)
  (w w' : World num) :
  runCommand command arg flag w = (Return tt, w') -> sentryUtil w' = None.
Proof.
  unfold runCommand, try_catch.
  destruct (execute command arg w) as [[[]|e|c] w1] eqn:E; intros R.
  - injection R as <-. unfold execute in E.
    do 6 (apply bind_Return in E; destruct E as (? & ? & _ & E)).
    rewrite clearClients_clears in E. now injection E as <-.
  - unfold bind, console_error, print in R. cbv beta iota in R.
    rewrite clearClients_clears in R. discriminate.
  - discriminate.
Qed.

(** The exception path: a thrown error is reported, the cache is cleared,
    and the process ends with status 1. *)
Lemma runCommand_caught_cleared (command : string) (arg flag : option string)
  (w w1 : World num) (e : Thrown num) :
  execute command arg w = (Throw e, w1) ->
  runCommand command arg flag w
  = (Exit 1,
     {| sentryUtil := None; instances := instances w1; sent := sent w1;
        console := console w1 ++ [Stderr ("Error executing command: " ++ message_of e)] |}).
Proof.
  intros E. unfold runCommand, try_catch. rewrite E.
  unfold bind, console_error, print. cbv beta iota.
  rewrite clearClients_clears. reflexivity.
Qed.

(** The API error path: a failure result is reported and the process ends
    with status 1 in the state the operation left, [clearClients] not being
    reached. *)
Lemma runCommand_failure_not_cleared (command : string) (arg flag : option string)
  (cfg : Config) (args ap af : JValue num) (r : ApiResult num) (w w1 : World num) :
  loadConfig projectRoot = inr cfg ->
  parse_args arg = inr args ->
  Get args "profile" = inr ap ->
  Get args "format" = inr af ->
  dispatch command args (or_else ap (JStr (defaultProfile cfg)))
    (or_else af (JStr (defaultFormat cfg))) w = (Return r, w1) ->
  success r = false ->
  runCommand command arg flag w
  = (Exit 1, with_stderr w1 (shown (error r))).
Proof.
  intros Hcfg Hargs Hp Hf Hd Hs.
  unfold runCommand, execute, try_catch, bind.
  rewrite Hcfg, Hargs. cbn [lift ret]. rewrite Hp, Hf. cbn [lift ret].
  rewrite Hd, Hs. reflexivity.
Qed.

End Dispatcher.
End DispatchSpec.

(** ** The JSON rendering *)

Module JSONSpec.
Import Str JS JSON Effects SentryUtils Spec StrFacts.

Section RoundTrip.
Context {num : Type} `{JSNumber num}.

Lemma value_start_not_ws (c : ascii) : value_start c = true -> is_ws c = false.
Proof. destruct c as [[] [] [] [] [] [] [] []]; vm_compute; congruence. Qed.

Lemma value_start_not_closing (c : ascii) :
  value_start c = true -> Ascii.eqb "]" c = false /\ Ascii.eqb "}" c = false.
Proof. destruct c as [[] [] [] [] [] [] [] []]; vm_compute; intros; split; congruence. Qed.

Lemma num_char_dispatch (c : ascii) :
  is_num_char c = true ->
  is_ws c = false /\ Ascii.eqb c dquote = false /\ Ascii.eqb c "[" = false
  /\ Ascii.eqb c "{" = false /\ Ascii.eqb c "n" = false
  /\ Ascii.eqb c "t" = false /\ Ascii.eqb c "f" = false.
Proof.
  destruct c as [[] [] [] [] [] [] [] []]; vm_compute; intros; repeat split; congruence.
Qed.

Lemma skip_ws_app (ws s : string) : all_ws ws = true -> skip_ws (ws ++ s) = skip_ws s.
Proof.
  induction ws as [|c ws IH]; cbn; [reflexivity|].
  intros E. apply andb_prop in E as [-> E]. auto.
Qed.

Lemma skip_ws_start (c : ascii) (r : string) :
  is_ws c = false -> skip_ws (String c r) = String c r.
Proof. intros E. cbn. now rewrite E. Qed.

Lemma all_ws_app (a b : string) : all_ws a = true -> all_ws b = true -> all_ws (a ++ b) = true.
Proof.
  induction a as [|c a IH]; cbn; [auto|].
  intros E Eb. apply andb_prop in E as [-> E]. cbn. auto.
Qed.

Lemma all_ws_spaces (n : nat) : all_ws (spaces n) = true.
Proof. induction n; cbn; auto. Qed.

(** One escaped character reads back as the character. *)
Lemma parse_chars_escape_char (c : ascii) (t : string) :
  parse_chars (escape_char c ++ t) = prepend (String c "") (parse_chars t).
Proof. destruct c as [[] [] [] [] [] [] [] []]; reflexivity. Qed.

Lemma parse_chars_closing (rest : string) : parse_chars (dq ++ rest) = Some ("", rest).
Proof. reflexivity. Qed.

Lemma parse_chars_escape (s rest : string) :
  parse_chars (escape s ++ dq ++ rest) = Some (s, rest).
Proof.
  induction s as [|c s IH]; [reflexivity|].
  cbn [escape]. rewrite append_assoc, parse_chars_escape_char, IH. reflexivity.
Qed.

Lemma span_num_token (tok rest : string) :
  all_num_chars tok = true -> ends_number rest -> span_num (tok ++ rest) = (tok, rest).
Proof.
  intros Ht Hr. induction tok as [|c tok IH]; cbn [span_num String.append].
  - destruct rest as [|c r]; [reflexivity|]. cbn [ends_number] in Hr.
    cbn [span_num]. now rewrite Hr.
  - cbn [all_num_chars] in Ht. apply andb_prop in Ht as [-> Ht]. now rewrite (IH Ht).
Qed.

(** One step of each parser. *)
Lemma parse_value_S (f : nat) (s : string) :
  parse_value (S f) s
  = match skip_ws s with
    | EmptyString => None
    | String c r =>
        if Ascii.eqb c dquote then
          match parse_chars r with
          | Some (str, rest) => Some (JStr str, rest)
          | None => None
          end
        else if Ascii.eqb c "[" then
          match after_prefix "]" (skip_ws r) with
          | Some rest => Some (JArr [], rest)
          | None =>
              match parse_elements f r with
              | Some (l, rest) => Some (JArr l, rest)
              | None => None
              end
          end
        else if Ascii.eqb c "{" then
          match after_prefix "}" (skip_ws r) with
          | Some rest => Some (JObj [], rest)
          | None =>
              match parse_members f r with
              | Some (m, rest) => Some (JObj (make_object m), rest)
              | None => None
              end
          end
        else if Ascii.eqb c "n" then option_map (pair JNull) (after_prefix "ull" r)
        else if Ascii.eqb c "t" then option_map (pair (JBool true)) (after_prefix "rue" r)
        else if Ascii.eqb c "f" then option_map (pair (JBool false)) (after_prefix "alse" r)
        else if is_num_char c then
          let (tok, rest) := span_num (String c r) in
          match num_of_string tok with
          | Some n => Some (JNum n, rest)
          | None => None
          end
        else None
    end.
Proof. reflexivity. Qed.

Lemma parse_elements_S (f : nat) (s : string) :
  parse_elements (S f) s
  = match parse_value f s with
    | Some (v, rest) =>
        match skip_ws rest with
        | String c rest' =>
            if Ascii.eqb c "," then
              match parse_elements f rest' with
              | Some (l, rest'') => Some (v :: l, rest'')
              | None => None
              end
            else if Ascii.eqb c "]" then Some ([v], rest')
            else None
        | EmptyString => None
        end
    | None => None
    end.
Proof. reflexivity. Qed.

Lemma parse_members_S (f : nat) (s : string) :
  parse_members (S f) s
  = match skip_ws s with
    | String q r =>
        if Ascii.eqb q dquote then
          match parse_chars r with
          | Some (k, rest) =>
              match skip_ws rest with
              | String c rest1 =>
                  if Ascii.eqb c ":" then
                    match parse_value f rest1 with
                    | Some (v, rest2) =>
                        match skip_ws rest2 with
                        | String d rest3 =>
                            if Ascii.eqb d "," then
                              match parse_members f rest3 with
                              | Some (m, rest4) => Some ((k, v) :: m, rest4)
                              | None => None
                              end
                            else if Ascii.eqb d "}" then Some ([(k, v)], rest3)
                            else None
                        | EmptyString => None
                        end
                    | None => None
                    end
                  else None
              | EmptyString => None
              end
          | None => None
          end
        else None
    | EmptyString => None
    end.
Proof. reflexivity. Qed.

Lemma parse_value_skip (ws s : string) (fuel : nat) :
  all_ws ws = true -> parse_value fuel (ws ++ s) = parse_value fuel s.
Proof.
  intros E. destruct fuel as [|f]; [reflexivity|].
  rewrite !parse_value_S. now rewrite (skip_ws_app ws s E).
Qed.

Lemma parse_members_skip (ws s : string) (fuel : nat) :
  all_ws ws = true -> parse_members fuel (ws ++ s) = parse_members fuel s.
Proof.
  intros E. destruct fuel as [|f]; [reflexivity|].
  rewrite !parse_members_S. now rewrite (skip_ws_app ws s E).
Qed.

Lemma is_ws_newline : is_ws newline = true.
Proof. reflexivity. Qed.

Lemma all_ws_nl (ws : string) : all_ws ws = true -> all_ws (nl ++ ws) = true.
Proof. intros E. cbn. exact E. Qed.

Lemma serializable_arr (l : list (JValue num)) :
  serializable (JArr l) <-> Forall serializable l.
Proof.
  cbn. induction l as [|x l IH]; split; intros E; auto.
  - destruct E as [Hx Hl]. constructor; [exact Hx|now apply IH].
  - inversion E; subst. split; [assumption|now apply IH].
Qed.

Lemma serializable_obj (m : list (string * JValue num)) :
  serializable (JObj m)
  <-> NoDup (map fst m) /\ Forall (fun kv => serializable (snd kv)) m.
Proof.
  cbn. apply and_iff_compat_l.
  induction m as [|[k x] m IH]; split; intros E; auto.
  - destruct E as [Hx Hm]. constructor; [exact Hx|now apply IH].
  - inversion E; subst. split; [assumption|now apply IH].
Qed.

Lemma serializable_text (gap ind : string) (v : JValue num) :
  serializable v -> SerializeJSONProperty gap ind v = Some (text gap ind v).
Proof.
  unfold text. destruct v as [| |[]| | | |]; cbn; intros E; (reflexivity || contradiction).
Qed.

Section Gap.
Variable gap : string.
Hypothesis gap_ws : all_ws gap = true.
Hypothesis gap_nonempty : (gap =? "") = false.

Lemma wrap_items (ind opener closer x : string) (items : list string) :
  wrap gap ind opener closer (x :: items)
  = opener ++ nl ++ (ind ++ gap)
      ++ join ("," ++ nl ++ (ind ++ gap)) (x :: items) ++ nl ++ ind ++ closer.
Proof. unfold wrap. now rewrite gap_nonempty. Qed.

Lemma text_arr (ind : string) (l : list (JValue num)) :
  text gap ind (JArr l) = wrap gap ind "[" "]" (map (text gap (ind ++ gap)) l).
Proof. reflexivity. Qed.

Lemma text_obj (ind : string) (m : list (string * JValue num)) :
  Forall (fun kv => serializable (snd kv)) m ->
  text gap ind (JObj m)
  = wrap gap ind "{" "}"
      (map (fun kv => QuoteJSONString (fst kv) ++ ": " ++ text gap (ind ++ gap) (snd kv)) m).
Proof.
  intros Hm. unfold text at 1. cbn [SerializeJSONProperty]. f_equal.
  rewrite gap_nonempty.
  induction Hm as [|[k x] m Hx Hm IH]; [reflexivity|].
  cbn [flat_map map fst snd]. cbn [snd] in Hx.
  rewrite (serializable_text gap (ind ++ gap) x Hx), IH. reflexivity.
Qed.

(** The elements of a non-empty array, from the line break after the opening
    bracket to the closing bracket. *)
Lemma parse_elements_join (ind' ws rest : string) (l : list (JValue num)) :
  all_ws ind' = true -> all_ws ws = true ->
  Forall (fun x => forall rest fuel,
              String.length (text gap ind' x) <= fuel -> ends_number rest ->
              parse_value fuel (text gap ind' x ++ rest) = Some (x, rest)) l ->
  l <> [] ->
  forall fuel,
    String.length (join ("," ++ nl ++ ind') (map (text gap ind') l)) < fuel ->
    parse_elements fuel
      (nl ++ ind' ++ join ("," ++ nl ++ ind') (map (text gap ind') l)
          ++ nl ++ ws ++ String "]" rest)
    = Some (l, rest).
Proof.
  intros Hind Hws Hl. induction Hl as [|x l Hx Hl IH]; [contradiction|].
  intros _ fuel Hfuel. destruct fuel as [|f]; [inversion Hfuel|].
  rewrite parse_elements_S. destruct l as [|y l].
  - cbn [map join] in *.
    rewrite <- (append_assoc nl ind'), (parse_value_skip (nl ++ ind')) by now apply all_ws_nl.
    rewrite Hx; [|apply Nat.lt_succ_r; exact Hfuel|reflexivity].
    change (nl ++ ws ++ String "]" rest) with (String newline (ws ++ String "]" rest)).
    cbn [skip_ws]. rewrite is_ws_newline, (skip_ws_app ws _ Hws). reflexivity.
  - set (sep := "," ++ nl ++ ind') in *.
    assert (Es : forall t, skip_ws (sep ++ t) = String "," (nl ++ ind' ++ t))
      by reflexivity.
    change (join sep (map (text gap ind') (x :: y :: l)))
      with (text gap ind' x ++ sep ++ join sep (map (text gap ind') (y :: l))) in *.
    rewrite !length_append in Hfuel.
    assert (Hsep : 0 < String.length sep) by (cbn; lia).
    rewrite !append_assoc, <- (append_assoc nl ind'),
      (parse_value_skip (nl ++ ind')) by now apply all_ws_nl.
    rewrite Hx; [|lia|reflexivity].
    rewrite Es. cbv beta iota. change (Ascii.eqb "," ",") with true. cbv iota.
    rewrite IH; [reflexivity|discriminate|lia].
Qed.

(** One member: its key, the colon, and its value. *)
Lemma parse_members_member (ws0 k t : string) (f : nat) :
  all_ws ws0 = true ->
  parse_members (S f) (ws0 ++ QuoteJSONString k ++ ": " ++ t)
  = match parse_value f t with
    | Some (v, rest2) =>
        match skip_ws rest2 with
        | String d rest3 =>
            if Ascii.eqb d "," then
              match parse_members f rest3 with
              | Some (m, rest4) => Some ((k, v) :: m, rest4)
              | None => None
              end
            else if Ascii.eqb d "}" then Some ([(k, v)], rest3)
            else None
        | EmptyString => None
        end
    | None => None
    end.
Proof.
  intros Hws. rewrite parse_members_S, (skip_ws_app ws0 _ Hws).
  unfold QuoteJSONString. rewrite !append_assoc.
  change (dq ++ escape k ++ dq ++ ": " ++ t)
    with (String dquote (escape k ++ dq ++ ": " ++ t)).
  rewrite skip_ws_start by reflexivity.
  change (Ascii.eqb dquote dquote) with true. cbv iota.
  rewrite parse_chars_escape.
  change (skip_ws (": " ++ t)) with (String ":" (String " " t)).
  change (Ascii.eqb ":" ":") with true. cbv iota.
  change (String " " t) with (" " ++ t).
  now rewrite (parse_value_skip " " t f eq_refl).
Qed.

(** The members of a non-empty object, from the line break after the opening
    brace to the closing brace. *)
Lemma parse_members_join (ind' ws rest : string) (m : list (string * JValue num)) :
  all_ws ind' = true -> all_ws ws = true ->
  Forall (fun kv => forall rest fuel,
              String.length (text gap ind' (snd kv)) <= fuel -> ends_number rest ->
              parse_value fuel (text gap ind' (snd kv) ++ rest) = Some (snd kv, rest)) m ->
  m <> [] ->
  forall fuel,
    String.length
      (join ("," ++ nl ++ ind')
         (map (fun kv => QuoteJSONString (fst kv) ++ ": " ++ text gap ind' (snd kv)) m))
    < fuel ->
    parse_members fuel
      (nl ++ ind'
          ++ join ("," ++ nl ++ ind')
               (map (fun kv => QuoteJSONString (fst kv) ++ ": " ++ text gap ind' (snd kv)) m)
          ++ nl ++ ws ++ String "}" rest)
    = Some (m, rest).
Proof.
  intros Hind Hws Hm. induction Hm as [|[k x] m Hx Hm IH]; [contradiction|].
  intros _ fuel Hfuel. destruct fuel as [|f]; [inversion Hfuel|].
  set (member := fun kv : string * JValue num =>
                   QuoteJSONString (fst kv) ++ ": " ++ text gap ind' (snd kv)) in *.
  cbn [snd] in Hx. destruct m as [|y m].
  - cbn [map join] in *. unfold member in *. cbn [fst snd] in *.
    rewrite !length_append in Hfuel.
    rewrite !append_assoc, <- (append_assoc nl ind'),
      parse_members_member by now apply all_ws_nl.
    rewrite Hx; [|lia|reflexivity].
    change (nl ++ ws ++ String "}" rest) with (String newline (ws ++ String "}" rest)).
    cbn [skip_ws]. rewrite is_ws_newline, (skip_ws_app ws _ Hws). reflexivity.
  - set (sep := "," ++ nl ++ ind') in *.
    assert (Es : forall t, skip_ws (sep ++ t) = String "," (nl ++ ind' ++ t))
      by reflexivity.
    change (join sep (map member ((k, x) :: y :: m)))
      with ((QuoteJSONString k ++ ": " ++ text gap ind' x)
              ++ sep ++ join sep (map member (y :: m))) in *.
    rewrite !length_append in Hfuel.
    assert (Hsep : 0 < String.length sep) by (cbn; lia).
    rewrite !append_assoc, <- (append_assoc nl ind'),
      parse_members_member by now apply all_ws_nl.
    rewrite Hx; [|lia|reflexivity].
    rewrite Es. cbv beta iota. change (Ascii.eqb "," ",") with true. cbv iota.
    rewrite IH; [reflexivity|discriminate|lia].
Qed.

(** Defining the properties of an object in order, each key once, gives the
    properties in that order. *)
Lemma define_property_new (m : list (string * JValue num)) (k : string) (v : JValue num) :
  ~ In k (map fst m) -> define_property m k v = (m ++ [(k, v)])%list.
Proof.
  induction m as [|[k' v'] m IH]; cbn; [reflexivity|].
  intros N. destruct (String.eqb_spec k' k) as [->|_]; [tauto|].
  rewrite IH; [reflexivity|tauto].
Qed.

Lemma make_object_NoDup (m : list (string * JValue num)) :
  NoDup (map fst m) -> make_object m = m.
Proof.
  unfold make_object.
  enough (G : forall acc, NoDup (map fst (acc ++ m)) ->
                          fold_left (fun a kv => define_property a (fst kv) (snd kv)) m acc
                          = (acc ++ m)%list) by (intros N; apply (G [] N)).
  induction m as [|[k v] m IH]; intros acc N; cbn [fold_left fst snd].
  - now rewrite app_nil_r.
  - rewrite define_property_new.
    + rewrite IH; rewrite <- app_assoc; [reflexivity|exact N].
    + rewrite map_app in N. cbn in N. apply NoDup_remove_2 in N.
      intros Hin. apply N. apply in_or_app. now left.
Qed.

Lemma after_prefix_other (cl c : ascii) (ws0 r : string) :
  all_ws ws0 = true -> is_ws c = false -> Ascii.eqb cl c = false ->
  after_prefix (String cl "") (skip_ws (ws0 ++ String c r)) = None.
Proof.
  intros Hws Hc Hcl. rewrite (skip_ws_app ws0 _ Hws), skip_ws_start by assumption.
  cbn [after_prefix]. now rewrite Hcl.
Qed.

Lemma join_start (sep x : string) (items : list string) (c : ascii) (r : string) :
  x = String c r -> exists r', join sep (x :: items) = String c r'.
Proof. intros ->. destruct items; cbn; eauto. Qed.

Section Laws.
Context {laws : JSNumberLaws num}.

Lemma number_start (n : num) :
  exists c r, num_to_string n = String c r /\ is_num_char c = true.
Proof.
  pose proof (num_to_string_chars n) as Hc. pose proof (num_to_string_nonempty n) as Hn.
  destruct (num_to_string n) as [|c r]; [contradiction|].
  cbn [all_num_chars] in Hc. apply andb_prop in Hc as [Hc _]. eauto.
Qed.

Lemma text_start (ind : string) (v : JValue num) :
  serializable v -> exists c r, text gap ind v = String c r /\ value_start c = true.
Proof.
  destruct v as [| |[]|n|s|l|m]; intros Hs.
  - destruct Hs.
  - exists "n"%char, "ull". split; reflexivity.
  - exists "t"%char, "rue". split; reflexivity.
  - exists "f"%char, "alse". split; reflexivity.
  - destruct (number_start n) as (c & r & E & Hc). exists c, r. split; [exact E|].
    unfold value_start. now rewrite Hc.
  - exists dquote, (escape s ++ dq). split; reflexivity.
  - rewrite text_arr. destruct (map (text gap (ind ++ gap)) l) as [|x items].
    + exists "["%char, "]". split; reflexivity.
    + rewrite wrap_items. eexists. eexists. split; reflexivity.
  - apply serializable_obj in Hs as [_ Hs]. rewrite (text_obj ind m Hs).
    destruct (map _ m) as [|x items].
    + exists "{"%char, "}". split; reflexivity.
    + rewrite wrap_items. eexists. eexists. split; reflexivity.
Qed.

(** A rendered value, whatever follows it, reads back as the value. *)
Lemma parse_text (v : JValue num) :
  serializable v ->
  forall ind rest fuel,
    all_ws ind = true -> String.length (text gap ind v) <= fuel -> ends_number rest ->
    parse_value fuel (text gap ind v ++ rest) = Some (v, rest).
Proof.
  induction v as [| |b|n|s|l IH|m IH] using JValue_ind;
    intros Hs ind rest fuel Hind Hfuel Hrest.
  - destruct Hs.
  - destruct fuel as [|f]; [inversion Hfuel|]. reflexivity.
  - destruct b; (destruct fuel as [|f]; [inversion Hfuel|]); reflexivity.
  - change (text gap ind (JNum n)) with (num_to_string n) in *.
    destruct (number_start n) as (c & r & E & Hc).
    destruct (num_char_dispatch c Hc) as (W & Q & A & O & N & T & F).
    destruct fuel as [|f]; [rewrite E in Hfuel; inversion Hfuel|].
    rewrite parse_value_S. rewrite E at 1.
    change (String c r ++ rest) with (String c (r ++ rest)).
    rewrite (skip_ws_start c _ W), Q, A, O, N, T, F, Hc.
    change (String c (r ++ rest)) with (String c r ++ rest).
    rewrite <- E, (span_num_token _ _ (num_to_string_chars n) Hrest), num_of_to_string.
    reflexivity.
  - destruct fuel as [|f]; [inversion Hfuel|].
    change (text gap ind (JStr s)) with (dq ++ escape s ++ dq).
    rewrite parse_value_S, !append_assoc.
    change (dq ++ escape s ++ dq ++ rest) with (String dquote (escape s ++ dq ++ rest)).
    rewrite skip_ws_start by reflexivity.
    change (Ascii.eqb dquote dquote) with true. cbv iota.
    now rewrite parse_chars_escape.
  - apply serializable_arr in Hs. rewrite text_arr in *.
    destruct l as [|x l].
    + destruct fuel as [|f]; [inversion Hfuel|]. reflexivity.
    + set (ind' := ind ++ gap) in *.
      assert (Hind' : all_ws ind' = true) by now apply all_ws_app.
      cbn [map] in *. rewrite wrap_items in *. fold ind' in Hfuel |- *.
      set (J := join ("," ++ nl ++ ind') (text gap ind' x :: map (text gap ind') l)) in *.
      rewrite !length_append in Hfuel. cbn [String.length] in Hfuel.
      destruct fuel as [|f]; [inversion Hfuel|].
      rewrite parse_value_S, !append_assoc.
      change ("[" ++ nl ++ ind' ++ J ++ nl ++ ind ++ "]" ++ rest)
        with (String "[" (nl ++ ind' ++ J ++ nl ++ ind ++ String "]" rest)).
      rewrite skip_ws_start by reflexivity.
      change (Ascii.eqb "[" dquote) with false.
      change (Ascii.eqb "[" "[") with true. cbv iota.
      destruct (text_start ind' x) as (c & r & E & Hc);
        [now inversion Hs|].
      destruct (join_start ("," ++ nl ++ ind') _ (map (text gap ind') l) c r E) as (r' & EJ).
      fold J in EJ.
      pose proof (value_start_not_ws c Hc) as W.
      destruct (value_start_not_closing c Hc) as [C1 _].
      rewrite <- (append_assoc nl ind'). rewrite EJ at 1.
      change (String c r' ++ ?t) with (String c (r' ++ t)).
      rewrite after_prefix_other by (try apply all_ws_nl; assumption).
      rewrite append_assoc. unfold J.
      change (text gap ind' x :: map (text gap ind') l)
        with (map (text gap ind') (x :: l)).
      rewrite (parse_elements_join ind' ind rest (x :: l)); auto.
      * apply Forall_forall. intros y Hy rest0 fuel0 Hf0 Hr0.
        rewrite Forall_forall in IH, Hs. apply IH; auto.
      * discriminate.
      * change (map (text gap ind') (x :: l))
          with (text gap ind' x :: map (text gap ind') l). fold J. lia.
  - apply serializable_obj in Hs as [Hnd Hs]. rewrite (text_obj ind m Hs) in *.
    destruct m as [|[k x] m].
    + destruct fuel as [|f]; [inversion Hfuel|]. reflexivity.
    + set (ind' := ind ++ gap) in *.
      assert (Hind' : all_ws ind' = true) by now apply all_ws_app.
      set (member := fun kv : string * JValue num =>
                       QuoteJSONString (fst kv) ++ ": " ++ text gap ind' (snd kv)) in *.
      cbn [map] in *. rewrite wrap_items in *. fold ind' in Hfuel |- *.
      set (J := join ("," ++ nl ++ ind') (member (k, x) :: map member m)) in *.
      rewrite !length_append in Hfuel. cbn [String.length] in Hfuel.
      destruct fuel as [|f]; [inversion Hfuel|].
      rewrite parse_value_S, !append_assoc.
      change ("{" ++ nl ++ ind' ++ J ++ nl ++ ind ++ "}" ++ rest)
        with (String "{" (nl ++ ind' ++ J ++ nl ++ ind ++ String "}" rest)).
      rewrite skip_ws_start by reflexivity.
      change (Ascii.eqb "{" dquote) with false.
      change (Ascii.eqb "{" "[") with false.
      change (Ascii.eqb "{" "{") with true. cbv iota.
      destruct (join_start ("," ++ nl ++ ind') (member (k, x)) (map member m) dquote
                  (escape k ++ dq ++ ": " ++ text gap ind' x)) as (r' & EJ).
      { unfold member, QuoteJSONString. cbn [fst snd]. now rewrite !append_assoc. }
      fold J in EJ.
      rewrite <- (append_assoc nl ind'). rewrite EJ at 1.
      change (String dquote r' ++ ?t) with (String dquote (r' ++ t)).
      rewrite after_prefix_other by (try apply all_ws_nl; auto; reflexivity).
      rewrite append_assoc. unfold J.
      change (member (k, x) :: map member m) with (map member ((k, x) :: m)).
      unfold member.
      rewrite (parse_members_join ind' ind rest ((k, x) :: m)); auto.
      * now rewrite (make_object_NoDup ((k, x) :: m) Hnd).
      * apply Forall_forall. intros y Hy rest0 fuel0 Hf0 Hr0.
        rewrite Forall_forall in IH, Hs. apply IH; auto.
      * discriminate.
      * fold member.
        change (map member ((k, x) :: m)) with (member (k, x) :: map member m).
        fold J. lia.
Qed.

End Laws.

End Gap.

Lemma spaces_add (a b : nat) : spaces a ++ spaces b = spaces (a + b).
Proof. induction a as [|a IH]; cbn; [reflexivity|now rewrite IH]. Qed.

Lemma indentation_S (depth : nat) : indentation depth ++ "  " = indentation (S depth).
Proof.
  unfold indentation. change "  " with (spaces 2). rewrite spaces_add.
  f_equal. lia.
Qed.

Lemma join_prefixed (p sep x : string) (items : list string) :
  p ++ join (sep ++ p) (x :: items) = join sep (map (append p) (x :: items)).
Proof.
  revert x. induction items as [|y items IH]; intros x; [reflexivity|].
  change (join (sep ++ p) (x :: y :: items))
    with (x ++ (sep ++ p) ++ join (sep ++ p) (y :: items)).
  change (join sep (map (append p) (x :: y :: items)))
    with ((p ++ x) ++ sep ++ join sep (map (append p) (y :: items))).
  rewrite <- IH, !append_assoc. reflexivity.
Qed.

(** The rendering of [JSON.stringify(data, null, 2)] is the pretty-printed
    text. *)
Lemma text_pretty (v : JValue num) :
  serializable v ->
  forall depth, text "  " (indentation depth) v = pretty depth v.
Proof.
  induction v as [| |b|n|s|l IH|m IH] using JValue_ind; intros Hs depth;
    try reflexivity.
  - now destruct b.
  - apply serializable_arr in Hs. rewrite (text_arr "  ").
    destruct l as [|x l]; [reflexivity|].
    rewrite indentation_S.
    assert (E : map (text "  " (indentation (S depth))) (x :: l)
                = map (pretty (S depth)) (x :: l)).
    { apply map_ext_in. intros y Hy. rewrite Forall_forall in IH, Hs. auto. }
    rewrite E. cbn [map]. rewrite (wrap_items "  " eq_refl).
    rewrite indentation_S. cbn [pretty].
    change ("," ++ nl ++ indentation (S depth))
      with (("," ++ nl) ++ indentation (S depth)).
    rewrite <- (append_assoc (indentation (S depth)) (join _ _)), join_prefixed.
    change (pretty (S depth) x :: map (pretty (S depth)) l)
      with (map (pretty (S depth)) (x :: l)).
    now rewrite map_map.
  - apply serializable_obj in Hs as [_ Hs]. rewrite (text_obj "  " eq_refl _ _ Hs).
    destruct m as [|[k x] m]; [reflexivity|].
    rewrite indentation_S.
    assert (E : map (fun kv => QuoteJSONString (fst kv) ++ ": "
                                 ++ text "  " (indentation (S depth)) (snd kv))
                  ((k, x) :: m)
                = map (fun kv => QuoteJSONString (fst kv) ++ ": "
                                   ++ pretty (S depth) (snd kv)) ((k, x) :: m)).
    { apply map_ext_in. intros y Hy. rewrite Forall_forall in IH, Hs.
      now rewrite IH by auto. }
    rewrite E. cbn [map]. rewrite (wrap_items "  " eq_refl).
    rewrite indentation_S. cbn [pretty].
    change ("," ++ nl ++ indentation (S depth))
      with (("," ++ nl) ++ indentation (S depth)).
    rewrite <- (append_assoc (indentation (S depth)) (join _ _)), join_prefixed.
    cbn [map]. rewrite map_map. reflexivity.
Qed.

(** C5. For a payload that JSON can carry (no [undefined] inside, no key
    twice in an object), rendering with format "json" gives the
    pretty-printed text, with two spaces of indentation per level and the
    members in the payload's order, and parsing that text gives back the
    payload, keys in the same order. *)
Theorem json_round_trip {laws : JSNumberLaws num} {env : Externals num}
  (d : JValue num) (w : World num) :
  serializable d ->
  formatResult d (JStr "json") w = (Return (Some (pretty 0 d)), w)
  /\ formatAsJson d = Some (pretty 0 d)
  /\ parse (pretty 0 d) = Some d.
Proof.
  intros Hs.
  assert (E : formatAsJson d = Some (pretty 0 d)).
  { unfold formatAsJson, stringify. cbn [Nat.min spaces].
    rewrite (serializable_text _ _ _ Hs). f_equal. apply (text_pretty d Hs 0). }
  split; [|split].
  - rewrite <- E. reflexivity.
  - exact E.
  - unfold parse. rewrite <- (text_pretty d Hs 0).
    pose proof (parse_text "  " eq_refl eq_refl d Hs (indentation 0) ""
                  (S (String.length (text "  " (indentation 0) d))) eq_refl
                  (Nat.le_succ_diag_r _) I) as P.
    rewrite append_nil_r in P. rewrite P. reflexivity.
Qed.

End RoundTrip.

(** The integers satisfy the laws of the number conversions. *)
Lemma uint_chars (d : Decimal.uint) : all_num_chars (NilEmpty.string_of_uint d) = true.
Proof. induction d; cbn; auto. Qed.

Lemma Z_number_laws : @JSNumberLaws Z Sample.Z_number.
Proof.
  split.
  - intros z. cbn.
    assert (E : NilZero.int_of_string (NilZero.string_of_int (Z.to_int z))
                = Some (Z.to_int z)).
    { apply NilZero.isi; destruct z; cbn; try discriminate;
        intros [= E]; now apply DecimalPos.Unsigned.to_uint_nonnil in E. }
    rewrite E, DecimalZ.of_to, String.eqb_refl. reflexivity.
  - intros z. cbn. destruct (Z.to_int z) as [d|d]; cbn.
    + destruct d; try apply uint_chars. reflexivity.
    + destruct d; try apply uint_chars. reflexivity.
  - intros z. cbn. destruct (Z.to_int z) as [d|d]; cbn; [|discriminate].
    destruct d; discriminate.
Qed.

End JSONSpec.

(** ** The operations, one scheme for the thirteen *)

Module OperationFacts.
Import Str JS Config Effects SentryUtils Spec Table.
Import CacheSpec OperationSpec.
Local Open Scope effect_scope.

Section Facts.
Context {num : Type} `{JSNumber num} `{!Externals num}.

Lemma perform_operation (c : Call num) (w : World num) : perform c w = operation c w.
Proof.
  destruct c; cbn [perform]; unfold operation;
    [ unfold listProjectEvents | unfold listProjectIssues | unfold listOrgIssues
    | unfold getIssue | unfold updateIssue | unfold listIssueEvents | unfold getEvent
    | unfold getIssueEvent | unfold getTagDetails | unfold listTagValues
    | unfold listIssueHashes | unfold debugSourceMaps | unfold testConnection ];
    cbn [profile_of identifiers finish];
    unfold try_catch, bind, to_strings, ToStringM, axios_get, axios_put, request_of;
    cbn [map strings_of];
    (destruct (getClient _ w) as [[client|e|k] w1]; [|reflexivity|reflexivity]);
    (destruct (getClientOptions _ w1) as [[o|e|k] w2]; [|reflexivity|reflexivity]);
    repeat match goal with
           | |- context [ToString ?v] => destruct (ToString v); cbn [option_map ret throw]
           end;
    try reflexivity.
Qed.


Lemma initSentry_eq (w : World num) :
  SentryClient.initSentry w =
  match sentryUtil w with
  | Some _ => (Return tt, w)
  | None =>
      match loadConfig projectRoot with
      | inr cfg => (Return tt, constructed cfg w)
      | inl e => (Throw (Error ("Failed to initialize Sentry client: " ++ message_of e)), w)
      end
  end.
Proof.
  unfold SentryClient.initSentry, bind, get_world, try_catch.
  destruct (sentryUtil w); [reflexivity|].
  unfold lift. destruct (loadConfig projectRoot); reflexivity.
Qed.

Lemma initSentry_loaded (cfg : Config) (w : World num) :
  loadConfig projectRoot = inr cfg ->
  SentryClient.initSentry w = (Return tt, initialized cfg w).
Proof.
  intros E. rewrite initSentry_eq, E. unfold initialized. now destruct (sentryUtil w).
Qed.

Lemma getClientOptions_eq (p : JValue num) (w : World num) :
  getClientOptions p w =
  match sentryUtil w with
  | None => (Throw (TypeError_read "null" "clientPool"), w)
  | Some u =>
      match getSentryClientOptions (config u) p with
      | inl e => (Throw e, w)
      | inr o => (Return o, w)
      end
  end.
Proof.
  unfold getClientOptions, this, bind. destruct (sentryUtil w) as [u|]; [|reflexivity].
  now destruct (getSentryClientOptions (config u) p).
Qed.

Lemma on_error_settled (e : Thrown num) (w : World num) : on_error e w = (settled e, w).
Proof. apply on_error_eq. Qed.

Lemma formatResult_eq (d f : JValue num) (w : World num) :
  formatResult d f w = (formatted d f, w).
Proof.
  unfold formatResult, formatted, formatAsToon, bind.
  destruct (is_toon (or_json f)); [|reflexivity].
  destruct (negb (ToBoolean d)); [reflexivity|].
  unfold lift. now destruct (encode d).
Qed.

Lemma finish_eq (c : Call num) (o : SentryClientOptions) (d : JValue num) (w : World num) :
  finish c o d w = (finished c o d, w).
Proof.
  destruct c; cbn [finish finished]; unfold rendered, bind, ToStringM;
    rewrite ?formatResult_eq;
    try (destruct (formatted d _); reflexivity).
  - now destruct (ToString issueId).
  - now destruct (ToString profileName).
Qed.

Lemma perform_eq (c : Call num) (w : World num) :
  perform c w =
  match sentryUtil w with
  | None => (settled (TypeError_read "null" "clientPool"), w)
  | Some u =>
      match getSentryClientOptions (config u) (profile_of c) with
      | inl e => (settled e, w)
      | inr o =>
          let (client, w1) := client_for u (profile_of c) o w in
          match strings_of (map ToString (identifiers c)) with
          | None => (settled TypeError_primitive, w1)
          | Some ids =>
              let r := request_of c client o ids in
              (match upstream (sent w1) r with
               | inl e => settled e
               | inr d => caught_by (finished c o d)
               end, with_request w1 r)
          end
      end
  end.
Proof.
  rewrite perform_operation. unfold operation, try_catch.
  unfold bind at 1. rewrite getClient_eq.
  destruct (sentryUtil w) as [u|] eqn:Eu; [|now rewrite on_error_settled].
  unfold client_for.
  destruct (Map_get (clientPool u) (profile_of c)) as [client|] eqn:Eg.
  - unfold bind at 1. rewrite getClientOptions_eq, Eu.
    destruct (getSentryClientOptions (config u) (profile_of c)) as [e|o];
      [now rewrite on_error_settled|].
    unfold bind at 1. unfold to_strings.
    destruct (strings_of (map ToString (identifiers c))) as [ids|];
      [|cbn [throw]; now rewrite on_error_settled].
    cbn [ret]. unfold bind, axios_request.
    destruct (upstream (sent w) (request_of c client o ids)) as [e|d].
    + now rewrite on_error_settled.
    + rewrite finish_eq. unfold caught_by, with_request.
      destruct (finished c o d); try reflexivity. now rewrite on_error_settled.
  - destruct (getSentryClientOptions (config u) (profile_of c)) as [e|o] eqn:Eo;
      [now rewrite on_error_settled|].
    cbv zeta. unfold bind at 1. rewrite getClientOptions_eq. cbn [sentryUtil config].
    rewrite Eo. unfold bind at 1. unfold to_strings.
    destruct (strings_of (map ToString (identifiers c))) as [ids|];
      [|cbn [throw]; now rewrite on_error_settled].
    cbn [ret]. unfold bind, axios_request. cbn [sent].
    fold (new_client o w).
    destruct (upstream (sent w) (request_of c (new_client o w) o ids)) as [e|d].
    + now rewrite on_error_settled.
    + rewrite finish_eq. unfold caught_by, with_request.
      destruct (finished c o d); try reflexivity. now rewrite on_error_settled.
Qed.


Lemma settled_settles (e : Thrown num) : settles (settled e).
Proof.
  unfold settled. destruct (ToString (errorMessage e)) as [s|]; [left|now right].
  eexists. split; [reflexivity|]. right. cbn. repeat split. now exists s.
Qed.

Lemma finished_settles (c : Call num) (o : SentryClientOptions) (d : JValue num) :
  settles (caught_by (finished c o d)).
Proof.
  destruct c; cbn [finished];
    try (destruct (formatted d _) as [r|e|k] eqn:E; cbn [caught_by];
         [ left; eexists; split; [reflexivity|]; left; split; reflexivity
         | apply settled_settles
         | unfold formatted in E;
           repeat match type of E with
                  | (if ?b then _ else _) = _ => destruct b
                  | match ?x with _ => _ end = _ => destruct x
                  end; discriminate ]).
  - destruct (ToString issueId); cbn [caught_by];
      [left; eexists; split; [reflexivity|]; left; split; reflexivity
      |apply settled_settles].
  - destruct (ToString profileName); cbn [caught_by];
      [left; eexists; split; [reflexivity|]; left; split; reflexivity
      |apply settled_settles].
Qed.

(** [client_for] creates at most one client and touches nothing else. *)
Lemma client_for_frame (u : SentryUtil num) (p : JValue num) (o : SentryClientOptions)
  (w : World num) :
  let w1 := snd (client_for u p o w) in
  sent w1 = sent w /\ console w1 = console w
  /\ instances w <= instances w1 <= S (instances w).
Proof.
  unfold client_for. destruct (Map_get (clientPool u) p); cbn; repeat split; lia.
Qed.

(** What every operation leaves behind: an outcome of the two kinds, the
    console as it was, at most one more client and at most one more request,
    which is the request of the table through the client of the profile. *)
Lemma perform_summary (c : Call num) (w : World num) :
  settles (fst (perform c w))
  /\ console (snd (perform c w)) = console w
  /\ instances w <= instances (snd (perform c w)) <= S (instances w)
  /\ exists new,
      sent (snd (perform c w)) = (sent w ++ new)%list
      /\ length new <= 1
      /\ Forall (fun r =>
                   exists u o ids,
                     sentryUtil w = Some u
                     /\ getSentryClientOptions (config u) (profile_of c) = inr o
                     /\ strings_of (map ToString (identifiers c)) = Some ids
                     /\ r = request_of c (fst (client_for u (profile_of c) o w)) o ids) new.
Proof.
  rewrite perform_eq.
  destruct (sentryUtil w) as [u|] eqn:Eu.
  2:{ cbn [fst snd]. repeat split; try lia; [apply settled_settles|].
      exists []. rewrite app_nil_r. repeat split; auto. }
  destruct (getSentryClientOptions (config u) (profile_of c)) as [e|o] eqn:Eo.
  { cbn [fst snd]. repeat split; try lia; [apply settled_settles|].
    exists []. rewrite app_nil_r. repeat split; auto. }
  pose proof (client_for_frame u (profile_of c) o w) as F. cbv zeta in F.
  destruct (client_for u (profile_of c) o w) as [client w1] eqn:Ec. cbn [snd] in F.
  destruct F as (Fs & Fc & Fi).
  destruct (strings_of (map ToString (identifiers c))) as [ids|] eqn:Ei.
  - cbv zeta. cbn [fst snd with_request sent console instances].
    split; [|split; [exact Fc|split; [exact Fi|]]].
    + destruct (upstream (sent w1) (request_of c client o ids));
        [apply settled_settles|apply finished_settles].
    + exists [request_of c client o ids]. rewrite Fs. split; [reflexivity|].
      split; [auto|]. constructor; [|constructor].
      exists u, o, ids. rewrite Ec. repeat split; assumption.
  - cbn [fst snd]. split; [apply settled_settles|]. split; [exact Fc|]. split; [exact Fi|].
    exists []. rewrite app_nil_r. repeat split; auto.
Qed.


(** The run of an operation once its client and options are found. *)
Lemma perform_with_client (c : Call num) (w w1 : World num) (client : AxiosInstance)
  (o : SentryClientOptions) :
  getClient (profile_of c) w = (Return client, w1) ->
  getClientOptions (profile_of c) w1 = (Return o, w1) ->
  perform c w =
  match strings_of (map ToString (identifiers c)) with
  | None => (settled TypeError_primitive, w1)
  | Some ids =>
      let r := request_of c client o ids in
      (match upstream (sent w1) r with
       | inl e => settled e
       | inr d => caught_by (finished c o d)
       end, with_request w1 r)
  end.
Proof.
  intros Hc Ho. rewrite perform_operation. unfold operation, try_catch.
  unfold bind at 1. rewrite Hc. unfold bind at 1. rewrite Ho.
  unfold bind at 1. unfold to_strings.
  destruct (strings_of (map ToString (identifiers c))) as [ids|];
    [|cbn [throw]; now rewrite on_error_settled].
  cbn [ret]. unfold bind, axios_request. cbv zeta.
  destruct (upstream (sent w1) (request_of c client o ids)) as [e|d].
  - now rewrite on_error_settled.
  - rewrite finish_eq. unfold caught_by, with_request.
    destruct (finished c o d); try reflexivity. now rewrite on_error_settled.
Qed.

Lemma getClient_sent (p : JValue num) (w : World num) :
  sent (snd (getClient p w)) = sent w.
Proof. apply quiet_getClient. Qed.

(** X1. An operation whose profile the configuration does not resolve ends
    as its [catch] block does on the error of the resolver, in the world it
    started in: no request is sent and no client is created or stored. For a
    plain [Error] the result is the failure with its message. *)
Theorem unresolved_profile_fails (c : Call num) (u : SentryUtil num) (e : Thrown num)
  (w : World num) :
  sentryUtil w = Some u ->
  getSentryClientOptions (config u) (profile_of c) = inl e ->
  perform c w = on_error e w
  /\ snd (perform c w) = w
  /\ forall msg, e = Error msg -> fst (perform c w) = Return (failure msg).
Proof.
  intros Hu He. rewrite perform_eq, Hu, He, on_error_settled.
  split; [reflexivity|]. split; [reflexivity|]. now intros msg ->.
Qed.

(** X2. Every operation ends with a result in which exactly one branch is
    filled (a success without an error string, or a failure that holds
    nothing but its error string, which starts with [ERROR: ]), or, when the
    message of the error has no string conversion, with the [TypeError] of
    that conversion; it never ends the process and prints nothing. *)
Theorem operation_result_is_populated (c : Call num) (w : World num) :
  ((exists r, fst (perform c w) = Return r /\ populated r)
   \/ fst (perform c w) = Throw TypeError_primitive)
  /\ console (snd (perform c w)) = console w.
Proof.
  destruct (perform_summary c w) as (S & C & _). split; [exact S|exact C].
Qed.

(** X3. The request of each operation: once the client and the options of
    the profile are found, the operation sends the one request of the table
    (method, path with the organization of the profile and the identifiers
    as they convert to strings, nothing encoded, query parameters and body)
    through that client, whatever the upstream answers. When an identifier
    has no string conversion, nothing is sent and the operation fails with
    the message of the [TypeError]. *)
Theorem operation_sends_its_request (c : Call num) (w w1 : World num)
  (client : AxiosInstance) (o : SentryClientOptions) :
  getClient (profile_of c) w = (Return client, w1) ->
  getClientOptions (profile_of c) w1 = (Return o, w1) ->
  match strings_of (map ToString (identifiers c)) with
  | Some ids =>
      sent (snd (perform c w))
      = (sent w ++ [{| via := client; method := method_of c;
                      url := path_of c (organization o) ids;
                      params := query_of c; body := body_of c |}])%list
  | None =>
      perform c w = (Return (failure "Cannot convert object to primitive value"), w1)
      /\ sent w1 = sent w
  end.
Proof.
  intros Hc Ho. rewrite (perform_with_client c w w1 client o Hc Ho).
  pose proof (getClient_sent (profile_of c) w) as E. rewrite Hc in E. cbn [snd] in E.
  destruct (strings_of (map ToString (identifiers c))) as [ids|].
  - cbv zeta. cbn [snd with_request sent]. now rewrite E.
  - split; [reflexivity|exact E].
Qed.


Lemma is_toon_other (f : JValue num) : f <> JStr "toon" -> is_toon (or_json f) = false.
Proof.
  intros N. destruct f; try reflexivity. cbn.
  destruct (String.eqb_spec s "toon") as [->|_]; [now destruct N|reflexivity].
Qed.

Lemma finished_rendering (c : Call num) (f : JValue num) (o : SentryClientOptions)
  (d : JValue num) :
  format_of c = Some f ->
  finished c o d
  = match formatted d f with
    | Return r => Return {| success := true; data := d; result := r; error := None |}
    | Throw e => Throw e
    | Exit k => Exit k
    end.
Proof. destruct c; cbn [format_of finished]; intros [= <-]; reflexivity. Qed.

(** X4. An operation that renders the response body, called with any format
    other than the string [toon] (an unknown format included), and whose
    request the upstream answers with the body [d], succeeds with [d] as data
    and [JSON.stringify(d, null, 2)] as result. *)
Theorem answered_operation_renders_json (c : Call num) (f : JValue num) (w w1 : World num)
  (client : AxiosInstance) (o : SentryClientOptions) (ids : list string) (d : JValue num) :
  format_of c = Some f -> f <> JStr "toon" ->
  getClient (profile_of c) w = (Return client, w1) ->
  getClientOptions (profile_of c) w1 = (Return o, w1) ->
  strings_of (map ToString (identifiers c)) = Some ids ->
  upstream (sent w1) (request_of c client o ids) = inr d ->
  perform c w
  = (Return {| success := true; data := d; result := formatAsJson d; error := None |},
     with_request w1 (request_of c client o ids)).
Proof.
  intros Hf Hn Hc Ho Hi Hu. rewrite (perform_with_client c w w1 client o Hc Ho), Hi.
  cbv zeta. rewrite Hu, (finished_rendering c f o d Hf).
  unfold formatted. rewrite (is_toon_other f Hn). reflexivity.
Qed.

(** X5. The same operation called with the format [toon]: a falsy body gives
    the empty string, any other body what the encoder returns for it; when
    the encoder throws, the operation ends as its [catch] block does on that
    error, a failure although the request was answered. *)
Theorem answered_operation_renders_toon (c : Call num) (w w1 : World num)
  (client : AxiosInstance) (o : SentryClientOptions) (ids : list string) (d : JValue num) :
  format_of c = Some (JStr "toon") ->
  getClient (profile_of c) w = (Return client, w1) ->
  getClientOptions (profile_of c) w1 = (Return o, w1) ->
  strings_of (map ToString (identifiers c)) = Some ids ->
  upstream (sent w1) (request_of c client o ids) = inr d ->
  let w2 := with_request w1 (request_of c client o ids) in
  let ok s := {| success := true; data := d; result := Some s; error := None |} in
  (ToBoolean d = false -> perform c w = (Return (ok ""), w2))
  /\ (forall s, ToBoolean d = true -> encode d = inr s -> perform c w = (Return (ok s), w2))
  /\ (forall e, ToBoolean d = true -> encode d = inl e -> perform c w = on_error e w2).
Proof.
  intros Hf Hc Ho Hi Hu. cbv zeta.
  rewrite (perform_with_client c w w1 client o Hc Ho), Hi.
  cbv zeta. rewrite Hu, (finished_rendering c _ o d Hf).
  unfold formatted. cbn [or_json is_toon String.eqb Ascii.eqb Bool.eqb].
  split; [|split].
  - intros ->. reflexivity.
  - intros s -> ->. reflexivity.
  - intros e -> ->. cbn [negb caught_by]. now rewrite on_error_settled.
Qed.

(** X6. [testConnection], when its request is answered, succeeds with a
    message that reports the profile name, the organization and the base
    URL of the profile; the body of the answer is discarded. The request is
    a GET of the issues of the organization with [limit = 1]. *)
Theorem testConnection_reports_profile (p : JValue num) (w w1 : World num)
  (client : AxiosInstance) (o : SentryClientOptions) (name : string) (b : JValue num) :
  let req := {| via := client; method := GET;
                url := "/organizations/" ++ organization o ++ "/issues/";
                params := JObj [("limit", JNum (num_of_Z 1))]; body := JUndefined |} in
  getClient p w = (Return client, w1) ->
  getClientOptions p w1 = (Return o, w1) ->
  ToString p = Some name ->
  upstream (sent w1) req = inr b ->
  testConnection p w
  = (Return {| success := true;
               data := JObj [("organization", JStr (organization o));
                             ("baseUrl", JStr (baseUrl o))];
               result := Some ("✅ Connection successful!" ++ nl ++ nl
                               ++ "Profile: " ++ name ++ nl
                               ++ "Organization: " ++ organization o ++ nl
                               ++ "Base URL: " ++ baseUrl o ++ nl
                               ++ "Status: Connected");
               error := None |},
     {| sentryUtil := sentryUtil w1; instances := instances w1;
        sent := sent w1 ++ [req]; console := console w1 |}).
Proof.
  intros req Hc Ho Hn Hu.
  change (testConnection p w) with (perform (TestConnection p) w).
  rewrite (perform_with_client (TestConnection p) w w1 client o Hc Ho).
  cbn [identifiers map strings_of]. cbv zeta.
  change (request_of (TestConnection p) client o []) with req.
  rewrite Hu. cbn [finished]. rewrite Hn. reflexivity.
Qed.

(** After [client_for], the pool holds the client it returned under the
    name. *)
Lemma client_for_stored (u : SentryUtil num) (name : string) (o : SentryClientOptions)
  (w : World num) :
  sentryUtil w = Some u ->
  exists u1,
    sentryUtil (snd (client_for u (JStr name) o w)) = Some u1
    /\ config u1 = config u
    /\ Map_get (clientPool u1) (JStr name) = Some (fst (client_for u (JStr name) o w)).
Proof.
  intros Hu. unfold client_for.
  destruct (Map_get (clientPool u) (JStr name)) as [client|] eqn:Eg; cbn [fst snd].
  - exists u. auto.
  - eexists. split; [reflexivity|]. split; [reflexivity|]. cbn [clientPool].
    rewrite (Map_set_new _ _ _ Eg). now apply Map_get_app_new.
Qed.

Lemma sent_grew (l : list (Request num)) (r : Request num) : l <> (l ++ [r])%list.
Proof.
  intros E. apply (f_equal (@length _)) in E. rewrite length_app in E. cbn in E. lia.
Qed.

(** What a request that was sent tells about the run of the operation. *)
Lemma perform_sent_one (c : Call num) (w : World num) (r : Request num) :
  sent (snd (perform c w)) = (sent w ++ [r])%list ->
  exists u o ids,
    sentryUtil w = Some u
    /\ getSentryClientOptions (config u) (profile_of c) = inr o
    /\ strings_of (map ToString (identifiers c)) = Some ids
    /\ r = request_of c (fst (client_for u (profile_of c) o w)) o ids
    /\ perform c w
       = (match upstream (sent w) r with
          | inl e => settled e
          | inr d => caught_by (finished c o d)
          end, with_request (snd (client_for u (profile_of c) o w)) r).
Proof.
  rewrite perform_eq.
  destruct (sentryUtil w) as [u|] eqn:Eu; [|intros E; now apply sent_grew in E].
  destruct (getSentryClientOptions (config u) (profile_of c)) as [e|o] eqn:Eo;
    [intros E; now apply sent_grew in E|].
  pose proof (client_for_frame u (profile_of c) o w) as (Fs & _).
  destruct (client_for u (profile_of c) o w) as [client w1] eqn:Ec. cbn [fst snd] in Fs.
  destruct (strings_of (map ToString (identifiers c))) as [ids|] eqn:Ei.
  2:{ intros E. cbn [snd] in E. rewrite Fs in E. now apply sent_grew in E. }
  cbv zeta. intros E. cbn [snd with_request sent] in E. rewrite Fs in E.
  apply app_inv_head in E. injection E as E.
  exists u, o, ids. rewrite Ec, <- E, Fs. cbn [fst snd]. repeat split; assumption.
Qed.

(** X7. Within one instance of the class, two operations on the same
    profile name share the client: when both send their request, the second
    request goes through the client of the first, and the second operation
    creates no client. *)
Theorem client_is_reused_between_operations (c1 c2 : Call num) (name : string)
  (w : World num) (r1 r2 : Request num) :
  profile_of c1 = JStr name -> profile_of c2 = JStr name ->
  sent (snd (perform c1 w)) = (sent w ++ [r1])%list ->
  sent (snd (perform c2 (snd (perform c1 w))))
  = (sent (snd (perform c1 w)) ++ [r2])%list ->
  via r2 = via r1
  /\ instances (snd (perform c2 (snd (perform c1 w)))) = instances (snd (perform c1 w)).
Proof.
  intros P1 P2 S1 S2.
  destruct (perform_sent_one c1 w r1 S1) as (u & o & ids1 & Hu & Ho & _ & R1 & E1).
  rewrite P1 in *.
  destruct (client_for_stored u name o w Hu) as (u1 & Hu1 & Hcfg & Hg).
  assert (W : snd (perform c1 w) = with_request (snd (client_for u (JStr name) o w)) r1)
    by now rewrite E1.
  rewrite W in *. clear W E1.
  set (w' := with_request (snd (client_for u (JStr name) o w)) r1) in *.
  assert (Hu' : sentryUtil w' = Some u1) by exact Hu1.
  destruct (perform_sent_one c2 w' r2 S2) as (u2 & o2 & ids2 & Hu2 & Ho2 & _ & R2 & E2).
  rewrite P2 in *. rewrite Hu' in Hu2. injection Hu2 as <-.
  rewrite Hcfg, Ho in Ho2. injection Ho2 as <-.
  assert (C : client_for u1 (JStr name) o w' = (fst (client_for u (JStr name) o w), w')).
  { unfold client_for at 1. now rewrite Hg. }
  rewrite C in R2, E2. cbn [fst snd] in R2, E2.
  split.
  - rewrite R1, R2. reflexivity.
  - rewrite E2. reflexivity.
Qed.


Lemma wrapper_eq (c : Call num) (w : World num) :
  wrapper c w = (SentryClient.initSentry ;; perform (defaulted c)) w.
Proof. destruct c; reflexivity. Qed.

(** An operation leaves the configuration of the instance as it is. *)
Lemma perform_keeps_config (c : Call num) (u : SentryUtil num) (w : World num) :
  sentryUtil w = Some u ->
  exists u', sentryUtil (snd (perform c w)) = Some u' /\ config u' = config u.
Proof.
  intros Hu. rewrite perform_eq, Hu.
  destruct (getSentryClientOptions (config u) (profile_of c)) as [e|o]; [cbn; eauto|].
  assert (K : exists u', sentryUtil (snd (client_for u (profile_of c) o w)) = Some u'
                         /\ config u' = config u).
  { unfold client_for. destruct (Map_get (clientPool u) (profile_of c)); cbn; eauto. }
  destruct (client_for u (profile_of c) o w) as [client w1]. cbn [snd] in K.
  destruct (strings_of (map ToString (identifiers c))); exact K.
Qed.

(** X8. The instance of the class is created once. A wrapper function
    called while the [sentryUtil] variable holds an instance runs the
    operation on that instance, without loading the configuration again, and
    the instance keeps its configuration. Called without an instance, it
    creates one from the configuration when that loads, and runs the
    operation on it; when the configuration does not load, it throws
    [Failed to initialize Sentry client: <message>] instead of returning a
    result, and sends nothing. An absent format is ['json']. *)
Theorem wrapper_creates_the_instance_once (c : Call num) (w : World num) :
  match sentryUtil w with
  | Some u =>
      wrapper c w = perform (defaulted c) w
      /\ exists u', sentryUtil (snd (wrapper c w)) = Some u' /\ config u' = config u
  | None =>
      match loadConfig projectRoot with
      | inr cfg =>
          wrapper c w = perform (defaulted c) (constructed cfg w)
          /\ exists u', sentryUtil (snd (wrapper c w)) = Some u' /\ config u' = cfg
      | inl e =>
          wrapper c w
          = (Throw (Error ("Failed to initialize Sentry client: " ++ message_of e)), w)
      end
  end.
Proof.
  rewrite wrapper_eq. unfold bind. rewrite initSentry_eq.
  destruct (sentryUtil w) as [u|] eqn:Hu.
  - split; [reflexivity|]. now apply perform_keeps_config.
  - destruct (loadConfig projectRoot) as [e|cfg]; [reflexivity|].
    split; [reflexivity|].
    apply (perform_keeps_config (defaulted c) {| config := cfg; clientPool := [] |}).
    reflexivity.
Qed.

End Facts.
End OperationFacts.

(** ** Runs of the dispatcher *)

Module RunFacts.
Import Str JS Config Effects SentryUtils Runner Spec Constants Table.
Import CacheSpec OperationSpec OperationFacts.
Local Open Scope effect_scope.

Section Runs.
Context {num : Type} `{JSNumber num} `{!Externals num}.

(** An argument that is neither [null] nor [undefined]. *)
Lemma Get_GetOpt (args : JValue num) (k k' : string) (v : JValue num) :
  Get args k = inr v -> Get args k' = inr (GetOpt args k').
Proof. unfold GetOpt. destruct args; cbn; intros E; try discriminate; reflexivity. Qed.

Lemma filterCliParams_total (args : JValue num) (k : string) (v : JValue num) :
  Get args k = inr v ->
  Runner.filterCliParams args
  = inr (JObj (filter (fun kv => negb (Runner.is_cli_key (fst kv))) (own_properties args))).
Proof. destruct args; cbn; intros E; try discriminate; reflexivity. Qed.

Lemma dispatch_eq (command : string) (args ps profile format v : JValue num) (k : string)
  (w : World num) :
  Get args k = inr v ->
  Runner.filterCliParams args = inr ps ->
  Runner.dispatch command args profile format w =
  match selected command args ps profile format with
  | None => (Exit 1, with_stderr w ("Unknown command: " ++ command))
  | Some c =>
      if forallb ToBoolean (identifiers c) then (SentryClient.initSentry ;; perform c) w
      else (Exit 1, with_stderr w (validation_message c))
  end.
Proof.
  intros Hg Hf. unfold Runner.dispatch, selected.
  repeat match goal with
         | |- context [if (command =? ?s) then _ else _] => destruct (command =? s)
         end.
  all: rewrite ?(Get_GetOpt args k _ v Hg), ?Hf.
  all: cbn [identifiers forallb validation_message].
  all: unfold Runner.fail, console_error, print, process_exit, bind, lift, ret, with_stderr, shown.
  all: repeat match goal with
         | |- context [ToBoolean ?x] => destruct (ToBoolean x)
         end.
  all: cbn [negb orb andb].
  all: try reflexivity.
Qed.


Lemma runCommand_eq (command : string) (arg flag : option string) (w : World num) :
  Runner.runCommand command arg flag w =
  match loadConfig projectRoot with
  | inl e => caught e w
  | inr cfg =>
      match Runner.parse_args arg with
      | inl e => caught e w
      | inr args =>
          match Get args "profile" with
          | inl e => caught e w
          | inr _ =>
              match selected command args (filtered args) (profile_for cfg args)
                      (format_for cfg args) with
              | None => (Exit 1, with_stderr w ("Unknown command: " ++ command))
              | Some c =>
                  if forallb ToBoolean (identifiers c)
                  then report (perform c (initialized cfg w))
                  else (Exit 1, with_stderr w (validation_message c))
              end
          end
      end
  end.
Proof.
  unfold Runner.runCommand, Runner.execute, try_catch.
  unfold bind at 1. destruct (loadConfig projectRoot) as [e|cfg] eqn:Ecfg.
  { cbn [lift throw]. unfold bind, console_error, print. cbv beta iota.
    rewrite DispatchSpec.clearClients_clears. reflexivity. }
  cbn [lift ret]. unfold bind at 1.
  destruct (Runner.parse_args arg) as [e|args].
  { cbn [lift throw]. unfold bind, console_error, print. cbv beta iota.
    rewrite DispatchSpec.clearClients_clears. reflexivity. }
  cbn [lift ret]. unfold bind at 1.
  destruct (Get args "profile") as [e|ap] eqn:Ep.
  { cbn [lift throw]. unfold bind, console_error, print. cbv beta iota.
    rewrite DispatchSpec.clearClients_clears. reflexivity. }
  cbn [lift ret]. unfold bind at 1.
  rewrite (Get_GetOpt args "profile" "format" ap Ep). cbn [lift ret].
  unfold bind at 1.
  rewrite (dispatch_eq command args (filtered args) _ _ ap "profile" w Ep
             (filterCliParams_total args "profile" ap Ep)).
  unfold profile_for, format_for.
  assert (Eap : ap = GetOpt args "profile").
  { pose proof (Get_GetOpt args "profile" "profile" ap Ep) as E. congruence. }
  rewrite <- Eap.
  destruct (selected command args (filtered args) _ _) as [c|]; [|reflexivity].
  destruct (forallb ToBoolean (identifiers c)); [|reflexivity].
  unfold bind at 1. rewrite (initSentry_loaded cfg w Ecfg).
  destruct (perform c (initialized cfg w)) as [[a|e|k] w1]; cbn [report].
  - destruct (success a).
    + unfold bind, console_log, print. cbv beta iota.
      rewrite DispatchSpec.clearClients_clears. reflexivity.
    + reflexivity.
  - unfold bind, console_error, print, caught. cbv beta iota.
    rewrite DispatchSpec.clearClients_clears. reflexivity.
  - reflexivity.
Qed.


(** The three ways a run goes: an exception before the [switch], a message
    of the [switch] itself, or an operation whose outcome is reported. *)
Lemma run_cases (command : string) (arg flag : option string) (w : World num) :
  (exists e, runCommand command arg flag w = caught e w
             /\ (loadConfig projectRoot = inl e
                 \/ (exists cfg, loadConfig projectRoot = inr cfg)
                    /\ (parse_args arg = inl e
                        \/ exists args, parse_args arg = inr args
                                        /\ Get args "profile" = inl e)))
  \/ (exists cfg args ap,
        loadConfig projectRoot = inr cfg /\ parse_args arg = inr args
        /\ Get args "profile" = inr ap
        /\ match selected command args (filtered args) (profile_for cfg args)
                   (format_for cfg args) with
           | None =>
               runCommand command arg flag w
               = (Exit 1, with_stderr w ("Unknown command: " ++ command))
           | Some c =>
               if forallb ToBoolean (identifiers c)
               then runCommand command arg flag w = report (perform c (initialized cfg w))
               else runCommand command arg flag w
                    = (Exit 1, with_stderr w (validation_message c))
           end).
Proof.
  rewrite runCommand_eq.
  destruct (loadConfig projectRoot) as [e|cfg]; [left; eauto|].
  destruct (parse_args arg) as [e|args]; [left; exists e; eauto 6|].
  destruct (Get args "profile") as [e|ap] eqn:Ep; [left; exists e; eauto 8|].
  right. exists cfg, args, ap. split; [reflexivity|]. split; [reflexivity|].
  split; [exact Ep|].
  destruct (selected command args (filtered args) (profile_for cfg args)
              (format_for cfg args)) as [c|]; [|reflexivity].
  destruct (forallb ToBoolean (identifiers c)); reflexivity.
Qed.

Lemma selected_name (command : string) (args ps profile format : JValue num) (c : Call num) :
  selected command args ps profile format = Some c ->
  name_of c = command /\ profile_of c = profile.
Proof.
  unfold selected.
  repeat match goal with
         | |- context [if (command =? ?s) then _ else _] =>
             destruct (String.eqb_spec command s) as [->|?]
         end; intros [= <-]; split; reflexivity.
Qed.

Lemma initialized_frame (cfg : Config) (w : World num) :
  sent (initialized cfg w) = sent w /\ console (initialized cfg w) = console w
  /\ instances (initialized cfg w) = instances w.
Proof. unfold initialized. destruct (sentryUtil w); cbn; auto. Qed.

(** What [report] does with the outcome of an operation. *)
Lemma report_settled (out : Outcome num (ApiResult num)) (w1 : World num) :
  settles out ->
  sent (snd (report (out, w1))) = sent w1
  /\ instances (snd (report (out, w1))) = instances w1
  /\ ((exists a, out = Return a /\ success a = true
                 /\ report (out, w1)
                    = (Return tt,
                       {| sentryUtil := None; instances := instances w1; sent := sent w1;
                          console := console w1 ++ [Stdout (shown (result a))] |}))
      \/ (exists s, report (out, w1) = (Exit 1, with_stderr w1 ("ERROR: " ++ s)))
      \/ report (out, w1) = caught TypeError_primitive w1).
Proof.
  intros [(r & -> & P)| ->]; cbn [report].
  - destruct P as [[S E]|(S & R & D & s & E)]; rewrite S.
    + cbn. split; [reflexivity|]. split; [reflexivity|]. left. exists r. auto.
    + cbn. split; [reflexivity|]. split; [reflexivity|]. right. left.
      exists s. rewrite E. reflexivity.
  - cbn. auto.
Qed.

(** X9. A run never lets an exception escape and prints exactly one line:
    either it returns, having printed one line on standard output and reset
    the [sentryUtil] variable, or it ends the process with status 1, having
    printed one line on standard error. *)
Theorem run_prints_one_line (command : string) (arg flag : option string) (w : World num) :
  let run := runCommand command arg flag w in
  (fst run = Return tt /\ sentryUtil (snd run) = None
   /\ exists line, console (snd run) = (console w ++ [Stdout line])%list)
  \/ (fst run = Exit 1
      /\ exists line, console (snd run) = (console w ++ [Stderr line])%list).
Proof.
  cbv zeta.
  destruct (run_cases command arg flag w) as [(e & -> & _)|(cfg & args & ap & _ & _ & _ & R)].
  { right. cbn. eauto. }
  destruct (selected command args (filtered args) (profile_for cfg args)
              (format_for cfg args)) as [c|]; [|rewrite R; right; cbn; eauto].
  destruct (forallb ToBoolean (identifiers c)); [|rewrite R; right; cbn; eauto].
  rewrite R.
  destruct (perform_summary c (initialized cfg w)) as (S & C & _).
  destruct (initialized_frame cfg w) as (_ & C0 & _). rewrite C0 in C.
  destruct (perform c (initialized cfg w)) as [out w1]. cbn [fst snd] in S, C.
  destruct (report_settled out w1 S) as (_ & _ & [(a & _ & _ & ->)|[(s & ->)| ->]]).
  - left. cbn. rewrite C. eauto.
  - right. cbn. rewrite C. eauto.
  - right. cbn. rewrite C. eauto.
Qed.

(** X10. A run sends at most one request and creates at most one client. *)
Theorem run_sends_at_most_one_request (command : string) (arg flag : option string)
  (w : World num) :
  let run := runCommand command arg flag w in
  (exists new, sent (snd run) = (sent w ++ new)%list /\ length new <= 1)
  /\ instances w <= instances (snd run) <= S (instances w).
Proof.
  cbv zeta.
  assert (Same : forall x : Outcome num unit * World num,
                   sent (snd x) = sent w -> instances (snd x) = instances w ->
                           (exists new, sent (snd x) = (sent w ++ new)%list /\ length new <= 1)
                           /\ instances w <= instances (snd x) <= S (instances w)).
  { intros x -> ->. split; [exists []; rewrite app_nil_r; auto|lia]. }
  destruct (run_cases command arg flag w) as [(e & -> & _)|(cfg & args & ap & _ & _ & _ & R)].
  { now apply Same. }
  destruct (selected command args (filtered args) (profile_for cfg args)
              (format_for cfg args)) as [c|]; [|rewrite R; now apply Same].
  destruct (forallb ToBoolean (identifiers c)); [|rewrite R; now apply Same].
  rewrite R.
  destruct (perform_summary c (initialized cfg w)) as (S & _ & I & new & E & L & _).
  destruct (initialized_frame cfg w) as (S0 & _ & I0). rewrite S0 in E. rewrite I0 in I.
  destruct (perform c (initialized cfg w)) as [out w1]. cbn [fst snd] in S, I, E.
  destruct (report_settled out w1 S) as (-> & -> & _).
  split; [exists new; auto|exact I].
Qed.


Lemma selected_None (command : string) (args ps profile format : JValue num) :
  selected command args ps profile format = None <-> ~ In command COMMANDS.
Proof.
  unfold selected, COMMANDS.
  repeat match goal with
         | |- context [if (command =? ?s) then _ else _] =>
             destruct (String.eqb_spec command s) as [->|?]
         end.
  all: try (split; [discriminate|intros N; exfalso; apply N; cbn; tauto]).
  split; [|reflexivity]. intros _ N. cbn in N. intuition congruence.
Qed.

Lemma with_stderr_inj (w : World num) (a b : string) :
  (console w ++ [Stderr a] = console w ++ [Stderr b])%list -> a = b.
Proof. intros E. apply app_inv_head in E. now injection E. Qed.

(** X11. The names of [COMMANDS] are exactly the names the [switch] has a
    case for. Once the configuration and the arguments are read, a run on any
    other name prints [Unknown command: <name>] on standard error and ends
    the process with status 1, everything else being as it was: no request,
    no client, the [sentryUtil] variable untouched. A run on a name of
    [COMMANDS] never ends that way. *)
Theorem unknown_command_rejected (command : string) (arg flag : option string)
  (cfg : Config) (args ap : JValue num) (w : World num) :
  loadConfig projectRoot = inr cfg ->
  parse_args arg = inr args ->
  Get args "profile" = inr ap ->
  (~ In command COMMANDS ->
   runCommand command arg flag w
   = (Exit 1,
      {| sentryUtil := sentryUtil w; instances := instances w; sent := sent w;
         console := (console w ++ [Stderr ("Unknown command: " ++ command)])%list |}))
  /\ (In command COMMANDS ->
      runCommand command arg flag w
      <> (Exit 1,
          {| sentryUtil := sentryUtil w; instances := instances w; sent := sent w;
             console := (console w ++ [Stderr ("Unknown command: " ++ command)])%list |})).
Proof.
  intros Hcfg Hargs Hp. rewrite runCommand_eq, Hcfg, Hargs, Hp.
  pose proof (selected_None command args (filtered args) (profile_for cfg args)
                (format_for cfg args)) as N.
  destruct (selected command args (filtered args) (profile_for cfg args)
              (format_for cfg args)) as [c|].
  - split; [intros K; apply N in K; discriminate|]. intros _.
    destruct (forallb ToBoolean (identifiers c)) eqn:V.
    + destruct (perform_summary c (initialized cfg w)) as (S & C & _).
      destruct (initialized_frame cfg w) as (_ & C0 & _). rewrite C0 in C.
      destruct (perform c (initialized cfg w)) as [out w1]. cbn [fst snd] in S, C.
      destruct (report_settled out w1 S) as (_ & _ & [(a & _ & _ & ->)|[(s & ->)| ->]]).
      * discriminate.
      * intros E. apply (f_equal (fun x => console (snd x))) in E. cbn [snd console with_stderr] in E.
        rewrite C in E. apply with_stderr_inj in E. discriminate.
      * intros E. apply (f_equal (fun x => console (snd x))) in E.
        cbn [snd console caught] in E.
        rewrite C in E. apply with_stderr_inj in E. discriminate.
    + intros E. apply (f_equal (fun x => console (snd x))) in E.
      cbn [snd console with_stderr] in E. apply with_stderr_inj in E.
      destruct c; cbn in V, E; discriminate.
  - split; [reflexivity|]. intros K. now apply N in K.
Qed.


Lemma selected_request (command : string) (args ps profile format : JValue num)
  (c : Call num) :
  selected command args ps profile format = Some c ->
  method_of c = (if command =? "update-issue" then PUT else GET)
  /\ body_of c = (if command =? "update-issue" then ps else JUndefined)
  /\ query_of c = (if existsb (String.eqb command) forwards_query then ps
                   else if command =? "test-connection"
                        then JObj [("limit", JNum (num_of_Z 1))]
                        else JUndefined).
Proof.
  unfold selected.
  repeat match goal with
         | |- context [if (command =? ?s) then _ else _] =>
             destruct (String.eqb_spec command s) as [->|?]
         end; intros [= <-]; repeat split.
Qed.

(** The requests of a run are the requests of the operation it calls. *)
Lemma run_requests (command : string) (arg flag : option string) (w : World num) :
  sent (snd (runCommand command arg flag w)) = sent w
  \/ exists cfg args ap c,
      loadConfig projectRoot = inr cfg /\ parse_args arg = inr args
      /\ Get args "profile" = inr ap
      /\ selected command args (filtered args) (profile_for cfg args)
           (format_for cfg args) = Some c
      /\ forallb ToBoolean (identifiers c) = true
      /\ runCommand command arg flag w = report (perform c (initialized cfg w))
      /\ sent (snd (runCommand command arg flag w))
         = sent (snd (perform c (initialized cfg w))).
Proof.
  destruct (run_cases command arg flag w) as [(e & -> & _)|(cfg & args & ap & Hc & Ha & Hp & R)].
  { now left. }
  destruct (selected command args (filtered args) (profile_for cfg args)
              (format_for cfg args)) as [c|] eqn:Es; [|rewrite R; now left].
  destruct (forallb ToBoolean (identifiers c)) eqn:V; [|rewrite R; now left].
  right. exists cfg, args, ap, c. repeat (split; [assumption|]).
  rewrite R. destruct (perform_summary c (initialized cfg w)) as (S & _).
  destruct (perform c (initialized cfg w)) as [out w1]. cbn [fst snd] in *.
  now destruct (report_settled out w1 S) as (-> & _).
Qed.

(** X12. What the request of a run carries is decided by the command
    alone. Only [update-issue] writes: its request is a PUT whose body is the
    filtered bag; every other request is a GET without a body. The filtered
    bag goes out as query parameters for the seven listing and tag commands,
    [test-connection] asks with [limit = 1], and the other commands
    ([get-issue], [update-issue], [get-event], [get-issue-event],
    [list-issue-hashes]) send no query parameters, whatever else the bag
    holds. *)
Theorem request_by_command (command : string) (arg flag : option string)
  (args ps : JValue num) (w : World num) :
  parse_args arg = inr args ->
  filterCliParams args = inr ps ->
  exists new,
    sent (snd (runCommand command arg flag w)) = (sent w ++ new)%list
    /\ Forall (fun r =>
                 method r = (if command =? "update-issue" then PUT else GET)
                 /\ body r = (if command =? "update-issue" then ps else JUndefined)
                 /\ params r = (if existsb (String.eqb command) forwards_query then ps
                                else if command =? "test-connection"
                                     then JObj [("limit", JNum (num_of_Z 1))]
                                     else JUndefined)) new.
Proof.
  intros Ha Hf.
  destruct (run_requests command arg flag w)
    as [E|(cfg & args' & ap & c & _ & Ha' & Hp & Hs & _ & _ & E)].
  { exists []. rewrite app_nil_r. auto. }
  rewrite Ha in Ha'. injection Ha' as <-.
  rewrite (filterCliParams_total args "profile" ap Hp) in Hf. injection Hf as <-.
  destruct (perform_summary c (initialized cfg w)) as (_ & _ & _ & new & Es & _ & F).
  destruct (initialized_frame cfg w) as (S0 & _). rewrite S0 in Es.
  exists new. split; [now rewrite E|].
  destruct (selected_request _ _ _ _ _ _ Hs) as (Hm & Hb & Hq).
  eapply Forall_impl; [|exact F]. cbn beta.
  intros r (u & o & ids & _ & _ & _ & ->). cbn [request_of method body params]. auto.
Qed.


(** The request of a run that starts without a [SentryUtil] instance, as at
    the start of the process and after any run that returned. *)
Lemma fresh_run_request (command : string) (arg flag : option string) (w : World num)
  (r : Request num) :
  sentryUtil w = None ->
  sent (snd (runCommand command arg flag w)) = (sent w ++ [r])%list ->
  exists cfg args o,
    loadConfig projectRoot = inr cfg /\ parse_args arg = inr args
    /\ getSentryClientOptions cfg (profile_for cfg args) = inr o
    /\ via r = new_client o w
    /\ instances (snd (runCommand command arg flag w)) = S (instances w).
Proof.
  intros Hw Hs.
  destruct (run_requests command arg flag w)
    as [E|(cfg & args & ap & c & Hc & Ha & Hp & Hsel & _ & R & E)].
  { rewrite E in Hs. now apply sent_grew in Hs. }
  assert (W0 : initialized cfg w = constructed cfg w) by (unfold initialized; now rewrite Hw).
  rewrite W0 in *. rewrite E in Hs.
  change (sent w) with (sent (constructed cfg w)) in Hs.
  destruct (perform_sent_one c _ r Hs) as (u & o & ids & Hu & Ho & _ & Hr & Ep).
  cbn [constructed sentryUtil] in Hu. injection Hu as <-. cbn [config] in Ho.
  destruct (selected_name _ _ _ _ _ _ Hsel) as (_ & Pc). rewrite Pc in *.
  exists cfg, args, o. repeat (split; [assumption|]).
  unfold client_for in Hr, Ep. cbn [clientPool Map_get fst snd] in Hr, Ep.
  split; [now rewrite Hr|].
  rewrite R, Ep.
  match goal with
  | |- instances (snd (report (?out, ?w1))) = _ =>
      assert (S : settles out)
        by (destruct (upstream (sent (constructed cfg w)) r);
            [apply settled_settles|apply finished_settles]);
      destruct (report_settled out w1 S) as (_ & -> & _)
  end.
  reflexivity.
Qed.

(** X13. In a run that starts without a [SentryUtil] instance (the start of
    the process, or the state any run that returned leaves), the request goes
    through a client created in that run for the profile named by the
    [profile] key of the bag, or by the default profile of the configuration
    when that key is absent or falsy: its base URL is the one of the profile
    and its headers are the bearer token of the profile and the JSON content
    type. *)
Theorem request_goes_through_selected_profile (command : string) (arg flag : option string)
  (cfg : Config) (args ap : JValue num) (w : World num) (r : Request num) :
  sentryUtil w = None ->
  loadConfig projectRoot = inr cfg ->
  parse_args arg = inr args ->
  Get args "profile" = inr ap ->
  sent (snd (runCommand command arg flag w)) = (sent w ++ [r])%list ->
  exists o,
    getSentryClientOptions cfg (or_else ap (JStr (defaultProfile cfg))) = inr o
    /\ via r = {| instance_id := instances w; baseURL := baseUrl o;
                  headers := [("Authorization", "Bearer " ++ authToken o);
                              ("Content-Type", "application/json")] |}
    /\ instances (snd (runCommand command arg flag w)) = S (instances w).
Proof.
  intros Hw Hc Ha Hp Hs.
  destruct (fresh_run_request command arg flag w r Hw Hs)
    as (cfg' & args' & o & Hc' & Ha' & Ho & Hv & Hi).
  rewrite Hc in Hc'. injection Hc' as <-. rewrite Ha in Ha'. injection Ha' as <-.
  exists o. split; [|split; [exact Hv|exact Hi]].
  unfold profile_for in Ho. pose proof (Get_GetOpt args "profile" "profile" ap Hp) as G.
  rewrite Hp in G. injection G as ->. exact Ho.
Qed.

(** X14. Clients are not shared between runs: when a run that started
    without an instance returns, the instance is gone again, and the request
    of the next run goes through a client created after the one of the
    first. *)
Theorem clients_are_not_shared_between_runs (command1 command2 : string)
  (arg1 flag1 arg2 flag2 : option string) (w w1 : World num) (r1 r2 : Request num) :
  sentryUtil w = None ->
  runCommand command1 arg1 flag1 w = (Return tt, w1) ->
  sent w1 = (sent w ++ [r1])%list ->
  sent (snd (runCommand command2 arg2 flag2 w1)) = (sent w1 ++ [r2])%list ->
  sentryUtil w1 = None
  /\ instance_id (via r2) = S (instance_id (via r1))
  /\ via r2 <> via r1.
Proof.
  intros Hw R1 S1 S2.
  assert (Hw1 : sentryUtil w1 = None)
    by exact (DispatchSpec.runCommand_returns_cleared _ _ _ _ _ R1).
  assert (S1' : sent (snd (runCommand command1 arg1 flag1 w)) = (sent w ++ [r1])%list)
    by now rewrite R1.
  destruct (fresh_run_request _ _ _ _ _ Hw S1') as (_ & _ & o1 & _ & _ & _ & V1 & I1).
  destruct (fresh_run_request _ _ _ _ _ Hw1 S2) as (_ & _ & o2 & _ & _ & _ & V2 & _).
  rewrite R1 in I1. cbn [snd] in I1.
  assert (E : instance_id (via r2) = S (instance_id (via r1))).
  { rewrite V1, V2. cbn. exact I1. }
  split; [exact Hw1|]. split; [exact E|].
  intros K. rewrite K in E. lia.
Qed.


Lemma selected_ext (command : string) (a1 a2 ps profile format : JValue num) :
  (forall k, In k ["projectSlug"; "issueId"; "eventId"; "tagKey"] ->
             GetOpt a1 k = GetOpt a2 k) ->
  selected command a1 ps profile format = selected command a2 ps profile format.
Proof.
  intros E. unfold selected.
  rewrite (E "projectSlug"), (E "issueId"), (E "eventId"), (E "tagKey") by (cbn; tauto).
  reflexivity.
Qed.

(** Two argument texts give the same run when their bags read alike. *)
Lemma run_ext (command : string) (arg1 arg2 flag : option string)
  (a1 a2 ap1 ap2 : JValue num) (w : World num) :
  parse_args arg1 = inr a1 -> parse_args arg2 = inr a2 ->
  Get a1 "profile" = inr ap1 -> Get a2 "profile" = inr ap2 ->
  (forall d, or_else (GetOpt a1 "profile") d = or_else (GetOpt a2 "profile") d) ->
  (forall d, or_else (GetOpt a1 "format") d = or_else (GetOpt a2 "format") d) ->
  (forall k, In k ["projectSlug"; "issueId"; "eventId"; "tagKey"] ->
             GetOpt a1 k = GetOpt a2 k) ->
  filtered a1 = filtered a2 ->
  runCommand command arg1 flag w = runCommand command arg2 flag w.
Proof.
  intros H1 H2 P1 P2 Ep Ef Ek Efil.
  rewrite !runCommand_eq, H1, H2, P1, P2.
  destruct (loadConfig projectRoot) as [e|cfg]; [reflexivity|].
  unfold profile_for, format_for. rewrite Ep, Ef, Efil.
  now rewrite (selected_ext command a1 a2 _ _ _ Ek).
Qed.

Lemma GetOpt_without (k k' : string) (m : list (string * JValue num)) :
  k' <> k -> GetOpt (JObj (without k m)) k' = GetOpt (JObj m) k'.
Proof.
  intros N. unfold GetOpt, Get, without.
  rewrite (FilterSpec.lookup_filter_in (fun x => negb (x =? k))); [reflexivity|].
  now destruct (String.eqb_spec k' k).
Qed.

Lemma filtered_without (k : string) (m : list (string * JValue num)) :
  is_cli_key k = true -> filtered (JObj (without k m)) = filtered (JObj m).
Proof.
  intros Hk. unfold filtered, without. cbn [own_properties]. f_equal.
  induction m as [|[k' v] m IH]; [reflexivity|]. cbn [filter fst].
  destruct (String.eqb_spec k' k) as [->|N]; cbn [negb].
  - rewrite Hk. cbn [negb]. exact IH.
  - cbn [filter fst]. now rewrite IH.
Qed.

(** X15. A [profile] or [format] key that is present with a falsy value
    (the empty string, [0], [false], [null]) is the same as no such key: the
    run is the run on the bag without it, which takes the default of the
    configuration. *)
Theorem falsy_profile_or_format_as_absent (k command : string)
  (arg1 arg2 flag : option string) (m : list (string * JValue num)) (v : JValue num)
  (w : World num) :
  k = "profile" \/ k = "format" ->
  parse_args arg1 = inr (JObj m) ->
  lookup k m = Some v -> ToBoolean v = false ->
  parse_args arg2 = inr (JObj (without k m)) ->
  runCommand command arg1 flag w = runCommand command arg2 flag w.
Proof.
  intros Hk H1 Hm Hv H2.
  assert (Ev : GetOpt (JObj m) k = v) by (unfold GetOpt, Get; now rewrite Hm).
  assert (Eu : GetOpt (JObj (without k m)) k = JUndefined)
    by (unfold GetOpt, Get; now rewrite DispatchSpec.lookup_without).
  assert (Eo : forall d, or_else (GetOpt (JObj m) k) d
                         = or_else (GetOpt (JObj (without k m)) k) d).
  { intros d. rewrite Ev, Eu. unfold or_else. now rewrite Hv. }
  apply (run_ext command arg1 arg2 flag (JObj m) (JObj (without k m))
           (GetOpt (JObj m) "profile") (GetOpt (JObj (without k m)) "profile"));
    try assumption; try reflexivity.
  - destruct Hk as [->| ->]; [exact Eo|]. intros d. now rewrite GetOpt_without.
  - destruct Hk as [->| ->]; [|exact Eo]. intros d. now rewrite GetOpt_without.
  - intros k' Hk'. symmetry. apply GetOpt_without.
    cbn in Hk'. destruct Hk as [->| ->]; intuition (subst; discriminate).
  - symmetry. apply filtered_without. now destruct Hk as [->| ->].
Qed.

(** X16. An argument text that parses to a number or a boolean is taken as
    the empty bag: reading a key of it gives [undefined] and the rest pattern
    of [filterCliParams] copies nothing. *)
Theorem primitive_argument_as_empty_bag (command : string)
  (arg1 arg2 flag : option string) (v : JValue num) (w : World num) :
  parse_args arg1 = inr v ->
  (exists n, v = JNum n) \/ (exists b, v = JBool b) ->
  parse_args arg2 = inr (JObj []) ->
  runCommand command arg1 flag w = runCommand command arg2 flag w.
Proof.
  intros H1 Hv H2.
  apply (run_ext command arg1 arg2 flag v (JObj []) JUndefined JUndefined);
    try assumption; try reflexivity;
    destruct Hv as [(n & ->)|(b & ->)]; reflexivity.
Qed.

(** X17. An exception before the [switch] (the configuration does not load,
    the argument text is not JSON, or it parses to [null], whose [profile]
    cannot be read) is reported on standard error as
    [Error executing command: <message>]; the process ends with status 1,
    nothing is sent, and the [sentryUtil] variable is reset. *)
Theorem failure_before_dispatch (command : string) (arg flag : option string)
  (e : Thrown num) (w : World num) :
  loadConfig projectRoot = inl e
  \/ (exists cfg, loadConfig projectRoot = inr cfg)
     /\ (parse_args arg = inl e
         \/ exists args, parse_args arg = inr args /\ Get args "profile" = inl e) ->
  runCommand command arg flag w
  = (Exit 1,
     {| sentryUtil := None; instances := instances w; sent := sent w;
        console := (console w
                      ++ [Stderr ("Error executing command: " ++ message_of e)])%list |}).
Proof.
  rewrite runCommand_eq.
  intros [-> |((cfg & ->) & [-> |(args & -> & ->)])]; reflexivity.
Qed.

Lemma selected_format (command : string) (args ps profile format : JValue num)
  (c : Call num) :
  selected command args ps profile format = Some c ->
  command <> "update-issue" -> command <> "test-connection" ->
  format_of c = Some (or_json format).
Proof.
  unfold selected.
  repeat match goal with
         | |- context [if (command =? ?s) then _ else _] =>
             destruct (String.eqb_spec command s) as [->|?]
         end; intros [= <-] N1 N2; try reflexivity; contradiction.
Qed.

(** X18. A run of one of the eleven rendering commands whose request the
    upstream answers with the body [d], under any format other than [toon],
    prints [JSON.stringify(d, null, 2)] on standard output and returns, the
    [sentryUtil] variable reset. *)
Theorem answered_run_prints_json (command : string) (arg flag : option string)
  (cfg : Config) (args af : JValue num) (w : World num) (r : Request num)
  (d : JValue num) :
  loadConfig projectRoot = inr cfg ->
  parse_args arg = inr args ->
  Get args "format" = inr af ->
  or_else af (JStr (defaultFormat cfg)) <> JStr "toon" ->
  command <> "update-issue" -> command <> "test-connection" ->
  sent (snd (runCommand command arg flag w)) = (sent w ++ [r])%list ->
  upstream (sent w) r = inr d ->
  fst (runCommand command arg flag w) = Return tt
  /\ sentryUtil (snd (runCommand command arg flag w)) = None
  /\ console (snd (runCommand command arg flag w))
     = (console w ++ [Stdout (shown (formatAsJson d))])%list.
Proof.
  intros Hc Ha Hf Hn N1 N2 Hs Hu.
  destruct (run_requests command arg flag w)
    as [E|(cfg' & args' & ap & c & Hc' & Ha' & Hp & Hsel & _ & R & E)].
  { rewrite E in Hs. now apply sent_grew in Hs. }
  rewrite Hc in Hc'. injection Hc' as <-. rewrite Ha in Ha'. injection Ha' as <-.
  destruct (initialized_frame cfg w) as (S0 & C0 & _).
  rewrite E, <- S0 in Hs.
  destruct (perform_sent_one c _ r Hs) as (u & o & ids & _ & _ & _ & _ & Ep).
  rewrite S0, Hu in Ep.
  pose proof (selected_format _ _ _ _ _ _ Hsel N1 N2) as Fc.
  rewrite (finished_rendering c _ o d Fc) in Ep.
  assert (Ef : format_for cfg args = or_else af (JStr (defaultFormat cfg))).
  { unfold format_for. pose proof (Get_GetOpt args "format" "format" af Hf) as G.
    rewrite Hf in G. now injection G as ->. }
  assert (T : is_toon (or_json (or_json (format_for cfg args))) = false).
  { apply is_toon_other. rewrite Ef.
    destruct (or_else af (JStr (defaultFormat cfg))); try discriminate; assumption. }
  unfold formatted in Ep. rewrite T in Ep. cbn [caught_by] in Ep.
  rewrite R, Ep. cbn [report success result fst snd sentryUtil console with_request].
  pose proof (client_for_frame u (profile_of c) o (initialized cfg w)) as (_ & Fc' & _).
  cbv zeta in Fc'. rewrite Fc', C0. auto.
Qed.


(** X19. A run whose request the upstream fails with [e] (a transport error
    or a non-2xx answer) prints [ERROR: ] followed by the message of the
    operation for [e] on standard error and ends the process with status 1;
    the instance of the class, with its pool, is left in place. When that
    message has no string conversion, the [TypeError] of the conversion is
    what the run reports, as an exception of the command. *)
Theorem failed_run_reports_error (command : string) (arg flag : option string)
  (w : World num) (r : Request num) (e : Thrown num) :
  sent (snd (runCommand command arg flag w)) = (sent w ++ [r])%list ->
  upstream (sent w) r = inl e ->
  match ToString (errorMessage e) with
  | Some s =>
      fst (runCommand command arg flag w) = Exit 1
      /\ console (snd (runCommand command arg flag w))
         = (console w ++ [Stderr ("ERROR: " ++ s)])%list
      /\ sentryUtil (snd (runCommand command arg flag w)) <> None
  | None =>
      fst (runCommand command arg flag w) = Exit 1
      /\ console (snd (runCommand command arg flag w))
         = (console w
              ++ [Stderr ("Error executing command: "
                            ++ "Cannot convert object to primitive value")])%list
      /\ sentryUtil (snd (runCommand command arg flag w)) = None
  end.
Proof.
  intros Hs Hu.
  destruct (run_requests command arg flag w)
    as [E|(cfg & args & ap & c & _ & _ & _ & _ & _ & R & E)].
  { rewrite E in Hs. now apply sent_grew in Hs. }
  destruct (initialized_frame cfg w) as (S0 & C0 & _).
  rewrite E, <- S0 in Hs.
  destruct (perform_sent_one c _ r Hs) as (u & o & ids & Hu0 & _ & _ & _ & Ep).
  rewrite S0, Hu in Ep.
  destruct (client_for_frame u (profile_of c) o (initialized cfg w)) as (_ & Fc & _).
  assert (Some_u : sentryUtil (snd (client_for u (profile_of c) o (initialized cfg w)))
                   <> None).
  { unfold client_for. destruct (Map_get (clientPool u) (profile_of c)); cbn [snd].
    - now rewrite Hu0.
    - discriminate. }
  rewrite R, Ep. unfold settled.
  destruct (ToString (errorMessage e)) as [s|];
    cbn [report failure success error shown fst snd with_stderr with_request caught
         sentryUtil console message_of TypeError_primitive];
    rewrite Fc, C0; auto.
Qed.


(** The invariant of the pool only looks at the instance and at the number
    of clients created. *)
Lemma cache_ok_frame (w w' : World num) :
  sentryUtil w' = sentryUtil w -> instances w' = instances w ->
  cache_ok w -> cache_ok w'.
Proof. unfold cache_ok. now intros -> ->. Qed.

Lemma cache_ok_perform (c : Call num) (w : World num) :
  cache_ok w -> cache_ok (snd (perform c w)).
Proof.
  intros Hw. pose proof (cache_ok_getClient (profile_of c) w Hw) as Hg.
  rewrite getClient_eq in Hg. rewrite perform_eq.
  destruct (sentryUtil w) as [u|] eqn:Hu; [|exact Hw].
  destruct (getSentryClientOptions (config u) (profile_of c)) as [e|o]; [exact Hw|].
  assert (K : cache_ok (snd (client_for u (profile_of c) o w))).
  { unfold client_for. destruct (Map_get (clientPool u) (profile_of c)); exact Hg. }
  destruct (client_for u (profile_of c) o w) as [client w1]. cbn [snd] in K.
  destruct (strings_of (map ToString (identifiers c))); [|exact K].
  cbv zeta. cbn [snd]. now apply (cache_ok_frame w1).
Qed.

(** X20. The invariant of the client pool (at most one client per profile
    name, every client created before now, under a name the configuration
    resolves) is kept by each of the thirteen operations, by the wrapper
    functions and by [runCommand], whatever their outcome. *)
Theorem pool_invariant_is_kept (c : Call num) (command : string) (arg flag : option string)
  (w : World num) :
  cache_ok w ->
  cache_ok (snd (perform c w))
  /\ cache_ok (snd (wrapper c w))
  /\ cache_ok (snd (runCommand command arg flag w)).
Proof.
  intros Hw.
  assert (Hi : forall cfg, cache_ok (initialized cfg w)).
  { intros cfg. unfold initialized. destruct (sentryUtil w) eqn:Hu; [exact Hw|].
    apply cache_ok_constructed. }
  split; [now apply cache_ok_perform|]. split.
  - rewrite wrapper_eq. unfold bind. rewrite initSentry_eq.
    destruct (sentryUtil w) eqn:Hu; [now apply cache_ok_perform|].
    destruct (loadConfig projectRoot) as [e|cfg]; [exact Hw|].
    apply cache_ok_perform. apply cache_ok_constructed.
  - destruct (run_cases command arg flag w)
      as [(e & -> & _)|(cfg & args & ap & _ & _ & _ & R)]; [exact I|].
    destruct (selected command args (filtered args) (profile_for cfg args)
                (format_for cfg args)) as [c'|];
      [|rewrite R; now apply (cache_ok_frame w)].
    destruct (forallb ToBoolean (identifiers c'));
      [|rewrite R; now apply (cache_ok_frame w)].
    rewrite R. pose proof (cache_ok_perform c' _ (Hi cfg)) as Hp.
    destruct (perform c' (initialized cfg w)) as [[a|e|k] w1]; cbn [snd report] in *.
    + destruct (success a); [exact I|]. now apply (cache_ok_frame w1).
    + exact I.
    + exact Hp.
Qed.

End Runs.
End RunFacts.

(** ** The help text and the validation *)

Module HelpFacts.
Import Str JS Config Effects SentryUtils Runner Spec Constants Table.
Import OperationFacts RunFacts.
Local Open Scope effect_scope.

Section Help.
Context {num : Type} `{JSNumber num} `{!Externals num}.

Lemma includes_required1 (f : string) : includes (required1 f) (quoted f).
Proof. exists "ERROR: ", " parameter is required". reflexivity. Qed.

Lemma includes_required2_l (f g : string) : includes (required2 f g) (quoted f).
Proof. exists "ERROR: ", (" and " ++ quoted g ++ " parameters are required"). reflexivity. Qed.

Lemma includes_required2_r (f g : string) : includes (required2 f g) (quoted g).
Proof.
  exists ("ERROR: " ++ quoted f ++ " and "), " parameters are required".
  unfold required2. now rewrite !StrFacts.append_assoc.
Qed.

Ltac validated Hp :=
  cbv zeta;
  match goal with
  | |- context [marked_required ?d] =>
      let marked := fresh "marked" in
      set (marked := marked_required d); vm_compute in marked; subst marked
  end;
  cbn [forallb];
  match goal with
  | |- context [dispatch ?command ?args ?profile ?format ?w] =>
      rewrite (dispatch_eq command args (filtered args) profile format _ "profile" w Hp
                 (filterCliParams_total args "profile" _ Hp))
  end;
  unfold selected; cbn [String.eqb Ascii.eqb Bool.eqb];
  cbn [identifiers forallb validation_message];
  repeat match goal with
         | |- context [ToBoolean ?x] => destruct (ToBoolean x)
         end;
  cbn [andb];
  first
    [ eexists; split; [|reflexivity]; reflexivity
    | eexists; split; [reflexivity|];
      intros field Hin; cbn [In] in Hin;
      repeat (destruct Hin as [<-|Hin];
              [ first [ apply includes_required1
                      | apply includes_required2_l
                      | apply includes_required2_r ] |]);
      destruct Hin ].

(** X21. The three tables of [constants.ts] are aligned, and the help text
    agrees with the validation of [runCommand]: for the command at any index,
    the parameters that the lines of its help text mark [(required)],
    whatever their names, are the fields the [switch] checks. When the bag
    holds a truthy value for each of them the operation of that command is
    called; otherwise the process ends with a message on standard error that
    names each of them. *)
Theorem help_marks_the_validated_fields :
  length COMMANDS_INFO = length COMMANDS
  /\ length COMMANDS_DETAIL = length COMMANDS
  /\ NoDup COMMANDS
  /\ forall (i : nat) (command detail : string) (args profile format ap : JValue num)
            (w : World num),
      nth_error COMMANDS i = Some command ->
      nth_error COMMANDS_DETAIL i = Some detail ->
      Get args "profile" = inr ap ->
      let marked := marked_required detail in
      if forallb (fun field => ToBoolean (GetOpt args field)) marked
      then exists c,
             name_of c = command
             /\ dispatch command args profile format w
                = (SentryClient.initSentry ;; perform c) w
      else exists msg,
             dispatch command args profile format w = (Exit 1, with_stderr w msg)
             /\ forall field, In field marked -> includes msg (quoted field).
Proof.
  split; [reflexivity|]. split; [reflexivity|]. split.
  { assert (E : nodup string_dec COMMANDS = COMMANDS) by (vm_compute; reflexivity).
    rewrite <- E. apply NoDup_nodup. }
  intros i command detail args profile format ap w Hc Hd Hp.
  unfold COMMANDS in Hc. unfold COMMANDS_DETAIL in Hd.
  do 13 (destruct i as [|i];
         [ cbn [nth_error] in Hc, Hd; injection Hc as <-; injection Hd as <-;
           validated Hp |]).
  cbn [nth_error] in Hc. destruct i; discriminate.
Qed.

End Help.
End HelpFacts.

(** ** Scenarios in the sample environment *)

Module Scenarios.
Import Str JS Config Effects SentryUtils Runner Sample Spec Cases.
Import CacheSpec OperationSpec DispatchSpec.

(** C1. [get-issue] on [{"issueId":"123"}] against an upstream that answers
    404: the error is printed and the process ends with status 1 while the
    [sentryUtil] instance is still set and its pool still holds the client
    of the profile; [clearClients] has not run. *)
Theorem api_error_exits_before_clearClients :
  let run := @runCommand Z Z_number (environment (fails not_found)) "get-issue"
               (Some (object_text [pair_text "issueId" "123"])) None start in
  fst run = Exit 1
  /\ console (snd run) = [Stderr "ERROR: Issue not found"]
  /\ exists u c,
      sentryUtil (snd run) = Some u /\ clientPool u = [(JStr "production", c)].
Proof.
  cbv zeta. split; [|split].
  - vm_compute. reflexivity.
  - vm_compute. reflexivity.
  - eexists. eexists. split; vm_compute; reflexivity.
Qed.

(** The same command against an upstream that answers 200 returns with the
    cache cleared. *)
Example success_clears :
  let run := @runCommand Z Z_number (environment (answers issue_123)) "get-issue"
               (Some (object_text [pair_text "issueId" "123"])) None start in
  fst run = Return tt
  /\ sentryUtil (snd run) = None
  /\ console (snd run)
     = [Stdout ("{" ++ nl ++ "  " ++ quoted "id" ++ ": " ++ quoted "123" ++ "," ++ nl
                    ++ "  " ++ quoted "status" ++ ": " ++ quoted "unresolved" ++ nl ++ "}")].
Proof.
  cbv zeta. repeat split; vm_compute; reflexivity.
Qed.

(** C2 as worded, with the single-field message for every command, fails for
    a command with two required fields: [get-event] without [eventId] prints
    the message that names both fields, not
    [ERROR: "eventId" parameter is required]. *)
Lemma get_event_names_both_fields :
  let run := @runCommand Z Z_number (environment (answers JNull)) "get-event"
               (Some (object_text [pair_text "projectSlug" "p"])) None start in
  fst run = Exit 1
  /\ console (snd run)
     = [Stderr ("ERROR: " ++ quoted "projectSlug" ++ " and " ++ quoted "eventId"
                          ++ " parameters are required")]
  /\ console (snd run)
     <> [Stderr ("ERROR: " ++ quoted "eventId" ++ " parameter is required")].
Proof.
  cbv zeta. split; [|split].
  - vm_compute. reflexivity.
  - vm_compute. reflexivity.
  - vm_compute. discriminate.
Qed.

Lemma required_field_missing_witness :
  @runCommand Z Z_number (environment (answers JNull)) "get-event"
    (Some (object_text [pair_text "projectSlug" "p"])) None start
  = (Exit 1,
     {| sentryUtil := None; instances := 0; sent := [];
        console := [Stderr (required_message ["projectSlug"; "eventId"])] |})
  /\ includes (required_message ["projectSlug"; "eventId"]) (quoted "eventId").
Proof.
  destruct (@required_field_missing Z Z_number (environment (answers JNull))
              "get-event" ["projectSlug"; "eventId"] "eventId"
              (Some (object_text [pair_text "projectSlug" "p"])) None sample_config
              [("projectSlug", JStr "p")] start) as (R & I & _).
  - cbn. tauto.
  - cbn. tauto.
  - reflexivity.
  - vm_compute. reflexivity.
  - reflexivity.
  - split; [exact R|exact I].
Defined.

Lemma falsy_field_as_missing_witness :
  @runCommand Z Z_number (environment (answers JNull)) "get-issue"
    (Some (object_text [pair_text "issueId" ""])) None start
  = @runCommand Z Z_number (environment (answers JNull)) "get-issue"
      (Some (object_text [])) None start.
Proof.
  apply (@falsy_field_as_missing Z Z_number (environment (answers JNull))
           "get-issue" ["issueId"] "issueId"
           (Some (object_text [pair_text "issueId" ""])) (Some (object_text [])) None
           [("issueId", JStr "")] (JStr "") start).
  - cbn. tauto.
  - cbn. tauto.
  - vm_compute. reflexivity.
  - reflexivity.
  - reflexivity.
  - vm_compute. reflexivity.
Defined.

(** C4 as worded, with the [detail] field used whenever it is present, fails
    when the field is present but falsy: with the body [{"detail": ""}] the
    error string is built from the message of the axios error, not from the
    field. *)
Lemma empty_detail_is_passed_over :
  let r := fst (@getIssue Z Z_number (environment (fails not_found_empty_detail))
                  (JStr "production") (JStr "123") (JStr "json") ready) in
  lookup "detail" [("detail", @JStr Z "")] = Some (JStr "")
  /\ r = Return (failure "Request failed with status code 404")
  /\ r <> Return (failure "").
Proof.
  cbv zeta. split; [reflexivity|]. split.
  - vm_compute. reflexivity.
  - vm_compute. discriminate.
Qed.

(** The scenario of the spec: 404 with [{"detail":"Issue not found"}]. *)
Example detail_is_reported :
  fst (@getIssue Z Z_number (environment (fails not_found))
         (JStr "production") (JStr "123") (JStr "json") ready)
  = Return (failure "Issue not found").
Proof. vm_compute. reflexivity. Qed.

Lemma updateIssue_confirmation_witness :
  fst (@updateIssue Z Z_number (environment (answers issue_123))
         (JStr "production") (JStr "123") (JObj [("status", JStr "resolved")]) ready)
  = Return {| success := true;
              result := Some "✅ Issue 123 updated successfully!";
              data := issue_123; error := None |}.
Proof.
  pose (env := environment (answers issue_123)).
  pose (client := {| instance_id := 0; baseURL := "https://sentry.io/api/0";
                     headers := [("Authorization", "Bearer secret");
                                 ("Content-Type", "application/json")] |}).
  pose (w1 := snd (@getClient Z Z_number env (JStr "production") ready)).
  destruct (@updateIssue_confirmation Z Z_number env
              (JStr "production") (JStr "123") (JObj [("status", JStr "resolved")])
              issue_123 ready w1 client production "123") as (E & _).
  - vm_compute. reflexivity.
  - vm_compute. reflexivity.
  - reflexivity.
  - reflexivity.
  - fold env. rewrite E. reflexivity.
Defined.

Lemma client_cache_contract_witness :
  exists c1 w1 w2 c2 w3,
    @getClient Z Z_number (environment (answers JNull)) (JStr "production") ready
    = (Return c1, w1)
    /\ @getClient Z Z_number (environment (answers JNull)) (JStr "production") w1
       = (Return c1, w1)
    /\ @SentryUtils.clearClients Z w1 = (Return tt, w2)
    /\ @getClient Z Z_number (environment (answers JNull)) (JStr "production") w2
       = (Return c2, w3)
    /\ c2 <> c1.
Proof.
  pose (env := environment (answers JNull)).
  destruct (@client_cache_contract Z Z_number env ready
              (@cache_ok_constructed Z Z_number env sample_config start))
    as (_ & _ & _ & K).
  eexists. eexists.
  destruct (K "production" _ _ eq_refl) as (Same & w2 & c2 & w3 & C & G & _ & _ & N).
  exists w2, c2, w3. repeat split; eassumption.
Defined.

(** The scenario of the spec: [update-issue] against an upstream that
    answers 200, whatever the body. *)
Example update_issue_scenario (b : JValue Z) :
  fst (@runCommand Z Z_number (environment (answers b)) "update-issue"
         (Some (object_text [pair_text "issueId" "123"; pair_text "status" "resolved"]))
         None start)
  = Return tt
  /\ console (snd (@runCommand Z Z_number (environment (answers b)) "update-issue"
                     (Some (object_text [pair_text "issueId" "123";
                                         pair_text "status" "resolved"]))
                     None start))
     = [Stdout "✅ Issue 123 updated successfully!"].
Proof. split; vm_compute; reflexivity. Qed.

Lemma json_round_trip_witness :
  @formatAsJson Z Z_number payload = Some (@pretty Z Z_number 0 payload)
  /\ @JSON.parse Z Z_number (@pretty Z Z_number 0 payload) = Some payload.
Proof.
  apply (@JSONSpec.json_round_trip Z Z_number JSONSpec.Z_number_laws
           (environment (answers JNull)) payload start).
  cbn. repeat split; repeat constructor; cbn; intuition discriminate.
Defined.

End Scenarios.

(** ** The properties at work in the sample environment *)

Module Walkthrough.
Import Str JS JSON Config Effects SentryUtils Runner Sample Spec Cases Constants Table Fixtures.
Import OperationFacts RunFacts HelpFacts.

Lemma unresolved_profile_fails_witness :
  @getIssue Z Z_number (answering JNull) (JStr "staging") (JStr "1") (JStr "json") ready
  = (Return (failure "Profile not found: staging"), ready).
Proof.
  destruct (@unresolved_profile_fails Z Z_number (answering JNull)
              (GetIssue (JStr "staging") (JStr "1") (JStr "json"))
              {| config := sample_config; clientPool := [] |}
              (Error "Profile not found: staging") ready eq_refl eq_refl) as (E & _ & _).
  exact E.
Defined.

Lemma operation_sends_its_request_witness :
  sent (snd (@getEvent Z Z_number (answering JNull)
               (JStr "production") (JStr "web") (JStr "abc") (JStr "json") ready))
  = [get0 "/projects/acme/web/events/abc/"].
Proof.
  exact (@operation_sends_its_request Z Z_number (answering JNull)
           (GetEvent (JStr "production") (JStr "web") (JStr "abc") (JStr "json"))
           ready connected client0 production eq_refl eq_refl).
Defined.

Lemma answered_operation_renders_json_witness :
  fst (@getIssue Z Z_number (answering issue_123)
         (JStr "production") (JStr "123") (JStr "yaml") ready)
  = Return {| success := true; data := issue_123; result := Some issue_123_text;
              error := None |}.
Proof.
  exact (f_equal fst
           (@answered_operation_renders_json Z Z_number (answering issue_123)
              (GetIssue (JStr "production") (JStr "123") (JStr "yaml")) (JStr "yaml")
              ready connected client0 production ["123"] issue_123
              eq_refl ltac:(discriminate) eq_refl eq_refl eq_refl eq_refl)).
Defined.

Lemma answered_operation_renders_toon_witness :
  fst (@getIssue Z Z_number (answering JNull)
         (JStr "production") (JStr "123") (JStr "toon") ready)
  = Return {| success := true; data := JNull; result := Some ""; error := None |}
  /\ fst (@getIssue Z Z_number (answering issue_123)
            (JStr "production") (JStr "123") (JStr "toon") ready)
     = Return (failure "encode was called").
Proof.
  split.
  - destruct (@answered_operation_renders_toon Z Z_number (answering JNull)
                (GetIssue (JStr "production") (JStr "123") (JStr "toon"))
                ready connected client0 production ["123"] JNull
                eq_refl eq_refl eq_refl eq_refl eq_refl) as (E & _ & _).
    exact (f_equal fst (E eq_refl)).
  - destruct (@answered_operation_renders_toon Z Z_number (answering issue_123)
                (GetIssue (JStr "production") (JStr "123") (JStr "toon"))
                ready connected client0 production ["123"] issue_123
                eq_refl eq_refl eq_refl eq_refl eq_refl) as (_ & _ & E).
    exact (f_equal fst (E (Error "encode was called") eq_refl eq_refl)).
Defined.

Lemma testConnection_reports_profile_witness :
  fst (@testConnection Z Z_number (answering (JArr [])) (JStr "production") ready)
  = Return {| success := true;
              data := JObj [("organization", JStr "acme");
                            ("baseUrl", JStr "https://sentry.io/api/0")];
              result := Some ("✅ Connection successful!" ++ nl ++ nl
                              ++ "Profile: production" ++ nl
                              ++ "Organization: acme" ++ nl
                              ++ "Base URL: https://sentry.io/api/0" ++ nl
                              ++ "Status: Connected");
              error := None |}.
Proof.
  exact (f_equal fst
           (@testConnection_reports_profile Z Z_number (answering (JArr []))
              (JStr "production") ready connected client0 production "production"
              (JArr []) eq_refl eq_refl eq_refl eq_refl)).
Defined.

Lemma client_is_reused_between_operations_witness :
  let env := answering JNull in
  let w1 := snd (@getIssue Z Z_number env (JStr "production") (JStr "1") (JStr "json") ready) in
  let w2 := snd (@listIssueHashes Z Z_number env (JStr "production") (JStr "1") (JStr "json")
                   w1) in
  sent w2 = [get0 "/organizations/acme/issues/1/"; get0 "/organizations/acme/issues/1/hashes/"]
  /\ instances w2 = instances w1.
Proof.
  cbv zeta. split; [reflexivity|].
  apply (@client_is_reused_between_operations Z Z_number (answering JNull)
           (GetIssue (JStr "production") (JStr "1") (JStr "json"))
           (ListIssueHashes (JStr "production") (JStr "1") (JStr "json"))
           "production" ready
           (get0 "/organizations/acme/issues/1/")
           (get0 "/organizations/acme/issues/1/hashes/")); reflexivity.
Defined.

Lemma unknown_command_rejected_witness :
  @runCommand Z Z_number (answering JNull) "delete-issue" issue_arg None start
  = (Exit 1,
     {| sentryUtil := None; instances := 0; sent := [];
        console := [Stderr "Unknown command: delete-issue"] |}).
Proof.
  apply (proj1 (@unknown_command_rejected Z Z_number (answering JNull)
                  "delete-issue" issue_arg None sample_config
                  (JObj [("issueId", JStr "123")]) JUndefined start
                  eq_refl eq_refl eq_refl)).
  intros Hin. vm_compute in Hin.
  repeat (destruct Hin as [Hin|Hin]; [discriminate|]). exact Hin.
Defined.

Lemma request_by_command_witness :
  exists new,
    sent (snd (@runCommand Z Z_number (answering JNull) "get-issue"
                 (Some (object_text [pair_text "issueId" "123"; pair_text "query" "x"]))
                 None start)) = new
    /\ Forall (fun r => method r = GET /\ body r = JUndefined /\ params r = JUndefined) new.
Proof.
  exact (@request_by_command Z Z_number (answering JNull) "get-issue"
           (Some (object_text [pair_text "issueId" "123"; pair_text "query" "x"])) None
           (JObj [("issueId", JStr "123"); ("query", JStr "x")])
           (JObj [("query", JStr "x")]) start eq_refl eq_refl).
Defined.

Lemma request_goes_through_selected_profile_witness :
  exists o,
    resolveProfile sample_config (JStr "production") = inr o
    /\ via (get0 "/organizations/acme/issues/123/")
       = {| instance_id := 0; baseURL := baseUrl o;
            headers := [("Authorization", "Bearer " ++ authToken o);
                        ("Content-Type", "application/json")] |}
    /\ instances (snd (@runCommand Z Z_number (answering JNull) "get-issue" issue_arg None
                         start)) = 1.
Proof.
  exact (@request_goes_through_selected_profile Z Z_number (answering JNull)
           "get-issue" issue_arg None sample_config (JObj [("issueId", JStr "123")])
           JUndefined start (get0 "/organizations/acme/issues/123/")
           eq_refl eq_refl eq_refl eq_refl eq_refl).
Defined.

Lemma clients_are_not_shared_between_runs_witness :
  let env := answering issue_123 in
  let w1 := snd (@runCommand Z Z_number env "get-issue" issue_arg None start) in
  let w2 := snd (@runCommand Z Z_number env "list-issue-hashes" issue_arg None w1) in
  exists r1 r2, sent w2 = [r1; r2] /\ via r2 <> via r1.
Proof.
  cbv zeta. eexists. eexists. split; [reflexivity|].
  apply (@clients_are_not_shared_between_runs Z Z_number (answering issue_123)
           "get-issue" "list-issue-hashes" issue_arg None issue_arg None start
           (snd (@runCommand Z Z_number (answering issue_123) "get-issue" issue_arg None
                   start)));
    reflexivity.
Defined.

Lemma falsy_profile_or_format_as_absent_witness :
  @runCommand Z Z_number (answering JNull) "get-issue"
    (Some (object_text [pair_text "profile" ""; pair_text "issueId" "123"])) None start
  = @runCommand Z Z_number (answering JNull) "get-issue" issue_arg None start.
Proof.
  exact (@falsy_profile_or_format_as_absent Z Z_number (answering JNull)
           "profile" "get-issue"
           (Some (object_text [pair_text "profile" ""; pair_text "issueId" "123"]))
           issue_arg None [("profile", JStr ""); ("issueId", JStr "123")] (JStr "") start
           (or_introl eq_refl) eq_refl eq_refl eq_refl eq_refl).
Defined.

Lemma primitive_argument_as_empty_bag_witness :
  @runCommand Z Z_number (answering JNull) "list-org-issues" (Some "5") None start
  = @runCommand Z Z_number (answering JNull) "list-org-issues" (Some "{}") None start.
Proof.
  exact (@primitive_argument_as_empty_bag Z Z_number (answering JNull)
           "list-org-issues" (Some "5") (Some "{}") None (JNum 5%Z) start
           eq_refl (or_introl (ex_intro _ 5%Z eq_refl)) eq_refl).
Defined.

Lemma failure_before_dispatch_witness :
  @runCommand Z Z_number (answering JNull) "get-issue" (Some "null") None start
  = (Exit 1,
     {| sentryUtil := None; instances := 0; sent := [];
        console := [Stderr ("Error executing command: "
                              ++ "Cannot read properties of null (reading 'profile')")] |}).
Proof.
  apply (@failure_before_dispatch Z Z_number (answering JNull) "get-issue" (Some "null")
           None (TypeError_read "null" "profile") start).
  right. split; [exists sample_config; reflexivity|].
  right. exists JNull. split; reflexivity.
Defined.

Lemma answered_run_prints_json_witness :
  console (snd (@runCommand Z Z_number (answering issue_123) "get-issue" issue_arg None
                  start))
  = [Stdout issue_123_text].
Proof.
  destruct (@answered_run_prints_json Z Z_number (answering issue_123) "get-issue"
              issue_arg None sample_config (JObj [("issueId", JStr "123")]) JUndefined
              start (get0 "/organizations/acme/issues/123/") issue_123
              eq_refl eq_refl eq_refl ltac:(discriminate) ltac:(discriminate)
              ltac:(discriminate) eq_refl eq_refl) as (_ & _ & C).
  exact C.
Defined.

Lemma help_marks_the_validated_fields_witness :
  exists msg,
    @dispatch Z Z_number (answering JNull) "get-event" (JObj [("projectSlug", JStr "p")])
      (JStr "production") (JStr "json") start
    = (Exit 1, with_stderr start msg)
    /\ includes msg (quoted "eventId").
Proof.
  destruct (@help_marks_the_validated_fields Z Z_number (answering JNull))
    as (_ & _ & _ & K).
  destruct (K 6 "get-event" (nth 6 COMMANDS_DETAIL "") (JObj [("projectSlug", JStr "p")])
              (JStr "production") (JStr "json") JUndefined start eq_refl eq_refl eq_refl
            : exists msg,
              @dispatch Z Z_number (answering JNull) "get-event"
                (JObj [("projectSlug", JStr "p")]) (JStr "production") (JStr "json") start
              = (Exit 1, with_stderr start msg)
              /\ forall field, In field ["projectSlug"; "eventId"] ->
                               includes msg (quoted field))
    as (msg & E & F).
  exists msg. split; [exact E|]. apply F. cbn. tauto.
Defined.


Lemma failed_run_reports_error_witness :
  let run := @runCommand Z Z_number (environment (fails not_found)) "get-issue" issue_arg
               None start in
  fst run = Exit 1
  /\ console (snd run) = [Stderr "ERROR: Issue not found"]
  /\ sentryUtil (snd run) <> None.
Proof.
  exact (@failed_run_reports_error Z Z_number (environment (fails not_found)) "get-issue"
           issue_arg None start (get0 "/organizations/acme/issues/123/") not_found
           eq_refl eq_refl).
Defined.


Lemma pool_invariant_is_kept_witness :
  @cache_ok Z Z_number (answering JNull)
    (snd (@getIssue Z Z_number (answering JNull)
            (JStr "production") (JStr "1") (JStr "json") connected))
  /\ @cache_ok Z Z_number (environment (fails not_found))
       (snd (@runCommand Z Z_number (environment (fails not_found)) "get-issue"
               issue_arg None start)).
Proof.
  split.
  - apply (@pool_invariant_is_kept Z Z_number (answering JNull)
             (GetIssue (JStr "production") (JStr "1") (JStr "json")) "" None None connected).
    split.
    + intros name. unfold handles. cbn [sentryUtil connected clientPool filter fst SameValueZero].
      destruct (String.eqb "production" name); cbn [length]; auto.
    + constructor; [|constructor]. split; [cbn; auto|]. exists production. reflexivity.
  - apply (@pool_invariant_is_kept Z Z_number (environment (fails not_found))
             (TestConnection JNull) "get-issue" issue_arg None start I).
Defined.

End Walkthrough.
